(** * S3 file segregation: a shallow embedding of [main.py]

    The development follows the program leaf first: string helpers of the
    Python standard library that [main.py] calls, the exception and effect
    model, then [parse_s3_uri], [extract_datetime_from_filename],
    [move_files_to_s3], the generator [list_s3_get_files] and
    [start_segregation] with its thread pool, and finally the properties. *)

From Stdlib Require Import ZArith Lia String Ascii DecimalString.
From stdpp Require Import base strings list sorting gmap.

Open Scope string_scope.
Open Scope list_scope.
Open Scope Z_scope.

(** ** Python string primitives used by the program *)

Module PyStr.

(** [s.startswith(p)] / [s.endswith(p)] *)
Definition startswith (p s : string) : bool := String.prefix p s.

Fixpoint endswith_char (c : ascii) (s : string) : bool :=
  match s with
  | EmptyString => false
  | String a EmptyString => Ascii.eqb a c
  | String _ s' => endswith_char c s'
  end.

(** [s.replace(old, new)] for a non-empty [old]: the occurrences of [old]
    are found from the left and do not overlap.  [skip] counts the
    characters of the occurrence being replaced that are still to be
    dropped. *)
Fixpoint replace_aux (old new : string) (skip : nat) (s : string) : string :=
  match s with
  | EmptyString => EmptyString
  | String c s' =>
      match skip with
      | S n => replace_aux old new n s'
      | O =>
          if String.prefix old s
          then new +:+ replace_aux old new (String.length old - 1) s'
          else String c (replace_aux old new 0 s')
      end
  end.

Definition replace (old new s : string) : string := replace_aux old new 0 s.

(** The first occurrence of the separator: [s.partition(sep)] without the
    separator itself, [None] when [sep] does not occur. *)
Fixpoint split_first (sep : ascii) (s : string) : option (string * string) :=
  match s with
  | EmptyString => None
  | String c s' =>
      if Ascii.eqb c sep then Some (EmptyString, s')
      else match split_first sep s' with
           | Some (a, b) => Some (String c a, b)
           | None => None
           end
  end.

(** [s.split(sep, 1)] *)
Definition split1 (sep : ascii) (s : string) : list string :=
  match split_first sep s with
  | Some (a, b) => [a; b]
  | None => [s]
  end.

(** [''.join(l)] *)
Fixpoint join (l : list string) : string :=
  match l with
  | [] => EmptyString
  | x :: l' => x +:+ join l'
  end.

(** [str(x)] for an [int] *)
Definition of_Z (z : Z) : string := NilZero.string_of_int (Z.to_int z).

(** [str(x)] for a value that is a string or [None] *)
Definition of_opt (o : option string) : string :=
  match o with
  | Some s => s
  | None => "None"
  end.

(** [posixpath.join(a, b)] *)
Definition os_path_join (a b : string) : string :=
  if startswith "/" b then b
  else if String.eqb a "" || endswith_char "/" a then a +:+ b
  else a +:+ "/" +:+ b.

Fixpoint contains_char (c : ascii) (s : string) : bool :=
  match s with
  | EmptyString => false
  | String a s' => Ascii.eqb a c || contains_char c s'
  end.

(** [posixpath.basename(p)]: what follows the last ['/'] *)
Fixpoint os_path_basename (p : string) : string :=
  match p with
  | EmptyString => EmptyString
  | String _ p' => if contains_char "/" p then os_path_basename p' else p
  end.

End PyStr.

Import PyStr.

(** ** Exceptions, results and the Python runtime the program relies on *)

(** The program tells [ValueError] (caught by name in
    [extract_datetime_from_filename]) from every other [Exception]
    (caught by [except Exception] in [move_files_to_s3] and
    [start_segregation]).  [Exception cls msg] stands for any exception
    class [cls] that is not a [ValueError]: [re.error], the botocore
    errors and so on. *)
Inductive exn : Type :=
| ValueError (msg : string)
| Exception (cls msg : string).

(** [str(e)], as the f-strings of the log records print it *)
Definition str_exn (e : exn) : string :=
  match e with
  | ValueError msg => msg
  | Exception _ msg => msg
  end.

Definition is_ValueError (e : exn) : bool :=
  match e with
  | ValueError _ => true
  | Exception _ _ => false
  end.

Inductive result (A : Type) : Type :=
| Ok (a : A)
| Raise (e : exn).
Arguments Ok {A} a.
Arguments Raise {A} e.

(** The library calls whose code is not part of the repository: the regular
    expression engine, [datetime.strptime], [datetime.strftime] and the
    subtraction of a [timedelta]: [sub_overflow d n] is the message of the
    [OverflowError] that [d - timedelta(seconds=n)] raises, for a delay or
    a date out of range, and [None] when the subtraction is done; its
    result is then [sub_seconds d n].

    [re_search p s] is [re.compile(p).search(s)]: it raises when [p] does not
    compile, returns [None] when nothing matches and otherwise the tuple
    [match.groups()], in which a group that took no part in the match is
    [None]. *)
Class PyRuntime : Type := {
  datetime : Type;
  re_search : string -> string -> result (option (list (option string)));
  strptime : string -> string -> result datetime;
  strftime : datetime -> string -> string;
  sub_seconds : datetime -> Z -> datetime;
  sub_overflow : datetime -> Z -> option string;
}.

Inductive level : Type := DEBUG | INFO | WARNING | ERROR.

(** ** Programs: the effects of [main.py] as a tree of calls

    A program either returns, raises, or performs one call and goes on
    with its outcome: a record handed to [logging], a reading of the clock,
    or one of the three calls on the S3 client, each of which may raise. *)
Section Programs.
Context {RT : PyRuntime}.

Inductive prog (A : Type) : Type :=
| Ret (a : A)
| Throw (e : exn)
| Logging (lvl : level) (msg : string) (k : prog A)
| Now (k : datetime -> prog A)
| ListObjectsV2 (Bucket Prefix : string) (MaxKeys : Z)
    (k : result (list string) -> prog A)
| CopyObject (Bucket Key CopySource : string) (k : result unit -> prog A)
| DeleteObject (Bucket Key : string) (k : result unit -> prog A).
Arguments Ret {A} a.
Arguments Throw {A} e.
Arguments Logging {A} lvl msg k.
Arguments Now {A} k.
Arguments ListObjectsV2 {A} Bucket Prefix MaxKeys k.
Arguments CopyObject {A} Bucket Key CopySource k.
Arguments DeleteObject {A} Bucket Key k.

Fixpoint bind {A B : Type} (p : prog A) (f : A -> prog B) : prog B :=
  match p with
  | Ret a => f a
  | Throw e => Throw e
  | Logging lvl msg k => Logging lvl msg (bind k f)
  | Now k => Now (fun t => bind (k t) f)
  | ListObjectsV2 b p m k => ListObjectsV2 b p m (fun r => bind (k r) f)
  | CopyObject b key src k => CopyObject b key src (fun r => bind (k r) f)
  | DeleteObject b key k => DeleteObject b key (fun r => bind (k r) f)
  end.

(** [try: p  except <catches> as e: h e] *)
Fixpoint try_except {A : Type} (catches : exn -> bool) (p : prog A)
         (h : exn -> prog A) : prog A :=
  match p with
  | Ret a => Ret a
  | Throw e => if catches e then h e else Throw e
  | Logging lvl msg k => Logging lvl msg (try_except catches k h)
  | Now k => Now (fun t => try_except catches (k t) h)
  | ListObjectsV2 b p m k =>
      ListObjectsV2 b p m (fun r => try_except catches (k r) h)
  | CopyObject b key src k =>
      CopyObject b key src (fun r => try_except catches (k r) h)
  | DeleteObject b key k =>
      DeleteObject b key (fun r => try_except catches (k r) h)
  end.

Definition of_result {A : Type} (r : result A) : prog A :=
  match r with
  | Ok a => Ret a
  | Raise e => Throw e
  end.

Definition logging (lvl : level) (msg : string) : prog unit :=
  Logging lvl msg (Ret tt).
Definition list_objects_v2 (Bucket Prefix : string) (MaxKeys : Z)
  : prog (list string) :=
  ListObjectsV2 Bucket Prefix MaxKeys of_result.
Definition copy_object (Bucket Key CopySource : string) : prog unit :=
  CopyObject Bucket Key CopySource of_result.
Definition delete_object (Bucket Key : string) : prog unit :=
  DeleteObject Bucket Key of_result.

End Programs.

Arguments Ret {RT A} a.
Arguments Throw {RT A} e.
Arguments Logging {RT A} lvl msg k.
Arguments Now {RT A} k.
Arguments ListObjectsV2 {RT A} Bucket Prefix MaxKeys k.
Arguments CopyObject {RT A} Bucket Key CopySource k.
Arguments DeleteObject {RT A} Bucket Key k.

(** Programs are sequenced with stdpp's monad notation:
    [x ← p; q], ['(a, b) ← p; q] and [p;; q]. *)
#[export] Instance prog_ret {RT : PyRuntime} : MRet prog := @Ret RT.
#[export] Instance prog_bind {RT : PyRuntime} : MBind prog :=
  fun A B f p => bind p f.

(** ** The program *)

Section Main.
Context {RT : PyRuntime}.

(** [parse_s3_uri]: the two-name unpacking of [split('/', 1)] raises
    [ValueError] when the list has one element. *)
Definition parse_s3_uri (s3_path : string) : result (string * string) :=
  match split1 "/" (replace "s3://" "" s3_path) with
  | [s3_bucket; s3_key] => Ok (s3_bucket, s3_key)
  | _ => Raise (ValueError "not enough values to unpack (expected 2, got 1)")
  end.

(** The records handed to [logging], as the f-strings build them. *)
Definition no_match_record (filename regex_pattern : string) : string :=
  "no match found: " +:+ "filename: " +:+ filename +:+ " "
  +:+ "regex: " +:+ regex_pattern.

Definition fail_to_convert_record
    (filename regex_pattern date_str datetime_format msg : string) : string :=
  "fail to convert date: " +:+ "filename: " +:+ filename +:+ " "
  +:+ "regex : " +:+ regex_pattern +:+ " "
  +:+ "matched_date_str: " +:+ date_str +:+ " "
  +:+ "datetime_format: " +:+ datetime_format +:+ " "
  +:+ "error: " +:+ msg.

Definition moving_record (source_path destination : string) : string :=
  "Moving " +:+ source_path +:+ " to " +:+ destination.

Definition error_moving_record (source_path destination_dir : string) (e : exn)
  : string :=
  "Error moving " +:+ source_path +:+ " to " +:+ destination_dir +:+ ": "
  +:+ str_exn e.

(** [extract_datetime_from_filename]: [None] is the function's
    "unclassified" answer. *)
Definition extract_datetime_from_filename
    (filename regex_pattern datetime_format : string) : prog (option datetime) :=
  match_ ← of_result (re_search regex_pattern filename);
  match match_ with
  | None =>
      logging ERROR (no_match_record filename regex_pattern);;
      mret None
  | Some groups =>
      let date_str := join (map of_opt groups) in
      try_except is_ValueError
        (date_obj ← of_result (strptime date_str datetime_format);
         mret (Some date_obj))
        (fun e =>
           logging ERROR (fail_to_convert_record filename regex_pattern date_str
                                                 datetime_format (str_exn e));;
           mret None)
  end.

(** [move_files_to_s3] *)
Definition move_files_to_s3 (source_path destination_dir : string) : prog unit :=
  try_except (fun _ => true)
    ('(source_bucket, source_key) ← of_result (parse_s3_uri source_path);
     '(dest_bucket, dest_dir) ← of_result (parse_s3_uri destination_dir);
     let dest_key := os_path_join dest_dir (os_path_basename source_key) in
     logging DEBUG (moving_record source_path (os_path_join dest_bucket dest_key));;
     copy_object dest_bucket dest_key source_path;;
     delete_object source_bucket source_key)
    (fun e => logging ERROR (error_moving_record source_path destination_dir e)).

(** *** The generator [list_s3_get_files] *)

Definition page_record (count_loop n_loops n_keys count : Z) : string :=
  "[curr_loop:" +:+ of_Z count_loop +:+ "]"
  +:+ "[max_loops:" +:+ of_Z n_loops +:+ "]"
  +:+ "[n_keys:" +:+ of_Z n_keys +:+ "]"
  +:+ "[n_file:" +:+ of_Z count +:+ "]".

(** The [for object in response['Contents']] loop: [paths] and [count]
    when it ends. *)
Fixpoint collect_paths (s3_bucket : string) (contents : list string)
         (paths : list string) (count : Z) : list string * Z :=
  match contents with
  | [] => (paths, count)
  | _key :: contents' =>
      if endswith_char "/" _key
      then collect_paths s3_bucket contents' paths count
      else collect_paths s3_bucket contents'
             (paths ++ [os_path_join s3_bucket _key]) (count + 1)
  end.

(** Where the generator is suspended: not started yet, at the [yield]
    (with its local variables), or finished. *)
Inductive gen_state : Type :=
| GenInit
| GenYield (s3_bucket s3_directory : string) (is_empty : bool) (count_loop : Z)
| GenDone.

(** One turn of the [while] loop, from its test to the [yield] or to the
    end of the generator. *)
Definition list_s3_get_files_loop (n_keys n_loops : Z)
    (s3_bucket s3_directory : string) (is_empty : bool) (count_loop : Z)
  : prog (option (list string) * gen_state) :=
  if (count_loop <=? n_loops) && negb is_empty then
    response ← list_objects_v2 s3_bucket s3_directory n_keys;
    match response with
    | [] => logging WARNING "Empty set";; mret (None, GenDone)
    | _ =>
        let '(paths, count) := collect_paths s3_bucket response [] 0 in
        if (length paths =? 0)%nat then
          logging WARNING "No files left";; mret (None, GenDone)
        else
          logging INFO (page_record count_loop n_loops
                                    (Z.of_nat (length response)) count);;
          mret (Some paths, GenYield s3_bucket s3_directory is_empty (count_loop + 1))
    end
  else mret (None, GenDone).

(** [next(gen)]: [Some paths] for a yielded page, [None] for
    [StopIteration]. *)
Definition list_s3_get_files (s3_path : string) (n_keys n_loops : Z)
    (g : gen_state) : prog (option (list string) * gen_state) :=
  match g with
  | GenInit =>
      '(s3_bucket, s3_directory) ← of_result (parse_s3_uri s3_path);
      list_s3_get_files_loop n_keys n_loops s3_bucket s3_directory false 1
  | GenYield s3_bucket s3_directory is_empty count_loop =>
      list_s3_get_files_loop n_keys n_loops s3_bucket s3_directory is_empty count_loop
  | GenDone => mret (None, GenDone)
  end.

End Main.

(** ** Running programs against a world

    The S3 service and the clock are outside the program.  A world of type
    [W] answers each call and moves to its next state; what it answers is
    unconstrained, so a statement proved for every world holds whatever the
    service does, transport errors included. *)

Inductive event {RT : PyRuntime} : Type :=
| ELog (lvl : level) (msg : string)
| ENow (t : datetime)
| EList (Bucket Prefix : string) (MaxKeys : Z) (r : result (list string))
| ECopy (Bucket Key CopySource : string) (r : result unit)
| EDelete (Bucket Key : string) (r : result unit).

(** Who did what: the thread that runs [start_segregation], or the worker
    that runs task [task] of page [page]; [Submitted] records
    [executor.submit(move_files_to_s3, s3_client, source_path, destination_dir)]. *)
Inductive thread : Type :=
| MainThread
| Worker (page task : nat).

Inductive entry {RT : PyRuntime} : Type :=
| Step (th : thread) (ev : event)
| Submitted (page task : nat) (source_path destination_dir : string).

Record world {RT : PyRuntime} (W : Type) : Type := {
  w_now : W -> datetime * W;
  w_list : string -> string -> Z -> W -> result (list string) * W;
  w_copy : string -> string -> string -> W -> result unit * W;
  w_delete : string -> string -> W -> result unit * W;
}.
Arguments w_now {RT W} _ _.
Arguments w_list {RT W} _ _ _ _ _.
Arguments w_copy {RT W} _ _ _ _ _.
Arguments w_delete {RT W} _ _ _ _.

Section Execution.
Context {RT : PyRuntime} {W : Type} (cl : world W).

(** One call of a program. *)
Definition step {A : Type} (p : prog A) (w : W) : option (event * prog A * W) :=
  match p with
  | Ret _ | Throw _ => None
  | Logging lvl msg k => Some (ELog lvl msg, k, w)
  | Now k => let '(t, w') := w_now cl w in Some (ENow t, k t, w')
  | ListObjectsV2 b p m k =>
      let '(r, w') := w_list cl b p m w in Some (EList b p m r, k r, w')
  | CopyObject b key src k =>
      let '(r, w') := w_copy cl b key src w in Some (ECopy b key src r, k r, w')
  | DeleteObject b key k =>
      let '(r, w') := w_delete cl b key w in Some (EDelete b key r, k r, w')
  end.

(** A program run to its end by one thread. *)
Fixpoint run {A : Type} (p : prog A) (w : W) : result A * W * list event :=
  match p with
  | Ret a => (Ok a, w, [])
  | Throw e => (Raise e, w, [])
  | Logging lvl msg k =>
      let '(r, w', tr) := run k w in (r, w', ELog lvl msg :: tr)
  | Now k =>
      let '(t, w1) := w_now cl w in
      let '(r, w', tr) := run (k t) w1 in (r, w', ENow t :: tr)
  | ListObjectsV2 b p m k =>
      let '(x, w1) := w_list cl b p m w in
      let '(r, w', tr) := run (k x) w1 in (r, w', EList b p m x :: tr)
  | CopyObject b key src k =>
      let '(x, w1) := w_copy cl b key src w in
      let '(r, w', tr) := run (k x) w1 in (r, w', ECopy b key src x :: tr)
  | DeleteObject b key k =>
      let '(x, w1) := w_delete cl b key w in
      let '(r, w', tr) := run (k x) w1 in (r, w', EDelete b key x :: tr)
  end.

(** *** The thread pool

    The tasks of a page run concurrently.  A schedule is a list of task
    indices: each one lets that task perform its next call, so the calls of
    different tasks interleave in any order.  [wait] returns when every
    future is done: once the schedule is used up, the tasks that are not
    finished are run to their end.  A task that raises keeps its exception
    in its future; [wait] does not raise it.

    The calls of the workers are placed at [wait]: between [submit] and
    [wait] the main thread only classifies the next files, which touches
    nothing but the log, so what this leaves out is the order of log records
    of different threads.  The limit [max_workers] only forbids some of
    the interleavings considered here. *)
Fixpoint pool_steps (page : nat) (sched : list nat) (tasks : list (prog unit))
         (w : W) : list (prog unit) * W * list entry :=
  match sched with
  | [] => (tasks, w, [])
  | i :: sched' =>
      match tasks !! i with
      | Some p =>
          match step p w with
          | Some (ev, p', w') =>
              let '(tasks', w'', tr) := pool_steps page sched' (<[i := p']> tasks) w' in
              (tasks', w'', Step (Worker page i) ev :: tr)
          | None => pool_steps page sched' tasks w
          end
      | None => pool_steps page sched' tasks w
      end
  end.

Fixpoint pool_join (page i : nat) (tasks : list (prog unit)) (w : W)
  : list (result unit) * W * list entry :=
  match tasks with
  | [] => ([], w, [])
  | p :: tasks' =>
      let '(r, w1, tr) := run p w in
      let '(rs, w2, tr') := pool_join page (S i) tasks' w1 in
      (r :: rs, w2, map (Step (Worker page i)) tr ++ tr')
  end.

Definition pool_wait (page : nat) (sched : list nat) (tasks : list (prog unit))
           (w : W) : list (result unit) * W * list entry :=
  let '(tasks', w1, tr1) := pool_steps page sched tasks w in
  let '(rs, w2, tr2) := pool_join page 0 tasks' w1 in
  (rs, w2, tr1 ++ tr2).

(** *** The main thread: state and exceptions *)
Record mstate : Type := {
  m_world : W;
  m_trace : list entry;
  m_scheds : list (list nat);      (* one schedule for each page to come *)
  m_page : nat;                    (* pages handed to the pool so far *)
  m_pending : list (prog unit);    (* futures submitted and not yet waited for *)
  m_done : list (result unit);     (* what the finished futures hold *)
}.

Definition Main (A : Type) : Type := mstate -> result A * mstate.

#[export] Instance main_ret : MRet Main := fun A a s => (Ok a, s).
#[export] Instance main_bind : MBind Main :=
  fun A B f m s =>
    match m s with
    | (Ok a, s') => f a s'
    | (Raise e, s') => (Raise e, s')
    end.

(** [try: m  except Exception as e: h e] *)
Definition main_try {A : Type} (m : Main A) (h : exn -> Main A) : Main A :=
  fun s =>
    match m s with
    | (Ok a, s') => (Ok a, s')
    | (Raise e, s') => h e s'
    end.

Definition main_raise {A : Type} (e : exn) : Main A := fun s => (Raise e, s).

(** A program run by the main thread itself. *)
Definition in_main {A : Type} (p : prog A) : Main A :=
  fun s =>
    let '(r, w, tr) := run p (m_world s) in
    (r, {| m_world := w;
           m_trace := m_trace s ++ map (Step MainThread) tr;
           m_scheds := m_scheds s;
           m_page := m_page s;
           m_pending := m_pending s;
           m_done := m_done s |}).

(** [executor.submit(move_files_to_s3, s3_client, source_path, destination_dir)] *)
Definition executor_submit (source_path destination_dir : string) : Main unit :=
  fun s =>
    (Ok tt, {| m_world := m_world s;
               m_trace := m_trace s
                          ++ [Submitted (m_page s) (length (m_pending s))
                                        source_path destination_dir];
               m_scheds := m_scheds s;
               m_page := m_page s;
               m_pending := m_pending s
                            ++ [move_files_to_s3 source_path destination_dir];
               m_done := m_done s |}).

(** [wait(futures)], and the [shutdown(wait=True)] of the executor. *)
Definition wait : Main unit :=
  fun s =>
    let '(rs, w, tr) :=
      pool_wait (m_page s) (hd [] (m_scheds s)) (m_pending s) (m_world s) in
    (Ok tt, {| m_world := w;
               m_trace := m_trace s ++ tr;
               m_scheds := tl (m_scheds s);
               m_page := S (m_page s);
               m_pending := [];
               m_done := m_done s ++ rs |}).

(** [with ThreadPoolExecutor(max_workers=n) as executor: body]: the
    constructor refuses [n <= 0]; leaving the block, normally or by an
    exception, waits for the futures still pending. *)
Definition with_executor {A : Type} (max_workers : Z) (body : Main A) : Main A :=
  if max_workers <=? 0
  then main_raise (ValueError "max_workers must be greater than 0")
  else fun s =>
         let '(r, s1) := body s in
         match m_pending s1 with
         | [] => (r, s1)
         | _ => let '(_, s2) := wait s1 in (r, s2)
         end.

End Execution.

(** ** [start_segregation] and the end of the script *)

(** The entries of [dict_config] that [start_segregation] reads, as
    [validate_refine_config] leaves them: the numbers are [int]s and
    [match_pattern] may be missing. *)
Record Config : Type := {
  s3_dir : string;
  s3_segregated_dir : string;
  s3_error_dir : string;
  match_pattern : option string;
  datetime_format : string;
  time_delay : Z;
  n_keys : Z;
  n_loops : Z;
  n_workers : Z;
}.

(** [not match_pattern]: [None] and the empty string are false. *)
Definition pattern_of (cfg : Config) : option string :=
  match match_pattern cfg with
  | None => None
  | Some EmptyString => None
  | Some p => Some p
  end.

Section Segregation.
Context {RT : PyRuntime} {W : Type} (cl : world W).

(** The body of [for file in files]: [_date], then the task submitted.
    A [datetime] is always true, so [not _date] holds for [None] alone. *)
Definition classify (cfg : Config) (default_date : datetime) (file : string)
  : prog (option datetime) :=
  match pattern_of cfg with
  | None => mret (Some default_date)
  | Some regex_pattern =>
      extract_datetime_from_filename
        (os_path_basename file) regex_pattern (datetime_format cfg)
  end.

Definition destination_dir (cfg : Config) (_date : option datetime) : string :=
  match _date with
  | None => s3_error_dir cfg
  | Some d => strftime d (s3_segregated_dir cfg)
  end.

Fixpoint submit_files (cfg : Config) (default_date : datetime)
         (files : list string) : Main (W := W) unit :=
  match files with
  | [] => mret tt
  | file :: files' =>
      _date ← in_main cl (classify cfg default_date file);
      executor_submit file (destination_dir cfg _date);;
      submit_files cfg default_date files'
  end.

(** [for files in list_s3_get_files(...)]: the generator is resumed, the
    page is submitted and waited for.  The generator yields at most
    [n_loops] pages, so [S (Z.to_nat n_loops)] turns always reach its end
    (see [for_pages_fuel]). *)
Fixpoint for_pages (fuel : nat) (cfg : Config) (default_date : datetime)
         (g : gen_state) : Main (W := W) unit :=
  match fuel with
  | O => mret tt
  | S fuel' =>
      '(page, g') ← in_main cl (list_s3_get_files (s3_dir cfg) (n_keys cfg)
                                                  (n_loops cfg) g);
      match page with
      | None => mret tt
      | Some files =>
          submit_files cfg default_date files;;
          wait cl;;
          for_pages fuel' cfg default_date g'
      end
  end.

(** [default_date] is computed before the [try]: the [OverflowError] of
    the subtraction leaves the function. *)
Definition start_segregation (cfg : Config) : Main (W := W) unit :=
  now ← in_main cl (Now Ret);
  match sub_overflow now (time_delay cfg) with
  | Some msg => main_raise (Exception "OverflowError" msg)
  | None =>
      let default_date := sub_seconds now (time_delay cfg) in
      main_try
        (with_executor cl (n_workers cfg)
           (for_pages (S (Z.to_nat (n_loops cfg))) cfg default_date GenInit))
        (fun e => in_main cl (logging ERROR (str_exn e)))
  end.



Definition initial (w : W) (scheds : list (list nat)) : mstate (W := W) :=
  {| m_world := w; m_trace := []; m_scheds := scheds; m_page := 0%nat;
     m_pending := []; m_done := [] |}.

End Segregation.

(** ** A reference runtime

    An executable model of the library calls, close to CPython on the
    fragment the repository's tests and configuration samples use: a
    backtracking regular-expression engine with capture groups, and
    [strptime] / [strftime] over the numeric directives.  The properties
    below are proved for every runtime; this one serves to evaluate the
    program on concrete inputs. *)
Module Re.

Inductive regex : Type :=
| Empty
| Chr (c : ascii)
| Any                                       (* . *)
| Class (neg : bool) (ranges : list (ascii * ascii))
| Bol                                       (* ^ *)
| Eol                                       (* $ *)
| Seq (r1 r2 : regex)
| Alt (r1 r2 : regex)
| Repeat (lo : nat) (hi : option nat) (r : regex)   (* greedy r{lo,hi} *)
| Group (i : nat) (r : regex).

Definition is_digit (c : ascii) : bool :=
  (48 <=? nat_of_ascii c)%nat && (nat_of_ascii c <=? 57)%nat.

Definition is_alpha (c : ascii) : bool :=
  let n := nat_of_ascii c in
  ((65 <=? n) && (n <=? 90) || (97 <=? n) && (n <=? 122))%nat.

Definition caps : Type := list (option string).

Definition in_ranges (a : ascii) (ranges : list (ascii * ascii)) : bool :=
  existsb (fun '(lo, hi) => (nat_of_ascii lo <=? nat_of_ascii a)%nat
                            && (nat_of_ascii a <=? nat_of_ascii hi)%nat) ranges.

Definition may_repeat (n : nat) (hi : option nat) : bool :=
  match hi with
  | None => true
  | Some h => (n <? h)%nat
  end.

(** [matches r pos s cs k]: match [r] at offset [pos], where [s] is what
    is left of the subject, then go on with [k]; alternatives are tried in
    order and the first success is kept, as a backtracking engine does. *)
Fixpoint matches {R : Type} (r : regex) (pos : nat) (s : string) (cs : caps)
         (k : nat -> string -> caps -> option R) {struct r} : option R :=
  match r with
  | Empty => k pos s cs
  | Chr c =>
      match s with
      | String a s' => if Ascii.eqb a c then k (S pos) s' cs else None
      | EmptyString => None
      end
  | Any =>
      match s with
      | String a s' => if Ascii.eqb a "010" then None else k (S pos) s' cs
      | EmptyString => None
      end
  | Class neg ranges =>
      match s with
      | String a s' => if xorb neg (in_ranges a ranges) then k (S pos) s' cs else None
      | EmptyString => None
      end
  | Bol => if (pos =? 0)%nat then k pos s cs else None
  | Eol =>
      match s with
      | EmptyString => k pos s cs
      | String a EmptyString => if Ascii.eqb a "010" then k pos s cs else None
      | _ => None
      end
  | Seq r1 r2 =>
      matches r1 pos s cs (fun pos' s' cs' => matches r2 pos' s' cs' k)
  | Alt r1 r2 =>
      match matches r1 pos s cs k with
      | Some x => Some x
      | None => matches r2 pos s cs k
      end
  | Group i r1 =>
      matches r1 pos s cs
        (fun pos' s' cs' =>
           k pos' s' (<[i := Some (String.substring 0 (pos' - pos) s)]> cs'))
  | Repeat lo hi r1 =>
      (fix rep (fuel n pos : nat) (s : string) (cs : caps) {struct fuel} : option R :=
         let stop := if (lo <=? n)%nat then k pos s cs else None in
         match fuel with
         | O => stop
         | S fuel' =>
             if may_repeat n hi then
               match matches r1 pos s cs
                       (fun pos' s' cs' =>
                          if (pos' =? pos)%nat && (lo <=? n)%nat then None
                          else rep fuel' (S n) pos' s' cs') with
               | Some x => Some x
               | None => stop
               end
             else stop
         end) (lo + String.length s + 1)%nat 0%nat pos s cs
  end.

(** No character test of the expression accepts a letter. *)
Fixpoint letter_free (r : regex) : bool :=
  match r with
  | Empty | Bol | Eol => true
  | Chr c => negb (is_alpha c)
  | Any => false
  | Class neg ranges =>
      negb neg
      && forallb (fun n => negb (in_ranges (ascii_of_nat n) ranges
                                 && is_alpha (ascii_of_nat n)))
                 (seq 0 256)
  | Seq r1 r2 | Alt r1 r2 => letter_free r1 && letter_free r2
  | Repeat _ _ _ => false
  | Group _ r1 => letter_free r1
  end.

(** [pattern.search(s)]: the leftmost start at which the pattern matches. *)
Fixpoint search_from (r : regex) (ngroups pos : nat) (s : string) : option caps :=
  match matches r pos s (replicate ngroups None) (fun _ _ cs => Some cs) with
  | Some cs => Some cs
  | None =>
      match s with
      | EmptyString => None
      | String _ s' => search_from r ngroups (S pos) s'
      end
  end.

(** *** The pattern syntax *)

(** A run of decimal digits at the head of [p]. *)
Fixpoint number (p : string) (acc : option nat) : option nat * string :=
  match p with
  | String c p' =>
      if is_digit c
      then number p' (Some (10 * default 0 acc + (nat_of_ascii c - 48)))%nat
      else (acc, p)
  | EmptyString => (acc, p)
  end.

(** The quantifier that follows an atom, if there is one. *)
Definition quantified (a : regex) (p : string) : regex * string :=
  match p with
  | String "*" p' => (Repeat 0 None a, p')
  | String "+" p' => (Repeat 1 None a, p')
  | String "?" p' => (Repeat 0 (Some 1%nat) a, p')
  | String "{" p' =>
      match number p' None with
      | (Some lo, String "}" p'') => (Repeat lo (Some lo) a, p'')
      | (Some lo, String "," p'') =>
          match number p'' None with
          | (hi, String "}" p3) => (Repeat lo hi a, p3)
          | _ => (a, p)
          end
      | _ => (a, p)
      end
  | _ => (a, p)
  end.

(** The inside of [[...]], after an optional [^]: single characters and
    ranges, up to the closing bracket. *)
Fixpoint class_items (p : string) (acc : list (ascii * ascii))
  : option (list (ascii * ascii) * string) :=
  match p with
  | EmptyString => None
  | String "]" p' => Some (acc, p')
  | String lo (String "-" (String hi p')) =>
      if Ascii.eqb hi "]" then Some (acc ++ [(lo, lo); ("-"%char, "-"%char)], p')
      else class_items p' (acc ++ [(lo, hi)])
  | String c p' => class_items p' (acc ++ [(c, c)])
  end.

Definition escaped (c : ascii) : option regex :=
  if Ascii.eqb c "d" then Some (Class false [("0"%char, "9"%char)])
  else if Ascii.eqb c "D" then Some (Class true [("0"%char, "9"%char)])
  else if is_alpha c || is_digit c then None
  else Some (Chr c).

(** Recursive descent; [g] is the number of groups opened so far.  [None]
    is a pattern that does not compile (or is outside the fragment). *)
Fixpoint parse_alt (fuel : nat) (p : string) (g : nat) {struct fuel}
  : option (regex * string * nat) :=
  match fuel with
  | O => None
  | S fuel' =>
      match parse_seq fuel' p g with
      | Some (r1, String "|" p', g') =>
          match parse_alt fuel' p' g' with
          | Some (r2, p'', g'') => Some (Alt r1 r2, p'', g'')
          | None => None
          end
      | other => other
      end
  end
with parse_seq (fuel : nat) (p : string) (g : nat) {struct fuel}
  : option (regex * string * nat) :=
  match fuel with
  | O => None
  | S fuel' =>
      match p with
      | EmptyString | String ")" _ | String "|" _ => Some (Empty, p, g)
      | _ =>
          match parse_atom fuel' p g with
          | Some (a, p1, g1) =>
              let '(a', p2) := quantified a p1 in
              match parse_seq fuel' p2 g1 with
              | Some (r, p3, g3) => Some (Seq a' r, p3, g3)
              | None => None
              end
          | None => None
          end
      end
  end
with parse_atom (fuel : nat) (p : string) (g : nat) {struct fuel}
  : option (regex * string * nat) :=
  match fuel with
  | O => None
  | S fuel' =>
      match p with
      | EmptyString => None
      | String "(" p' =>
          match parse_alt fuel' p' (S g) with
          | Some (r, String ")" p'', g') => Some (Group g r, p'', g')
          | _ => None
          end
      | String "[" (String "^" p') =>
          match class_items p' [] with
          | Some (items, p'') => Some (Class true items, p'', g)
          | None => None
          end
      | String "[" p' =>
          match class_items p' [] with
          | Some (items, p'') => Some (Class false items, p'', g)
          | None => None
          end
      | String "\" (String c p') =>
          match escaped c with
          | Some r => Some (r, p', g)
          | None => None
          end
      | String "\" EmptyString => None
      | String "." p' => Some (Any, p', g)
      | String "^" p' => Some (Bol, p', g)
      | String "$" p' => Some (Eol, p', g)
      | String "*" _ | String "+" _ | String "?" _ | String ")" _ => None
      | String c p' => Some (Chr c, p', g)
      end
  end.

(** [re.compile(p)]: the expression and its number of groups. *)
Definition compile (p : string) : option (regex * nat) :=
  match parse_alt (3 * String.length p + 3) p 0 with
  | Some (r, EmptyString, g) => Some (r, g)
  | _ => None
  end.

Definition search (p s : string) : result (option (list (option string))) :=
  match compile p with
  | None => Raise (Exception "re.error" ("cannot compile " +:+ p))
  | Some (r, g) => Ok (search_from r g 0 s)
  end.

End Re.

Module Datetime.

Record t : Type := {
  year : Z; month : Z; day : Z;
  hour : Z; minute : Z; second : Z; microsecond : Z;
}.

Definition is_leap (y : Z) : bool :=
  (y mod 4 =? 0) && (negb (y mod 100 =? 0) || (y mod 400 =? 0)).

Definition days_in_month (y m : Z) : Z :=
  if m =? 2 then (if is_leap y then 29 else 28)
  else if (m =? 4) || (m =? 6) || (m =? 9) || (m =? 11) then 30
  else 31.

(** [datetime(y, m, d, H, M, S)], with the range checks of the constructor. *)
Definition make (y m d H M S : Z) : result t :=
  if (y <? 1) || (9999 <? y)
  then Raise (ValueError ("year " +:+ of_Z y +:+ " is out of range"))
  else if (m <? 1) || (12 <? m)
  then Raise (ValueError "month must be in 1..12")
  else if (d <? 1) || (days_in_month y m <? d)
  then Raise (ValueError "day is out of range for month")
  else if (H <? 0) || (23 <? H)
  then Raise (ValueError "hour must be in 0..23")
  else if (M <? 0) || (59 <? M)
  then Raise (ValueError "minute must be in 0..59")
  else if (S <? 0) || (59 <? S)
  then Raise (ValueError "second must be in 0..59")
  else Ok {| year := y; month := m; day := d;
             hour := H; minute := M; second := S; microsecond := 0 |}.

(** *** Formats *)

Inductive directive : Type := DY | Dm | Dd | DH | DM | DS.

Definition directive_eqb (a b : directive) : bool :=
  match a, b with
  | DY, DY | Dm, Dm | Dd, Dd | DH, DH | DM, DM | DS, DS => true
  | _, _ => false
  end.

Inductive item : Type :=
| Lit (c : ascii)
| Space
| Dir (d : directive).

Definition directive_of (c : ascii) : option directive :=
  if Ascii.eqb c "Y" then Some DY
  else if Ascii.eqb c "m" then Some Dm
  else if Ascii.eqb c "d" then Some Dd
  else if Ascii.eqb c "H" then Some DH
  else if Ascii.eqb c "M" then Some DM
  else if Ascii.eqb c "S" then Some DS
  else None.

Definition is_space (c : ascii) : bool :=
  let n := nat_of_ascii c in ((n =? 32) || (9 <=? n) && (n <=? 13))%nat.

(** The format cut into literal characters, runs of white space and
    directives; a stray or unknown [%] is a [ValueError]. *)
Fixpoint items (fmt : string) (after_space : bool) : result (list item) :=
  match fmt with
  | EmptyString => Ok []
  | String "%" EmptyString => Raise (ValueError "stray % in format")
  | String "%" (String c fmt') =>
      match (if Ascii.eqb c "%" then Some (Lit "%") else Dir <$> directive_of c) with
      | Some it =>
          match items fmt' false with
          | Ok its => Ok (it :: its)
          | Raise e => Raise e
          end
      | None => Raise (ValueError ("'" +:+ String c "' is a bad directive in format"))
      end
  | String c fmt' =>
      if is_space c then
        match items fmt' true with
        | Ok its => Ok (if after_space then its else Space :: its)
        | Raise e => Raise e
        end
      else
        match items fmt' false with
        | Ok its => Ok (Lit c :: its)
        | Raise e => Raise e
        end
  end.

Definition digit : Re.regex := Re.Class false [("0"%char, "9"%char)].
Definition range (lo hi : ascii) : Re.regex := Re.Class false [(lo, hi)].

(** The expression of each directive, as [_strptime.TimeRE] has it. *)
Definition directive_regex (d : directive) : Re.regex :=
  match d with
  | DY => Re.Seq digit (Re.Seq digit (Re.Seq digit digit))
  | Dm => Re.Alt (Re.Seq (Re.Chr "1") (range "0" "2"))
            (Re.Alt (Re.Seq (Re.Chr "0") (range "1" "9")) (range "1" "9"))
  | Dd => Re.Alt (Re.Seq (Re.Chr "3") (range "0" "1"))
            (Re.Alt (Re.Seq (range "1" "2") digit)
               (Re.Alt (Re.Seq (Re.Chr "0") (range "1" "9"))
                  (Re.Alt (range "1" "9") (Re.Seq (Re.Chr " ") (range "1" "9")))))
  | DH => Re.Alt (Re.Seq (Re.Chr "2") (range "0" "3"))
            (Re.Alt (Re.Seq (range "0" "1") digit) digit)
  | DM => Re.Alt (Re.Seq (range "0" "5") digit) digit
  | DS => Re.Alt (Re.Seq (Re.Chr "6") (range "0" "1"))
            (Re.Alt (Re.Seq (range "0" "5") digit) digit)
  end.

Definition swap_case (c : ascii) : ascii :=
  let n := nat_of_ascii c in
  if ((65 <=? n) && (n <=? 90))%nat then ascii_of_nat (n + 32)
  else if ((97 <=? n) && (n <=? 122))%nat then ascii_of_nat (n - 32)
  else c.

(** The expression of a format (matched ignoring case), with the
    directives in the order of their groups; a directive used twice does
    not compile: its group name is defined twice. *)
Fixpoint format_regex (its : list item) (seen : list directive)
  : result (Re.regex * list directive) :=
  match its with
  | [] => Ok (Re.Empty, seen)
  | it :: its' =>
      match it with
      | Lit c =>
          match format_regex its' seen with
          | Ok (r, ds) => Ok (Re.Seq (Re.Class false [(c, c); (swap_case c, swap_case c)]) r, ds)
          | Raise e => Raise e
          end
      | Space =>
          match format_regex its' seen with
          | Ok (r, ds) =>
              Ok (Re.Seq (Re.Repeat 1 None
                            (Re.Class false [(" "%char, " "%char); ("009"%char, "013"%char)])) r, ds)
          | Raise e => Raise e
          end
      | Dir d =>
          if existsb (directive_eqb d) seen
          then Raise (Exception "re.error" "redefinition of group name")
          else
            match format_regex its' (seen ++ [d]) with
            | Ok (r, ds) => Ok (Re.Seq (Re.Group (length seen) (directive_regex d)) r, ds)
            | Raise e => Raise e
            end
      end
  end.

(** [int(s)] of a captured field (digits, possibly after a space). *)
Fixpoint to_Z (s : string) (acc : Z) : Z :=
  match s with
  | EmptyString => acc
  | String c s' =>
      if Re.is_digit c then to_Z s' (10 * acc + Z.of_nat (nat_of_ascii c - 48))
      else to_Z s' acc
  end.

Fixpoint field (d : directive) (ds : list directive) (cs : Re.caps) (dflt : Z) : Z :=
  match ds, cs with
  | d' :: ds', c :: cs' =>
      if directive_eqb d d' then to_Z (of_opt c) 0 else field d ds' cs' dflt
  | _, _ => dflt
  end.

(** [datetime.strptime(s, fmt)] *)
Definition strptime (s fmt : string) : result t :=
  match items fmt false with
  | Raise e => Raise e
  | Ok its =>
      match format_regex its [] with
      | Raise e => Raise e
      | Ok (r, ds) =>
          match Re.matches r 0 s (replicate (length ds) None)
                  (fun _ rest cs => Some (cs, rest)) with
          | None =>
              Raise (ValueError ("time data '" +:+ s +:+ "' does not match format '"
                                 +:+ fmt +:+ "'"))
          | Some (cs, EmptyString) =>
              make (field DY ds cs 1900) (field Dm ds cs 1) (field Dd ds cs 1)
                   (field DH ds cs 0) (field DM ds cs 0) (field DS ds cs 0)
          | Some (_, rest) =>
              Raise (ValueError ("unconverted data remains: " +:+ rest))
          end
      end
  end.

Definition pad2 (n : Z) : string :=
  if n <? 10 then "0" +:+ of_Z n else of_Z n.

(** [d.strftime(fmt)] over the same directives. *)
Fixpoint strftime (d : t) (fmt : string) : string :=
  match fmt with
  | EmptyString => EmptyString
  | String "%" (String c fmt') =>
      (if Ascii.eqb c "%" then "%"
       else match directive_of c with
            | Some DY => of_Z (year d)
            | Some Dm => pad2 (month d)
            | Some Dd => pad2 (day d)
            | Some DH => pad2 (hour d)
            | Some DM => pad2 (minute d)
            | Some DS => pad2 (second d)
            | None => String "%" (String c EmptyString)
            end) +:+ strftime d fmt'
  | String c fmt' => String c (strftime d fmt')
  end.

(** *** [d - timedelta(seconds=n)], through the day number of the date *)

Definition days_from_civil (y m d : Z) : Z :=
  let y' := if m <=? 2 then y - 1 else y in
  let era := y' / 400 in
  let yoe := y' - era * 400 in
  let doy := (153 * (m + (if 2 <? m then -3 else 9)) + 2) / 5 + d - 1 in
  let doe := yoe * 365 + yoe / 4 - yoe / 100 + doy in
  era * 146097 + doe - 719468.

Definition civil_from_days (z : Z) : Z * Z * Z :=
  let z := z + 719468 in
  let era := z / 146097 in
  let doe := z - era * 146097 in
  let yoe := (doe - doe / 1460 + doe / 36524 - doe / 146096) / 365 in
  let doy := doe - (365 * yoe + yoe / 4 - yoe / 100) in
  let mp := (5 * doy + 2) / 153 in
  let d := doy - (153 * mp + 2) / 5 + 1 in
  let m := if mp <? 10 then mp + 3 else mp - 9 in
  (yoe + era * 400 + (if m <=? 2 then 1 else 0), m, d).

Definition sub_seconds (dt : t) (n : Z) : t :=
  let total := days_from_civil (year dt) (month dt) (day dt) * 86400
               + hour dt * 3600 + minute dt * 60 + second dt - n in
  let '(y, m, d) := civil_from_days (total / 86400) in
  let rest := total mod 86400 in
  {| year := y; month := m; day := d;
     hour := rest / 3600; minute := (rest mod 3600) / 60; second := rest mod 60;
     microsecond := microsecond dt |}.

(** [dt - timedelta(seconds=n)] raises [OverflowError] when the days of
    the [timedelta] do not fit a C [int] or exceed 999999999 in magnitude,
    and when the year of the result is not between 1 and 9999. *)
Definition sub_overflow (dt : t) (n : Z) : option string :=
  let days := n / 86400 in
  if (days <? -2147483648) || (2147483647 <? days)
  then Some "Python int too large to convert to C int"
  else if (days <? -999999999) || (999999999 <? days)
  then Some ("days=" +:+ of_Z days +:+ "; must have magnitude <= 999999999")
  else
    let y := year (sub_seconds dt n) in
    if (y <? 1) || (9999 <? y) then Some "date value out of range" else None.

End Datetime.

(** The reference runtime. *)
#[export] Instance CPython : PyRuntime := {|
  datetime := Datetime.t;
  re_search := Re.search;
  strptime := Datetime.strptime;
  strftime := Datetime.strftime;
  sub_seconds := Datetime.sub_seconds;
  sub_overflow := Datetime.sub_overflow;
|}.

Definition date (y m d H M S : Z) : Datetime.t :=
  {| Datetime.year := y; Datetime.month := m; Datetime.day := d;
     Datetime.hour := H; Datetime.minute := M; Datetime.second := S;
     Datetime.microsecond := 0 |}.

(** ** A reference S3 service

    Objects are kept by bucket and key.  Each kind of call has its own
    counter, and a fault plan tells which calls fail with a transport error;
    a failed call changes nothing.  A copy whose source is missing, or whose
    source and destination are the same object, is refused by the service. *)
Module S3.

Record state {RT : PyRuntime} : Type := {
  objects : gmap (string * string) string;
  clock : datetime;
  fail_list : nat -> bool;
  fail_copy : nat -> bool;
  fail_delete : nat -> bool;
  n_list : nat;
  n_copy : nat;
  n_delete : nat;
}.

Definition transport_error : exn :=
  Exception "EndpointConnectionError" "Could not connect to the endpoint URL".

Section Service.
Context {RT : PyRuntime}.

Definition now (st : state) : datetime * state :=
  (clock st,
   {| objects := objects st; clock := sub_seconds (clock st) (-1);
      fail_list := fail_list st; fail_copy := fail_copy st;
      fail_delete := fail_delete st;
      n_list := n_list st; n_copy := n_copy st; n_delete := n_delete st |}).

Definition with_objects (st : state) (o : gmap (string * string) string)
           (dl dc dd : nat) : state :=
  {| objects := o; clock := clock st;
     fail_list := fail_list st; fail_copy := fail_copy st;
     fail_delete := fail_delete st;
     n_list := n_list st + dl; n_copy := n_copy st + dc;
     n_delete := n_delete st + dd |}.

(** The keys of [Bucket] that start with [Prefix], in the order of their
    bytes. *)
Definition keys_under (Bucket Prefix : string) (o : gmap (string * string) string)
  : list string :=
  merge_sort (fun a b : string => String.leb a b)
    (omap (fun '((b, k), _) =>
             if String.eqb b Bucket && startswith Prefix k then Some k else None)
          (map_to_list o)).

(** [list_objects_v2(Bucket, Prefix, MaxKeys)]: at most [MaxKeys] keys,
    and never more than 1000. *)
Definition list_objects_v2 (Bucket Prefix : string) (MaxKeys : Z) (st : state)
  : result (list string) * state :=
  if fail_list st (n_list st)
  then (Raise transport_error, with_objects st (objects st) 1 0 0)
  else (Ok (take (Z.to_nat (Z.min MaxKeys 1000)) (keys_under Bucket Prefix (objects st))),
        with_objects st (objects st) 1 0 0).

(** [CopySource] is read as [bucket/key]. *)
Definition source_of (CopySource : string) : option (string * string) :=
  split_first "/" CopySource.

Definition copy_object (Bucket Key CopySource : string) (st : state)
  : result unit * state :=
  if fail_copy st (n_copy st)
  then (Raise transport_error, with_objects st (objects st) 0 1 0)
  else
    match source_of CopySource with
    | None => (Raise (Exception "ClientError" "InvalidArgument"),
               with_objects st (objects st) 0 1 0)
    | Some src =>
        match objects st !! src with
        | None => (Raise (Exception "ClientError" "NoSuchKey"),
                   with_objects st (objects st) 0 1 0)
        | Some body =>
            if decide (src = (Bucket, Key))
            then (Raise (Exception "ClientError" "InvalidRequest"),
                  with_objects st (objects st) 0 1 0)
            else (Ok tt, with_objects st (<[(Bucket, Key) := body]> (objects st)) 0 1 0)
        end
    end.

Definition delete_object (Bucket Key : string) (st : state) : result unit * state :=
  if fail_delete st (n_delete st)
  then (Raise transport_error, with_objects st (objects st) 0 0 1)
  else (Ok tt, with_objects st (delete (Bucket, Key) (objects st)) 0 0 1).

Definition service : world state := {|
  w_now := now;
  w_list := list_objects_v2;
  w_copy := copy_object;
  w_delete := delete_object;
|}.

Definition never : nat -> bool := fun _ => false.
Definition always : nat -> bool := fun _ => true.

(** A service holding [objs], with the given fault plans. *)
Definition make (objs : list (string * string * string)) (t : datetime)
           (fl fc fd : nat -> bool) : state :=
  {| objects := list_to_map objs; clock := t;
     fail_list := fl; fail_copy := fc; fail_delete := fd;
     n_list := 0; n_copy := 0; n_delete := 0 |}.

End Service.

End S3.

(** A sample configuration and bucket, with the file names of the tests. *)
Definition sample_config : Config := {|
  s3_dir := "s3://cdr/in/";
  s3_segregated_dir := "s3://cdr/out/%Y/%m/%d/";
  s3_error_dir := "s3://cdr/error/";
  match_pattern := Some "CHARGINGCDR_.*-(\d{8})-.*.ber";
  datetime_format := "%Y%m%d";
  time_delay := 86400;
  n_keys := 500;
  n_loops := 10;
  n_workers := 4;
|}.


Definition sample_config_one_page : Config := {|
  s3_dir := "s3://cdr/in/";
  s3_segregated_dir := "s3://cdr/out/%Y/%m/%d/";
  s3_error_dir := "s3://cdr/error/";
  match_pattern := Some "CHARGINGCDR_.*-(\d{8})-.*.ber";
  datetime_format := "%Y%m%d";
  time_delay := 86400;
  n_keys := 500;
  n_loops := 1;
  n_workers := 4;
|}.


Definition sample_objects : list (string * string * string) :=
  [ (("cdr", "in/"), "");
    (("cdr", "in/CHARGINGCDR_4008-BROCC3-20240901-234125-56908.ber"), "cdr-1");
    (("cdr", "in/report_wrong_format.txt"), "report") ].

Definition sample_service (fl fc fd : nat -> bool) : S3.state (RT := CPython) :=
  S3.make sample_objects (date 2024 9 2 8 0 0) fl fc fd.

Definition cdr_file : string := "CHARGINGCDR_4008-BROCC3-20240901-234125-56908.ber".
Definition cdr_pattern : string := "CHARGINGCDR_.*-(\d{8})-.*.ber".
Definition report_file : string := "report_wrong_format.txt".
Definition report_pattern : string := "(\d{4})-(\d{2})-(\d{2})".

Definition run_sample (cfg : Config) (st : S3.state (RT := CPython))
  : result unit * mstate (W := S3.state) :=
  start_segregation S3.service cfg (initial st []).

(** ** What the properties are stated with *)

#[export] Instance thread_eq_dec : EqDecision thread.
Proof. solve_decision. Defined.

Section Traces.
Context {RT : PyRuntime}.

(** [is_trace p tr r]: [p] may perform the calls [tr], with the answers
    recorded in them, and end with [r].  The answers are arbitrary: these
    are the behaviours of [p] against every service. *)
Inductive is_trace {A : Type} : prog A -> list event -> result A -> Prop :=
| trace_ret a : is_trace (Ret a) [] (Ok a)
| trace_throw e : is_trace (Throw e) [] (Raise e)
| trace_log lvl msg k tr r :
    is_trace k tr r -> is_trace (Logging lvl msg k) (ELog lvl msg :: tr) r
| trace_now k t tr r :
    is_trace (k t) tr r -> is_trace (Now k) (ENow t :: tr) r
| trace_list b p m k x tr r :
    is_trace (k x) tr r -> is_trace (ListObjectsV2 b p m k) (EList b p m x :: tr) r
| trace_copy b key src k x tr r :
    is_trace (k x) tr r -> is_trace (CopyObject b key src k) (ECopy b key src x :: tr) r
| trace_delete b key k x tr r :
    is_trace (k x) tr r -> is_trace (DeleteObject b key k) (EDelete b key x :: tr) r.

(** Every call [p] can ever perform satisfies [P]. *)
Fixpoint all_events {A : Type} (P : event -> Prop) (p : prog A) : Prop :=
  match p with
  | Ret _ | Throw _ => True
  | Logging lvl msg k => P (ELog lvl msg) /\ all_events P k
  | Now k => forall t, P (ENow t) /\ all_events P (k t)
  | ListObjectsV2 b p m k => forall x, P (EList b p m x) /\ all_events P (k x)
  | CopyObject b key src k => forall x, P (ECopy b key src x) /\ all_events P (k x)
  | DeleteObject b key k => forall x, P (EDelete b key x) /\ all_events P (k x)
  end.

Definition never_raises {A : Type} (p : prog A) : Prop :=
  forall tr r, is_trace p tr r -> exists a, r = Ok a.

Definition is_log (ev : event) : Prop :=
  match ev with
  | ELog _ _ => True
  | _ => False
  end.

Definition is_listing (ev : event) : Prop :=
  match ev with
  | EList _ _ _ _ => True
  | _ => False
  end.

Definition is_delete (ev : event) : Prop :=
  match ev with
  | EDelete _ _ _ => True
  | _ => False
  end.

(** The copy of [source_path] reported success. *)
Definition is_copy_ok (source_path : string) (ev : event) : Prop :=
  match ev with
  | ECopy _ _ src (Ok _) => src = source_path
  | _ => False
  end.

(** The exception an S3 call raised, if it raised. *)
Definition raised (ev : event) : option exn :=
  match ev with
  | EList _ _ _ (Raise e) | ECopy _ _ _ (Raise e) | EDelete _ _ (Raise e) => Some e
  | _ => None
  end.

(** What one thread did, in order. *)
Fixpoint events_of (th : thread) (tr : list entry) : list event :=
  match tr with
  | [] => []
  | Step th' ev :: tr' =>
      if decide (th' = th) then ev :: events_of th tr' else events_of th tr'
  | Submitted _ _ _ _ :: tr' => events_of th tr'
  end.

(** The destinations of the tasks submitted. *)
Fixpoint submitted (tr : list entry) : list (string * string) :=
  match tr with
  | [] => []
  | Submitted _ _ src dst :: tr' => (src, dst) :: submitted tr'
  | Step _ _ :: tr' => submitted tr'
  end.

(** The pages a generator hands out when it is resumed again and again,
    whatever the service answers and whatever happens between two pulls. *)
Inductive pulls (s3_path : string) (n_keys n_loops : Z)
  : gen_state -> list (list string) -> Prop :=
| pulls_nil g : pulls s3_path n_keys n_loops g []
| pulls_cons g tr page g' pages :
    is_trace (list_s3_get_files s3_path n_keys n_loops g) tr (Ok (Some page, g')) ->
    pulls s3_path n_keys n_loops g' pages ->
    pulls s3_path n_keys n_loops g (page :: pages).

End Traces.

(** The keys of a listing that are not folders, as paths [bucket/key]. *)
Definition real_files (s3_bucket : string) (keys : list string) : list string :=
  map (os_path_join s3_bucket)
      (List.filter (fun k => negb (endswith_char "/" k)) keys).


(** The listing call of the main thread that raised, if this entry is one. *)
Definition failed_listing {RT : PyRuntime} (en : entry) : option exn :=
  match en with
  | Step MainThread (EList _ _ _ (Raise e)) => Some e
  | _ => None
  end.


(** What the loop of [list_s3_get_files] does with the answer of the
    listing call (see [loop_after_listing]). *)
Definition after_listing {RT : PyRuntime} (n_loops : Z) (b d : string) (e : bool)
    (c : Z) (keys : list string) : prog (option (list string) * gen_state) :=
  match keys with
  | [] => Logging WARNING "Empty set" (Ret (None, GenDone))
  | _ =>
      if (length (real_files b keys) =? 0)%nat
      then Logging WARNING "No files left" (Ret (None, GenDone))
      else Logging INFO (page_record c n_loops (Z.of_nat (length keys))
                                     (Z.of_nat (length (real_files b keys))))
                   (Ret (Some (real_files b keys), GenYield b d e (c + 1)))
  end.

(** Where a suspended generator is in its loop: bucket, prefix and
    [count_loop] at the next test of the [while]. *)
Definition resumes_at (s3_path : string) (g : gen_state) (b d : string) (c : Z) : Prop :=
  (g = GenInit /\ parse_s3_uri s3_path = Ok (b, d) /\ c = 1)
  \/ g = GenYield b d false c.

(** The pulls that can still yield. *)
Definition remaining (n_loops : Z) (g : gen_state) : nat :=
  match g with
  | GenInit => Z.to_nat n_loops
  | GenYield _ _ _ c => Z.to_nat (n_loops - c + 1)
  | GenDone => 0%nat
  end.

(** The calls a move can make. *)
Definition move_event {RT : PyRuntime} (ev : event) : Prop :=
  match ev with
  | ELog _ _ | ECopy _ _ _ _ | EDelete _ _ _ => True
  | _ => False
  end.

Definition moves_only {RT : PyRuntime} (tasks : list (prog unit)) : Prop :=
  Forall (fun p => exists s d, p = move_files_to_s3 s d) tasks.

(** What [start_segregation] adds to the trace after it has read the
    clock: listing calls and log records of the main thread, the tasks it
    submits, each with a destination computed from the classification of
    its file, and the calls of the moves on the workers. *)
Definition loop_entry {RT : PyRuntime} (cfg : Config) (default_date : datetime)
    (en : entry) : Prop :=
  match en with
  | Step MainThread (EList _ _ _ _) | Step MainThread (ELog _ _) => True
  | Step MainThread _ => False
  | Step (Worker _ _) ev => move_event ev
  | Submitted _ _ file dest =>
      exists d tr, is_trace (classify cfg default_date file) tr (Ok d)
                   /\ dest = destination_dir cfg d
  end.



(** No listing call of the main thread raised. *)
Definition clean {RT : PyRuntime} (tr : list entry) : Prop :=
  Forall (fun en => failed_listing en = None) tr.

(** From state [s] to state [s'] the main thread added [tr] to the trace:
    the entries are those of the loop, the pending futures are still moves,
    the finished ones ended without an exception, and every task submitted
    is pending or finished. *)
Definition advances {RT : PyRuntime} {W : Type} (cfg : Config) (default_date : datetime)
    (s s' : mstate (W := W)) (tr : list entry) : Prop :=
  m_trace s' = m_trace s ++ tr
  /\ Forall (loop_entry cfg default_date) tr
  /\ (moves_only (m_pending s) -> moves_only (m_pending s'))
  /\ (Forall (fun r => r = Ok tt) (m_done s) -> Forall (fun r => r = Ok tt) (m_done s'))
  /\ (length (m_done s') + length (m_pending s')
      = length (m_done s) + length (m_pending s) + length (submitted tr))%nat.

(** Either no listing call failed, or the one that failed is the last
    entry, its exception is the result, and no future is pending. *)
Definition stops_on_failed_listing {RT : PyRuntime} {W : Type}
    (tr : list entry) (r : result unit) (s' : mstate (W := W)) : Prop :=
  clean tr
  \/ exists pre b d m e,
      tr = pre ++ [Step MainThread (EList b d m (Raise e))]
      /\ clean pre /\ r = Raise e /\ m_pending s' = [].

(** Observations on a trace: a copy of [source_path] raised on a worker;
    a listing call of the main thread raised. *)
Definition copy_failed {RT : PyRuntime} (source_path : string) (en : entry) : bool :=
  match en with
  | Step (Worker _ _) (ECopy _ _ src (Raise _)) => String.eqb src source_path
  | _ => false
  end.


(** [old] occurs somewhere in [s]. *)
Fixpoint occurs (old s : string) : bool :=
  String.prefix old s
  || match s with
     | EmptyString => false
     | String _ s' => occurs old s'
     end.

(** [parse] as the specification words it: the scheme is stripped where it
    is a prefix, and the rest is cut at its first separator. *)
Definition parse_as_specified (uri : string) : option (string * string) :=
  split_first "/"
    (if startswith "s3://" uri
     then String.substring 5 (String.length uri - 5) uri
     else uri).

Definition has_letter (s : string) : bool :=
  existsb Re.is_alpha (list_ascii_of_string s).

(** Where [move_files_to_s3] copies to. *)
Definition destination_of (source_path destination_dir : string)
  : option (string * string) :=
  match parse_s3_uri source_path, parse_s3_uri destination_dir with
  | Ok (_, source_key), Ok (dest_bucket, dest_dir) =>
      Some (dest_bucket, os_path_join dest_dir (os_path_basename source_key))
  | _, _ => None
  end.

(** The behaviours of one move, as [move_files_to_s3] is written: a path
    that does not parse, a copy that fails, a delete that fails, or both
    calls done. *)
Inductive move_trace {RT : PyRuntime} (source_path destination_dir : string)
  : list event -> Prop :=
| move_bad_source e :
    parse_s3_uri source_path = Raise e ->
    move_trace source_path destination_dir
      [ELog ERROR (error_moving_record source_path destination_dir e)]
| move_bad_destination sb sk e :
    parse_s3_uri source_path = Ok (sb, sk) ->
    parse_s3_uri destination_dir = Raise e ->
    move_trace source_path destination_dir
      [ELog ERROR (error_moving_record source_path destination_dir e)]
| move_copy_failed sb sk db dd e :
    parse_s3_uri source_path = Ok (sb, sk) ->
    parse_s3_uri destination_dir = Ok (db, dd) ->
    move_trace source_path destination_dir
      [ELog DEBUG (moving_record source_path
                     (os_path_join db (os_path_join dd (os_path_basename sk))));
       ECopy db (os_path_join dd (os_path_basename sk)) source_path (Raise e);
       ELog ERROR (error_moving_record source_path destination_dir e)]
| move_delete_failed sb sk db dd e :
    parse_s3_uri source_path = Ok (sb, sk) ->
    parse_s3_uri destination_dir = Ok (db, dd) ->
    move_trace source_path destination_dir
      [ELog DEBUG (moving_record source_path
                     (os_path_join db (os_path_join dd (os_path_basename sk))));
       ECopy db (os_path_join dd (os_path_basename sk)) source_path (Ok tt);
       EDelete sb sk (Raise e);
       ELog ERROR (error_moving_record source_path destination_dir e)]
| move_done sb sk db dd :
    parse_s3_uri source_path = Ok (sb, sk) ->
    parse_s3_uri destination_dir = Ok (db, dd) ->
    move_trace source_path destination_dir
      [ELog DEBUG (moving_record source_path
                     (os_path_join db (os_path_join dd (os_path_basename sk))));
       ECopy db (os_path_join dd (os_path_basename sk)) source_path (Ok tt);
       EDelete sb sk (Ok tt)].

(** A listing call is made by the main thread, names the bucket and the
    prefix of [s3_dir] and asks for [n_keys] keys. *)
Definition same_request {RT : PyRuntime} (cfg : Config) (en : entry) : Prop :=
  match en with
  | Step th (EList b d m _) =>
      th = MainThread /\ m = n_keys cfg /\ parse_s3_uri (s3_dir cfg) = Ok (b, d)
  | _ => True
  end.

(** ** The configuration

    [parse_config] turns the XML file into a dictionary,
    [validate_args] checks the command line and [validate_refine_config]
    checks and completes the dictionary [start_segregation] is run with. *)

(** [str.strip()], [posixpath.dirname]; a string stands for a Python
    [str] whose characters are below 256, and [isspace] is [str.isspace] on
    them. *)
Module PyText.

Definition isspace (c : ascii) : bool :=
  let n := nat_of_ascii c in
  ((9 <=? n)%nat && (n <=? 13)%nat) || ((28 <=? n)%nat && (n <=? 32)%nat)
  || (n =? 133)%nat || (n =? 160)%nat.

Fixpoint lstrip (s : string) : string :=
  match s with
  | EmptyString => EmptyString
  | String c s' => if isspace c then lstrip s' else s
  end.

Fixpoint rstrip (s : string) : string :=
  match s with
  | EmptyString => EmptyString
  | String c s' =>
      match rstrip s' with
      | EmptyString => if isspace c then EmptyString else String c EmptyString
      | r => String c r
      end
  end.

Definition strip (s : string) : string := rstrip (lstrip s).

(** [s.rstrip(c)] for one character *)
Fixpoint rstrip_char (c : ascii) (s : string) : string :=
  match s with
  | EmptyString => EmptyString
  | String a s' =>
      match rstrip_char c s' with
      | EmptyString => if Ascii.eqb a c then EmptyString else String a EmptyString
      | r => String a r
      end
  end.

(** [s == c * len(s)] *)
Fixpoint all_char (c : ascii) (s : string) : bool :=
  match s with
  | EmptyString => true
  | String a s' => Ascii.eqb a c && all_char c s'
  end.

(** [p[:p.rfind('/') + 1]] *)
Fixpoint head_of (p : string) : string :=
  match p with
  | EmptyString => EmptyString
  | String c p' => if contains_char "/" p then String c (head_of p') else EmptyString
  end.

(** [posixpath.dirname(p)] for a [str] *)
Definition os_path_dirname (p : string) : string :=
  let head := head_of p in
  if negb (String.eqb head "") && negb (all_char "/" head)
  then rstrip_char "/" head
  else head.

(** [sep.join(l)] *)
Fixpoint join_with (sep : string) (l : list string) : string :=
  match l with
  | [] => EmptyString
  | [x] => x
  | x :: l' => x +:+ sep +:+ join_with sep l'
  end.

End PyText.

Import PyText.

#[local] Set Warnings "-register-all".

(** An element of the tree [xml.etree.ElementTree] builds: its tag, its
    text ([None] when it has none) and its child elements in document
    order. *)
Inductive element : Type :=
| Element (tag : string) (text : option string) (children : list element).

Definition tag (e : element) : string :=
  match e with Element t _ _ => t end.

Definition text (e : element) : option string :=
  match e with Element _ t _ => t end.

Definition children (e : element) : list element :=
  match e with Element _ _ c => c end.

(** The values [dict_config] holds: what [parse_config] reads ([None], a
    text, a nested dictionary) and what [validate_refine_config] puts in. *)
Inductive pyval {RT : PyRuntime} : Type :=
| VNone
| VBool (b : bool)
| VInt (z : Z)
| VStr (s : string)
| VDate (d : datetime)
| VDict (items : list (string * pyval)).

(** A [dict] with [str] keys, in insertion order: [d.get(key)],
    [key in d] and [d[key] = v], which keeps the place of a key that is
    already there. *)
Fixpoint dict_get {V : Type} (key : string) (d : list (string * V)) : option V :=
  match d with
  | [] => None
  | (k, v) :: d' => if String.eqb k key then Some v else dict_get key d'
  end.

Definition dict_mem {V : Type} (key : string) (d : list (string * V)) : bool :=
  match dict_get key d with
  | Some _ => true
  | None => false
  end.

Fixpoint dict_set {V : Type} (key : string) (v : V) (d : list (string * V))
  : list (string * V) :=
  match d with
  | [] => [(key, v)]
  | (k, v0) :: d' =>
      if String.eqb k key then (k, v) :: d' else (k, v0) :: dict_set key v d'
  end.

(** The command line: [args.config], [args.datetime] ([None] without
    [--datetime]) and [args.verbose]. *)
Record Args : Type := {
  arg_config : string;
  arg_datetime : option string;
  arg_verbose : bool;
}.

(** [not args.datetime]: [None] and the empty string are false. *)
Definition datetime_of (args : Args) : option string :=
  match arg_datetime args with
  | None => None
  | Some EmptyString => None
  | Some s => Some s
  end.

(** What the configuration code asks of the operating system and of the
    interpreter: the file system as [os.path.exists] and [os.access] see
    it, [os.cpu_count()], [int(s)] for a [str] ([None] when it raises), and
    [repr] and [str] of the values whose text is the interpreter's
    business. *)
Class PyHost {RT : PyRuntime} : Type := {
  os_path_exists : string -> bool;
  os_fd_exists : Z -> bool;
  os_access : string -> Z -> bool;
  os_cpu_count : option Z;
  int_of_str : string -> option Z;
  repr_of_str : string -> string;
  str_of_datetime : datetime -> string;
  repr_of_datetime : datetime -> string;
}.

Definition R_OK : Z := 4.
Definition W_OK : Z := 2.
Definition X_OK : Z := 1.

(** One entry of [config_keys]; [setting.get('permission')] is [None]
    where the entry has none. *)
Record Setting : Type := {
  required : bool;
  type_ : string;
  permission : option string;
}.

Definition config_keys : list (string * Setting) :=
  [ ("log_file", {| required := true; type_ := "file"; permission := Some "write" |});
    ("match_pattern", {| required := false; type_ := "str"; permission := None |});
    ("datetime_format", {| required := true; type_ := "str"; permission := None |});
    ("time_delay", {| required := false; type_ := "int"; permission := None |});
    ("s3_dir", {| required := true; type_ := "str"; permission := None |});
    ("s3_segregated_dir", {| required := true; type_ := "str"; permission := None |});
    ("s3_error_dir", {| required := true; type_ := "str"; permission := None |});
    ("n_keys", {| required := false; type_ := "int"; permission := None |});
    ("n_loops", {| required := false; type_ := "int"; permission := None |});
    ("n_workers", {| required := false; type_ := "int"; permission := None |}) ].

#[export] Instance result_ret : MRet result := fun A a => Ok a.
#[export] Instance result_bind : MBind result :=
  fun A B f r =>
    match r with
    | Ok a => f a
    | Raise e => Raise e
    end.

Definition TypeError (msg : string) : exn := Exception "TypeError" msg.

Section Configuration.
Context {RT : PyRuntime} {HOST : PyHost}.

(** [parse_config_element] *)
Fixpoint parse_config_element (element : element) : pyval :=
  match element with
  | Element _ text [] =>
      match text with
      | Some s => VStr s
      | None => VNone
      end
  | Element _ _ children =>
      VDict (fold_left
               (fun child_dict child =>
                  dict_set (tag child) (parse_config_element child) child_dict)
               children [])
  end.

(** [parse_config], from the root element [ET.parse(config_path).getroot()]. *)
Definition parse_config (root : element) : list (string * pyval) :=
  fold_left
    (fun dict_config child =>
       dict_set (tag child) (parse_config_element child) dict_config)
    (children root) [].

(** [type(v).__name__] *)
Definition type_name (v : pyval) : string :=
  match v with
  | VNone => "NoneType"
  | VBool _ => "bool"
  | VInt _ => "int"
  | VStr _ => "str"
  | VDate _ => "datetime"
  | VDict _ => "dict"
  end.

(** [bool(v)] *)
Definition truthy (v : pyval) : bool :=
  match v with
  | VNone => false
  | VBool b => b
  | VInt z => negb (z =? 0)
  | VStr s => negb (String.eqb s "")
  | VDate _ => true
  | VDict items => match items with [] => false | _ => true end
  end.

(** [repr(v)] and [str(v)] *)
Fixpoint py_repr (v : pyval) : string :=
  match v with
  | VNone => "None"
  | VBool b => if b then "True" else "False"
  | VInt z => of_Z z
  | VStr s => repr_of_str s
  | VDate d => repr_of_datetime d
  | VDict items =>
      "{" +:+ join_with ", "
                (map (fun kv => match kv with
                                | (k, v') => repr_of_str k +:+ ": " +:+ py_repr v'
                                end) items)
      +:+ "}"
  end.

Definition py_str (v : pyval) : string :=
  match v with
  | VStr s => s
  | VDate d => str_of_datetime d
  | _ => py_repr v
  end.

(** [int(v)], [None] when it raises *)
Definition py_int (v : pyval) : option Z :=
  match v with
  | VStr s => int_of_str s
  | VInt z => Some z
  | VBool b => Some (if b then 1 else 0)
  | VNone | VDate _ | VDict _ => None
  end.

(** [dict_config.get(key)] *)
Definition get (key : string) (dict_config : list (string * pyval)) : pyval :=
  match dict_get key dict_config with
  | Some v => v
  | None => VNone
  end.

(** [os.path.dirname(v)], [os.path.exists(v)] and [os.access(v, mode)]
    for a value that need not be a [str] *)
Definition dirname_of (v : pyval) : result pyval :=
  match v with
  | VStr s => Ok (VStr (os_path_dirname s))
  | _ => Raise (TypeError ("expected str, bytes or os.PathLike object, not "
                           +:+ type_name v))
  end.

Definition path_exists (v : pyval) : result bool :=
  match v with
  | VStr s => Ok (os_path_exists s)
  | VInt z => Ok (os_fd_exists z)
  | VBool b => Ok (os_fd_exists (if b then 1 else 0))
  | _ => Raise (TypeError ("stat: path should be string, bytes, os.PathLike or integer, not "
                           +:+ type_name v))
  end.

Definition path_access (v : pyval) (mode : Z) : result bool :=
  match v with
  | VStr s => Ok (os_access s mode)
  | _ => Raise (TypeError ("access: path should be string, bytes or os.PathLike, not "
                           +:+ type_name v))
  end.

(** [validate_args] *)
Definition validate_args (args : Args) : result unit :=
  if negb (os_path_exists (arg_config args)) then
    Raise (Exception "FileNotFoundError"
                     ("Config file: " +:+ arg_config args +:+ " does not exist"))
  else if negb (os_access (arg_config args) R_OK) then
    Raise (Exception "PermissionError"
                     ("Config file: " +:+ arg_config args +:+ " has no read permission"))
  else
    match datetime_of args with
    | None => Ok tt
    | Some s =>
        match strptime s "%Y-%m-%d %H:%M:%S" with
        | Ok _ => Ok tt
        | Raise _ => Raise (ValueError ("Date argument: " +:+ s +:+ " not a valid date"))
        end
    end.

Definition key_setting (key : string) (setting : Setting) : string :=
  "validate_config_error: key: " +:+ key +:+ ", "
  +:+ "required: " +:+ (if required setting then "True" else "False") +:+ ", "
  +:+ "type: " +:+ type_ setting +:+ ", "
  +:+ "permission: " +:+ of_opt (permission setting) +:+ ", ".

(** The check of the directory of a [file] key, and of a [directory] or
    [executable] key. *)
Definition check_directory (key : string) (setting : Setting)
    (dict_config : list (string * pyval)) : result unit :=
  if existsb (String.eqb (type_ setting)) ["directory"; "file"; "executable"]
     && truthy (get key dict_config) then
    _pathname ← (if String.eqb (type_ setting) "file" || String.eqb key "raw_files_dir"
                 then dirname_of (get key dict_config)
                 else Ok (get key dict_config));
    found ← path_exists _pathname;
    if negb found then
      Raise (ValueError (key_setting key setting
                         +:+ "error: file/directory " +:+ py_str _pathname
                         +:+ " doesn't exist."))
    else
      match permission setting with
      | None | Some EmptyString => Ok tt
      | Some _permission =>
          let _permission_code :=
            if String.eqb _permission "write" then W_OK
            else if String.eqb _permission "execute" then X_OK
            else R_OK in
          allowed ← path_access _pathname _permission_code;
          if negb allowed then
            Raise (ValueError (key_setting key setting
                               +:+ "error: file/directory " +:+ py_str _pathname
                               +:+ " insufficient permission."))
          else Ok tt
      end
  else Ok tt.

(** The check of an [int] key: the bare [except] turns whatever [int]
    raises into a [ValueError]. *)
Definition check_int (key : string) (setting : Setting)
    (dict_config : list (string * pyval)) : result (list (string * pyval)) :=
  if String.eqb (type_ setting) "int" && truthy (get key dict_config) then
    match py_int (get key dict_config) with
    | Some z => Ok (dict_set key (VInt z) dict_config)
    | None =>
        Raise (ValueError (key_setting key setting
                           +:+ "error: fail to convert key value '"
                           +:+ py_str (get key dict_config) +:+ "' to int"))
    end
  else Ok dict_config.

Definition check_str (key : string) (setting : Setting)
    (dict_config : list (string * pyval)) : list (string * pyval) :=
  if String.eqb (type_ setting) "str" && truthy (get key dict_config)
  then dict_set key (VStr (strip (py_str (get key dict_config)))) dict_config
  else dict_config.

(** [if key == name and not dict_config.get(key): dict_config[key] = v] *)
Definition default_to (name : string) (v : pyval) (key : string)
    (dict_config : list (string * pyval)) : list (string * pyval) :=
  if String.eqb key name && negb (truthy (get key dict_config))
  then dict_set key v dict_config
  else dict_config.

(** The custom checks; [os.cpu_count()] may be [None], which [// 2]
    refuses. *)
Definition custom_checks (key : string) (dict_config : list (string * pyval))
  : result (list (string * pyval)) :=
  let dict_config := default_to "time_delay" (VInt 86400) key dict_config in
  let dict_config := default_to "n_keys" (VInt 500) key dict_config in
  let dict_config := default_to "n_loops" (VInt 10) key dict_config in
  if String.eqb key "n_workers" && negb (truthy (get key dict_config)) then
    match os_cpu_count with
    | Some n => Ok (dict_set key (VInt (n / 2)) dict_config)
    | None =>
        Raise (TypeError "unsupported operand type(s) for //: 'NoneType' and 'int'")
    end
  else Ok dict_config.

(** The body of [for key, setting in config_keys.items()] *)
Definition validate_key (key : string) (setting : Setting)
    (dict_config : list (string * pyval)) : result (list (string * pyval)) :=
  if required setting && negb (dict_mem key dict_config) then
    Raise (ValueError (key_setting key setting +:+ "error: missing required key."))
  else
    check_directory key setting dict_config;;
    dict_config ← check_int key setting dict_config;
    custom_checks key (check_str key setting dict_config).

Fixpoint validate_keys (keys : list (string * Setting))
         (dict_config : list (string * pyval)) : result (list (string * pyval)) :=
  match keys with
  | [] => Ok dict_config
  | (key, setting) :: keys' =>
      dict_config ← validate_key key setting dict_config;
      validate_keys keys' dict_config
  end.

(** [timedelta(seconds=v)] takes an [int]; a [bool] is one. *)
Definition seconds_of (v : pyval) : result Z :=
  match v with
  | VInt z => Ok z
  | VBool b => Ok (if b then 1 else 0)
  | VDate _ =>
      Raise (TypeError "unsupported type for timedelta seconds component: datetime.datetime")
  | _ => Raise (TypeError ("unsupported type for timedelta seconds component: "
                           +:+ type_name v))
  end.

(** [validate_refine_config]: [args] is an [argparse] namespace, so
    [getattr(args, 'verbose')] does not raise.  The clock is read before
    [dict_config['time_delay']] is looked up, and the subtraction raises
    [OverflowError] for a delay or a date out of range. *)
Definition validate_refine_config (dict_config : list (string * pyval)) (args : Args)
  : prog (list (string * pyval)) :=
  let dict_config := dict_set "args_verbose" (VBool (arg_verbose args)) dict_config in
  let dict_config :=
    dict_set "args_datetime"
             (match arg_datetime args with Some s => VStr s | None => VNone end)
             dict_config in
  let dict_config := dict_set "args_config" (VStr (arg_config args)) dict_config in
  dict_config ← of_result (validate_keys config_keys dict_config);
  match datetime_of args with
  | None =>
      Now (fun now =>
             match dict_get "time_delay" dict_config with
             | None => Throw (Exception "KeyError" "'time_delay'")
             | Some v =>
                 seconds ← of_result (seconds_of v);
                 match sub_overflow now seconds with
                 | Some msg => Throw (Exception "OverflowError" msg)
                 | None =>
                     mret (dict_set "process_date" (VDate (sub_seconds now seconds))
                                    dict_config)
                 end
             end)
  | Some s =>
      process_date ← of_result (strptime s "%Y-%m-%d %H:%M:%S");
      mret (dict_set "process_date" (VDate process_date) dict_config)
  end.

(** What [start_segregation] reads from [dict_config], when the values
    have the types the function goes on to use them with: texts for the
    three directories and the format, integers for the numbers; a missing
    [match_pattern] is [None]. *)
Definition config_of_dict (dict_config : list (string * pyval)) : option Config :=
  match get "s3_dir" dict_config, get "s3_segregated_dir" dict_config,
        get "s3_error_dir" dict_config, get "datetime_format" dict_config,
        get "time_delay" dict_config, get "n_keys" dict_config,
        get "n_loops" dict_config, get "n_workers" dict_config with
  | VStr dir, VStr segregated, VStr error, VStr format,
    VInt delay, VInt keys, VInt loops, VInt workers =>
      match get "match_pattern" dict_config with
      | VNone =>
          Some {| s3_dir := dir; s3_segregated_dir := segregated;
                  s3_error_dir := error; match_pattern := None;
                  datetime_format := format; time_delay := delay;
                  n_keys := keys; n_loops := loops; n_workers := workers |}
      | VStr pattern =>
          Some {| s3_dir := dir; s3_segregated_dir := segregated;
                  s3_error_dir := error; match_pattern := Some pattern;
                  datetime_format := format; time_delay := delay;
                  n_keys := keys; n_loops := loops; n_workers := workers |}
      | _ => None
      end
  | _, _, _, _, _, _, _, _ => None
  end.

End Configuration.

(** The values [parse_config] can produce: [None], a text, or a
    dictionary of such values that is not empty. *)
Fixpoint from_xml {RT : PyRuntime} (v : pyval) : Prop :=
  match v with
  | VNone | VStr _ => True
  | VDict items =>
      items <> []
      /\ (fix all (l : list (string * pyval)) : Prop :=
            match l with
            | [] => True
            | (_, v') :: l' => from_xml v' /\ all l'
            end) items
  | _ => False
  end.

(** [dict_config] once [validate_refine_config] has stored the command
    line in it. *)
Definition with_args {RT : PyRuntime} (dict_config : list (string * pyval))
    (args : Args) : list (string * pyval) :=
  dict_set "args_config" (VStr (arg_config args))
    (dict_set "args_datetime"
       (match arg_datetime args with Some s => VStr s | None => VNone end)
       (dict_set "args_verbose" (VBool (arg_verbose args)) dict_config)).

(** The keys of [config_keys] by kind, and the keys that
    [validate_refine_config] writes besides them. *)
Definition required_keys : list string :=
  ["log_file"; "datetime_format"; "s3_dir"; "s3_segregated_dir"; "s3_error_dir"].

Definition text_keys : list string :=
  ["match_pattern"; "datetime_format"; "s3_dir"; "s3_segregated_dir"; "s3_error_dir"].

Definition written_keys : list string :=
  ["args_verbose"; "args_datetime"; "args_config"; "process_date"].

(** What validation leaves under a text key and under a number key with
    the given default: a value that is true is stripped, or read as an
    integer; a number that is missing, false or zero becomes the default.
    [None] stands for a value [int] refuses. *)
Definition refined_text {RT : PyRuntime} {HOST : PyHost} (v : pyval) : pyval :=
  if truthy v then VStr (strip (py_str v)) else v.

Definition refined_number {RT : PyRuntime} {HOST : PyHost} (v : pyval) (default : Z)
  : option Z :=
  if truthy v then
    match py_int v with
    | Some z => Some (if z =? 0 then default else z)
    | None => None
    end
  else Some default.

(** ** A reference host

    A machine for the examples: eight CPUs, a writable [/var/log], a
    readable [/etc/segregation.xml]; [int] and [repr] as CPython 3.11 has
    them on strings of characters below 256. *)
Module Host.

(** The white space [int] skips at both ends. *)
Definition int_space (c : ascii) : bool :=
  let n := nat_of_ascii c in
  ((9 <=? n)%nat && (n <=? 13)%nat) || (n =? 32)%nat || (n =? 133)%nat || (n =? 160)%nat.

Fixpoint lskip (s : string) : string :=
  match s with
  | EmptyString => EmptyString
  | String c s' => if int_space c then lskip s' else s
  end.

Fixpoint rskip (s : string) : string :=
  match s with
  | EmptyString => EmptyString
  | String c s' =>
      match rskip s' with
      | EmptyString => if int_space c then EmptyString else String c EmptyString
      | r => String c r
      end
  end.

(** Decimal digits, with single underscores between them; the number of
    digits is counted for the limit of the interpreter. *)
Fixpoint digits (s : string) (after_digit : bool) (acc : Z) (count : nat)
  : option (Z * nat) :=
  match s with
  | EmptyString => if after_digit then Some (acc, count) else None
  | String c s' =>
      if Re.is_digit c
      then digits s' true (10 * acc + Z.of_nat (nat_of_ascii c - 48)) (S count)
      else if Ascii.eqb c "_" && after_digit then digits s' false acc count
      else None
  end.

Definition unsigned (s : string) : option Z :=
  match digits s false 0 0 with
  | Some (z, count) => if (4300 <? count)%nat then None else Some z
  | None => None
  end.

Definition int (s : string) : option Z :=
  match rskip (lskip s) with
  | String "-" s' => Z.opp <$> unsigned s'
  | String "+" s' => unsigned s'
  | s' => unsigned s'
  end.

Definition hex_digit (n : nat) : ascii :=
  if (n <? 10)%nat then ascii_of_nat (48 + n) else ascii_of_nat (87 + n).

Definition printable (c : ascii) : bool :=
  let n := nat_of_ascii c in
  ((32 <=? n)%nat && (n <? 127)%nat) || ((161 <=? n)%nat && negb (n =? 173)%nat).

Definition escape (quote c : ascii) : string :=
  if Ascii.eqb c quote || Ascii.eqb c "\" then String "\" (String c EmptyString)
  else if Ascii.eqb c "009" then "\t"
  else if Ascii.eqb c "010" then "\n"
  else if Ascii.eqb c "013" then "\r"
  else if printable c then String c EmptyString
  else let n := nat_of_ascii c in
       String "\" (String "x" (String (hex_digit (n / 16))
                                      (String (hex_digit (n mod 16)) EmptyString))).

Fixpoint escape_all (quote : ascii) (s : string) : string :=
  match s with
  | EmptyString => EmptyString
  | String c s' => escape quote c +:+ escape_all quote s'
  end.

(** [repr(s)]: double quotes when the text holds a single quote and no
    double quote. *)
Definition repr (s : string) : string :=
  let quote : ascii :=
    if contains_char "'" s && negb (contains_char "034" s) then "034"%char else "'"%char in
  String quote (escape_all quote s) +:+ String quote EmptyString.

Fixpoint pad (width : nat) (s : string) : string :=
  if (String.length s <? width)%nat
  then match width with
       | O => s
       | S w => "0" +:+ pad w s
       end
  else s.

(** [str(d)] and [repr(d)] *)
Definition str_datetime (d : Datetime.t) : string :=
  pad 4 (of_Z (Datetime.year d)) +:+ "-" +:+ pad 2 (of_Z (Datetime.month d))
  +:+ "-" +:+ pad 2 (of_Z (Datetime.day d)) +:+ " "
  +:+ pad 2 (of_Z (Datetime.hour d)) +:+ ":" +:+ pad 2 (of_Z (Datetime.minute d))
  +:+ ":" +:+ pad 2 (of_Z (Datetime.second d))
  +:+ (if Datetime.microsecond d =? 0 then ""
       else "." +:+ pad 6 (of_Z (Datetime.microsecond d))).

Definition repr_datetime (d : Datetime.t) : string :=
  "datetime.datetime(" +:+ of_Z (Datetime.year d) +:+ ", "
  +:+ of_Z (Datetime.month d) +:+ ", " +:+ of_Z (Datetime.day d) +:+ ", "
  +:+ of_Z (Datetime.hour d) +:+ ", " +:+ of_Z (Datetime.minute d)
  +:+ (if Datetime.microsecond d =? 0
       then if Datetime.second d =? 0 then "" else ", " +:+ of_Z (Datetime.second d)
       else ", " +:+ of_Z (Datetime.second d) +:+ ", "
            +:+ of_Z (Datetime.microsecond d))
  +:+ ")".

End Host.

#[export] Instance sample_host : PyHost (RT := CPython) := {|
  os_path_exists := fun p => String.eqb p "/var/log" || String.eqb p "/etc/segregation.xml";
  os_fd_exists := fun fd => (0 <=? fd) && (fd <=? 2);
  os_access := fun p mode =>
    (String.eqb p "/var/log" && (mode =? W_OK))
    || (String.eqb p "/etc/segregation.xml" && (mode =? R_OK));
  os_cpu_count := Some 8;
  int_of_str := Host.int;
  repr_of_str := Host.repr;
  str_of_datetime := Host.str_datetime;
  repr_of_datetime := Host.repr_datetime;
|}.

(** The configuration file of the examples. *)
Definition sample_root : element :=
  Element "config" None
    [ Element "log_file" (Some "/var/log/segregation_%Y%m%d.log") [];
      Element "match_pattern" (Some " CHARGINGCDR_.*-(\d{8})-.*.ber ") [];
      Element "datetime_format" (Some "%Y%m%d") [];
      Element "time_delay" (Some "0") [];
      Element "s3_dir" (Some "s3://cdr/in/") [];
      Element "s3_segregated_dir" (Some "s3://cdr/out/%Y/%m/%d/") [];
      Element "s3_error_dir" (Some "s3://cdr/error/") [];
      Element "n_keys" (Some " 500 ") [];
      Element "n_keys" (Some "250") [];
      Element "comment" None [Element "author" (Some "ops") []] ].

Definition sample_args : Args :=
  {| arg_config := "/etc/segregation.xml"; arg_datetime := None; arg_verbose := false |}.

Definition sample_args_dated : Args :=
  {| arg_config := "/etc/segregation.xml";
     arg_datetime := Some "2024-09-01 00:00:00"; arg_verbose := false |}.

(** The same machine with a single CPU. *)
Definition single_cpu_host : PyHost (RT := CPython) := {|
  os_path_exists := os_path_exists (PyHost := sample_host);
  os_fd_exists := os_fd_exists (PyHost := sample_host);
  os_access := os_access (PyHost := sample_host);
  os_cpu_count := Some 1;
  int_of_str := Host.int;
  repr_of_str := Host.repr;
  str_of_datetime := Host.str_datetime;
  repr_of_datetime := Host.repr_datetime;
|}.

(** What the validation of the sample file gives, on the reference host
    and on the one with a single CPU, and the configuration read from it. *)
Definition sample_validated (workers : Z) (args_datetime : pyval (RT := CPython))
    (process_date : Datetime.t) : list (string * pyval (RT := CPython)) :=
  [ ("log_file", VStr "/var/log/segregation_%Y%m%d.log");
    ("match_pattern", VStr "CHARGINGCDR_.*-(\d{8})-.*.ber");
    ("datetime_format", VStr "%Y%m%d");
    ("time_delay", VInt 86400);
    ("s3_dir", VStr "s3://cdr/in/");
    ("s3_segregated_dir", VStr "s3://cdr/out/%Y/%m/%d/");
    ("s3_error_dir", VStr "s3://cdr/error/");
    ("n_keys", VInt 250);
    ("comment", VDict [("author", VStr "ops")]);
    ("args_verbose", VBool false);
    ("args_datetime", args_datetime);
    ("args_config", VStr "/etc/segregation.xml");
    ("n_loops", VInt 10);
    ("n_workers", VInt workers);
    ("process_date", VDate process_date) ].

Definition sample_validated_config (workers : Z) : Config := {|
  s3_dir := "s3://cdr/in/";
  s3_segregated_dir := "s3://cdr/out/%Y/%m/%d/";
  s3_error_dir := "s3://cdr/error/";
  match_pattern := Some "CHARGINGCDR_.*-(\d{8})-.*.ber";
  datetime_format := "%Y%m%d";
  time_delay := 86400;
  n_keys := 250;
  n_loops := 10;
  n_workers := workers;
|}.

(** A bucket that holds the folder marker of the prefix and nothing
    else, and one that holds two files of the same name in two folders. *)
Definition emptied_service : S3.state (RT := CPython) :=
  S3.make [(("cdr", "in/"), "")] (date 2024 9 2 8 0 0) S3.never S3.never S3.never.

Definition twin_service : S3.state (RT := CPython) :=
  S3.make [(("cdr", "in/a/report.txt"), "first"); (("cdr", "in/b/report.txt"), "second")]
          (date 2024 9 2 8 0 0) S3.never S3.never S3.never.

(** * Properties *)

Ltac prog_simpl :=
  unfold mbind, prog_bind, mret, prog_ret, logging, list_objects_v2,
    copy_object, delete_object in *; simpl in *.

(** ** The program on concrete inputs *)

Example replace_scheme : replace "s3://" "" "s3://bucket/dir/" = "bucket/dir/".
Proof. reflexivity. Qed.

Example basename_key : os_path_basename "in/a/f.txt" = "f.txt".
Proof. reflexivity. Qed.

Example join_dir : os_path_join "out/2024/09/01/" "f.txt" = "out/2024/09/01/f.txt".
Proof. reflexivity. Qed.

Example re_search_single_group :
  Re.search "CHARGINGCDR_.*-(\d{8})-.*.ber"
            "CHARGINGCDR_4008-BROCC3-20240901-234125-56908.ber"
  = Ok (Some [Some "20240901"]).
Proof. vm_compute. reflexivity. Qed.

Example re_search_two_groups :
  Re.search "^CHARGINGCDR_.*-(\d{8})-?(\d{2}).*"
            "CHARGINGCDR_4008-BRCCNH-CCNCDR44-01-Blk0Blk-8421-20221231-100511-78.ccn"
  = Ok (Some [Some "20221231"; Some "10"]).
Proof. vm_compute. reflexivity. Qed.

Example re_search_no_match :
  Re.search "(\d{4})-(\d{2})-(\d{2})" "report_wrong_format.txt" = Ok None.
Proof. vm_compute. reflexivity. Qed.

Example re_search_optional_group :
  Re.search "(\d{8})(-\d{2})?" "20240901" = Ok (Some [Some "20240901"; None]).
Proof. vm_compute. reflexivity. Qed.

Example re_search_unbalanced : exists e, Re.search "(" "x" = Raise e.
Proof. eexists. vm_compute. reflexivity. Qed.

Example strptime_Ymd : Datetime.strptime "20240901" "%Y%m%d" = Ok (date 2024 9 1 0 0 0).
Proof. vm_compute. reflexivity. Qed.

Example strptime_short_month :
  Datetime.strptime "2024901" "%Y%m%d" = Ok (date 2024 9 1 0 0 0).
Proof. vm_compute. reflexivity. Qed.

Example strptime_unconverted :
  Datetime.strptime "20223012" "%Y%m%d" = Raise (ValueError "unconverted data remains: 2").
Proof. vm_compute. reflexivity. Qed.

Example strptime_zeros : exists msg,
  Datetime.strptime "00000000" "%Y%m%d" = Raise (ValueError msg).
Proof. eexists. vm_compute. reflexivity. Qed.

Example strptime_bad_day :
  Datetime.strptime "20240230" "%Y%m%d" = Raise (ValueError "day is out of range for month").
Proof. vm_compute. reflexivity. Qed.

Example strptime_twice : exists msg,
  Datetime.strptime "20242024" "%Y%Y" = Raise (Exception "re.error" msg).
Proof. eexists. vm_compute. reflexivity. Qed.

Example strftime_template :
  Datetime.strftime (date 2024 9 1 0 0 0) "s3://b/out/%Y/%m/%d/" = "s3://b/out/2024/09/01/".
Proof. vm_compute. reflexivity. Qed.

Example sub_seconds_leap_day :
  Datetime.sub_seconds (date 2024 3 1 0 30 0) 86400 = date 2024 2 29 0 30 0.
Proof. vm_compute. reflexivity. Qed.

Example sample_run_moves_both :
  let '(r, s) := run_sample sample_config (sample_service S3.never S3.never S3.never) in
  let o := S3.objects (m_world s) in
  r = Ok tt
  /\ o !! ("cdr", "out/2024/09/01/CHARGINGCDR_4008-BROCC3-20240901-234125-56908.ber")
     = Some "cdr-1"
  /\ o !! ("cdr", "error/report_wrong_format.txt") = Some "report"
  /\ o !! ("cdr", "in/CHARGINGCDR_4008-BROCC3-20240901-234125-56908.ber") = None
  /\ o !! ("cdr", "in/report_wrong_format.txt") = None
  /\ m_page s = 1%nat.
Proof. vm_compute. repeat split. Qed.

(** The tests of the repository ([test_extract_datetime_from_filename.py]),
    on the reference runtime. *)
Example test_extract_datetime_success :
  extract_datetime_from_filename (RT := CPython)
    "CHARGINGCDR_4008-BROCC3-20240901-234125-56908.ber"
    "CHARGINGCDR_.*-(\d{8})-.*.ber" "%Y%m%d"
  = Ret (Some (date 2024 9 1 0 0 0)).
Proof. reflexivity. Qed.

Example test_extract_datetime_success_multi_group :
  extract_datetime_from_filename (RT := CPython)
    "CHARGINGCDR_4008-BRCCNH-CCNCDR44-01-Blk0Blk-8421-20221231-100511-78.ccn"
    "^CHARGINGCDR_.*-(\d{8})-?(\d{2}).*" "%Y%m%d%H"
  = Ret (Some (date 2022 12 31 10 0 0)).
Proof. reflexivity. Qed.

Example test_extract_datetime_no_match :
  extract_datetime_from_filename (RT := CPython)
    "report_wrong_format.txt" "(\d{4})-(\d{2})-(\d{2})" "%Y%m%d"
  = Logging ERROR
      (no_match_record "report_wrong_format.txt" "(\d{4})-(\d{2})-(\d{2})")
      (Ret None).
Proof. reflexivity. Qed.

Example test_extract_datetime_value_error :
  extract_datetime_from_filename (RT := CPython)
    "report_2022-30-12.txt" "(\d{4})-(\d{2})-(\d{2})" "%Y%m%d"
  = Logging ERROR
      (fail_to_convert_record "report_2022-30-12.txt" "(\d{4})-(\d{2})-(\d{2})"
         "20223012" "%Y%m%d" "unconverted data remains: 2")
      (Ret None).
Proof. reflexivity. Qed.

Example test_extract_datetime_empty_groups :
  extract_datetime_from_filename (RT := CPython)
    "report_0000-00-00.txt" "(\d{4})-(\d{2})-(\d{2})" "%Y%m%d"
  = Logging ERROR
      (fail_to_convert_record "report_0000-00-00.txt" "(\d{4})-(\d{2})-(\d{2})"
         "00000000" "%Y%m%d" "time data '00000000' does not match format '%Y%m%d'")
      (Ret None).
Proof. reflexivity. Qed.

(** An error directory that holds a placeholder is left as it is. *)
Example error_dir_is_not_formatted :
  destination_dir (RT := CPython)
    {| s3_dir := "s3://cdr/in/"; s3_segregated_dir := "s3://cdr/out/%Y/";
       s3_error_dir := "s3://cdr/error/%Y/"; match_pattern := None;
       datetime_format := "%Y%m%d"; time_delay := 0; n_keys := 1; n_loops := 1;
       n_workers := 1 |} None
  = "s3://cdr/error/%Y/".
Proof. reflexivity. Qed.

(** A key with the scheme text in it: the copy reads the object listed,
    the delete removes another one. *)
Example move_deletes_another_key :
  let st := S3.make [(("bucket", "a/s3://b"), "listed"); (("bucket", "a/b"), "other")]
                    (date 2024 9 2 8 0 0) S3.never S3.never S3.never in
  let o := S3.objects (run S3.service
                         (move_files_to_s3 "bucket/a/s3://b" "s3://bucket/out/") st).1.2 in
  o !! ("bucket", "a/s3://b") = Some "listed"
  /\ o !! ("bucket", "out/b") = Some "listed"
  /\ o !! ("bucket", "a/b") = None.
Proof. vm_compute. repeat split. Qed.

Section TraceFacts.
Context {RT : PyRuntime}.

Lemma run_is_trace {W A} (cl : world W) (p : prog A) w r w' tr :
  run cl p w = (r, w', tr) -> is_trace p tr r.
Proof.
  revert w r w' tr. induction p as [a|e|lvl msg k IH|k IH|b q m k IH|b key src k IH|b key k IH];
    intros w r w' tr Hrun; simpl in Hrun.
  - inversion Hrun; subst. constructor.
  - inversion Hrun; subst. constructor.
  - destruct (run cl k w) as [[r1 w1] tr1] eqn:E. inversion Hrun; subst.
    constructor. eauto.
  - destruct (w_now cl w) as [t w1]. destruct (run cl (k t) w1) as [[r1 w2] tr1] eqn:E.
    inversion Hrun; subst. constructor. eauto.
  - destruct (w_list cl b q m w) as [x w1]. destruct (run cl (k x) w1) as [[r1 w2] tr1] eqn:E.
    inversion Hrun; subst. constructor. eauto.
  - destruct (w_copy cl b key src w) as [x w1]. destruct (run cl (k x) w1) as [[r1 w2] tr1] eqn:E.
    inversion Hrun; subst. constructor. eauto.
  - destruct (w_delete cl b key w) as [x w1]. destruct (run cl (k x) w1) as [[r1 w2] tr1] eqn:E.
    inversion Hrun; subst. constructor. eauto.
Qed.

Ltac inv_trace H := inversion H; subst; clear H.

Lemma is_trace_bind_inv {A B} (p : prog A) (f : A -> prog B) tr r :
  is_trace (bind p f) tr r ->
  (exists e, is_trace p tr (Raise e) /\ r = Raise e)
  \/ (exists a tr1 tr2, is_trace p tr1 (Ok a) /\ is_trace (f a) tr2 r /\ tr = tr1 ++ tr2).
Proof.
  revert tr. induction p as [a|e|lvl msg k IH|k IH|b q m k IH|b key src k IH|b key k IH];
    intros tr H; simpl in H;
    [ right; exists a, [], tr; repeat split; [constructor | assumption]
    | inv_trace H; left; exists e; split; [constructor | reflexivity]
    | .. ].
  all: inv_trace H;
    match goal with
    | Hx : is_trace _ _ _ |- _ =>
        apply IH in Hx as [(e & He & ->)|(a & t1 & t2 & H1 & H2 & ->)]
    end;
    [ left; exists e; split; [constructor; assumption | reflexivity]
    | right; eexists a, (_ :: t1), t2; repeat split;
      [constructor; eassumption | assumption] ].
Qed.

Lemma is_trace_try_inv {A} (c : exn -> bool) (p : prog A) (h : exn -> prog A) tr r :
  is_trace (try_except c p h) tr r ->
  (exists a, is_trace p tr (Ok a) /\ r = Ok a)
  \/ (exists e, is_trace p tr (Raise e) /\ c e = false /\ r = Raise e)
  \/ (exists e tr1 tr2, is_trace p tr1 (Raise e) /\ c e = true
                        /\ is_trace (h e) tr2 r /\ tr = tr1 ++ tr2).
Proof.
  revert tr. induction p as [a|e|lvl msg k IH|k IH|b q m k IH|b key src k IH|b key k IH];
    intros tr H; simpl in H.
  1: { inv_trace H. left. exists a. split; [constructor | reflexivity]. }
  1: { destruct (c e) eqn:Hc.
       - right; right. exists e, [], tr. repeat split; [constructor | assumption..].
       - inv_trace H. right; left. exists e. repeat split; [constructor | assumption]. }
  all: inv_trace H;
    match goal with
    | Hx : is_trace _ _ _ |- _ =>
        apply IH in Hx
          as [(a & H1 & ->)|[(e & H1 & Hc & ->)|(e & t1 & t2 & H1 & Hc & H2 & ->)]]
    end;
    [ left; exists a; split; [constructor; assumption | reflexivity]
    | right; left; exists e; repeat split; [constructor|..]; assumption
    | right; right; eexists e, (_ :: t1), t2; repeat split;
      [constructor; eassumption | assumption..] ].
Qed.

Lemma all_events_trace {A} (P : event -> Prop) (p : prog A) tr r :
  all_events P p -> is_trace p tr r -> Forall P tr.
Proof.
  intros Hall H. induction H; simpl in Hall; try constructor;
    try (specialize (Hall x)); try (specialize (Hall t)); intuition.
Qed.

Lemma all_events_bind {A B} (P : event -> Prop) (p : prog A) (f : A -> prog B) :
  all_events P p -> (forall a, all_events P (f a)) -> all_events P (bind p f).
Proof.
  intros Hp Hf. induction p; simpl in *; try tauto; try (intros x; specialize (Hp x));
    intuition.
Qed.

Lemma all_events_try {A} (P : event -> Prop) c (p : prog A) h :
  all_events P p -> (forall e, all_events P (h e)) -> all_events P (try_except c p h).
Proof.
  intros Hp Hh. induction p; simpl in *; try tauto; try (intros x; specialize (Hp x));
    try intuition.
  destruct (c e); [apply Hh | exact I].
Qed.

Lemma all_events_of_result {A} (P : event -> Prop) (r : result A) :
  all_events P (of_result r).
Proof. destruct r; exact I. Qed.

End TraceFacts.

(** ** [extract_datetime_from_filename] *)

Section Extract.
Context {RT : PyRuntime}.

Lemma extract_no_match filename regex_pattern datetime_format :
  re_search regex_pattern filename = Ok None ->
  extract_datetime_from_filename filename regex_pattern datetime_format
  = Logging ERROR (no_match_record filename regex_pattern) (Ret None).
Proof.
  intros H. unfold extract_datetime_from_filename. prog_simpl. rewrite H. reflexivity.
Qed.

Lemma extract_parsed filename regex_pattern datetime_format groups ts :
  re_search regex_pattern filename = Ok (Some groups) ->
  strptime (join (map of_opt groups)) datetime_format = Ok ts ->
  extract_datetime_from_filename filename regex_pattern datetime_format
  = Ret (Some ts).
Proof.
  intros Hm Hp. unfold extract_datetime_from_filename. prog_simpl.
  rewrite Hm. simpl. rewrite Hp. reflexivity.
Qed.

Lemma extract_value_error filename regex_pattern datetime_format groups msg :
  re_search regex_pattern filename = Ok (Some groups) ->
  strptime (join (map of_opt groups)) datetime_format = Raise (ValueError msg) ->
  extract_datetime_from_filename filename regex_pattern datetime_format
  = Logging ERROR
      (fail_to_convert_record filename regex_pattern (join (map of_opt groups))
                              datetime_format msg)
      (Ret None).
Proof.
  intros Hm Hp. unfold extract_datetime_from_filename. prog_simpl.
  rewrite Hm. simpl. rewrite Hp. reflexivity.
Qed.

Lemma extract_other_error filename regex_pattern datetime_format groups cls msg :
  re_search regex_pattern filename = Ok (Some groups) ->
  strptime (join (map of_opt groups)) datetime_format = Raise (Exception cls msg) ->
  extract_datetime_from_filename filename regex_pattern datetime_format
  = Throw (Exception cls msg).
Proof.
  intros Hm Hp. unfold extract_datetime_from_filename. prog_simpl.
  rewrite Hm. simpl. rewrite Hp. reflexivity.
Qed.

Lemma extract_bad_pattern filename regex_pattern datetime_format e :
  re_search regex_pattern filename = Raise e ->
  extract_datetime_from_filename filename regex_pattern datetime_format = Throw e.
Proof.
  intros Hm. unfold extract_datetime_from_filename. prog_simpl.
  rewrite Hm. reflexivity.
Qed.

(** The records of [extract_datetime_from_filename] all go to the log. *)
Lemma extract_only_logs filename regex_pattern datetime_format :
  all_events is_log
    (extract_datetime_from_filename filename regex_pattern datetime_format).
Proof.
  unfold extract_datetime_from_filename. prog_simpl.
  destruct (re_search regex_pattern filename) as [[groups|]|e]; simpl; auto.
  destruct (strptime _ _) as [ts|[msg|cls msg]]; simpl; auto.
Qed.

(** C1: when the pattern matches and the capture groups, joined in
    order without a separator, parse under the format, the function
    returns exactly the parsed timestamp (and logs nothing). *)
Theorem extract_returns_the_parsed_timestamp
    (filename regex_pattern datetime_format : string)
    (groups : list (option string)) (ts : datetime) :
  re_search regex_pattern filename = Ok (Some groups) ->
  strptime (join (map of_opt groups)) datetime_format = Ok ts ->
  extract_datetime_from_filename filename regex_pattern datetime_format
  = Ret (Some ts)
  /\ forall tr r,
      is_trace (extract_datetime_from_filename filename regex_pattern
                                               datetime_format) tr r ->
      r = Ok (Some ts) /\ tr = [].
Proof.
  intros Hm Hp. pose proof (extract_parsed _ _ _ _ _ Hm Hp) as E.
  split; [exact E|]. intros tr r H. rewrite E in H. inversion H; subst. auto.
Qed.

(** C2, as the code has it: when the pattern compiles and [strptime]
    raises nothing but [ValueError], the function never raises; a
    filename the pattern does not match gives [None] and one error
    record starting with "no match found", groups that do not parse give
    [None] and one error record starting with "fail to convert date". *)
Theorem extract_failures_are_unclassified
    (filename regex_pattern datetime_format : string) :
  (exists m, re_search regex_pattern filename = Ok m) ->
  (forall s e, strptime s datetime_format = Raise e -> is_ValueError e = true) ->
  forall tr r,
    is_trace (extract_datetime_from_filename filename regex_pattern
                                             datetime_format) tr r ->
    (exists d, r = Ok d)
    /\ (re_search regex_pattern filename = Ok None ->
        r = Ok None
        /\ tr = [ELog ERROR (no_match_record filename regex_pattern)])
    /\ (forall groups e,
          re_search regex_pattern filename = Ok (Some groups) ->
          strptime (join (map of_opt groups)) datetime_format = Raise e ->
          r = Ok None
          /\ tr = [ELog ERROR
                     (fail_to_convert_record filename regex_pattern
                        (join (map of_opt groups)) datetime_format (str_exn e))]).
Proof.
  intros [m Hm] Hv tr r H. destruct m as [groups|].
  - destruct (strptime (join (map of_opt groups)) datetime_format) as [ts|e] eqn:Hp.
    + rewrite (extract_parsed _ _ _ _ _ Hm Hp) in H. inversion H; subst.
      split; [eauto|]. split; [congruence|].
      intros g e Hg. rewrite Hm in Hg. inversion Hg; subst. congruence.
    + pose proof (Hv _ _ Hp) as He. destruct e as [msg|cls msg]; [|discriminate].
      rewrite (extract_value_error _ _ _ _ _ Hm Hp) in H.
      inversion H; subst.
      match goal with Hx : is_trace (Ret _) _ _ |- _ => inversion Hx; subst end.
      split; [eauto|]. split; [congruence|].
      intros g e Hg Hs. rewrite Hm in Hg. inversion Hg; subst.
      rewrite Hp in Hs. inversion Hs; subst. auto.
  - rewrite (extract_no_match _ _ _ Hm) in H. inversion H; subst.
    match goal with Hx : is_trace (Ret _) _ _ |- _ => inversion Hx; subst end.
    split; [eauto|]. split; [auto|]. intros g e Hg. congruence.
Qed.

Lemma append_cons (x : ascii) (a b : string) : String x a +:+ b = String x (a +:+ b).
Proof. reflexivity. Qed.

Lemma append_assoc (a b c : string) : (a +:+ b) +:+ c = a +:+ (b +:+ c).
Proof.
  induction a as [|x a IH]; [reflexivity|]. rewrite !append_cons, IH. reflexivity.
Qed.

Lemma has_letter_app (a b : string) :
  has_letter (a +:+ b) = has_letter a || has_letter b.
Proof.
  unfold has_letter. induction a as [|c a IH]; [reflexivity|].
  rewrite append_cons. simpl. rewrite IH. apply orb_assoc.
Qed.

Lemma join_with_missing_group (groups : list (option string)) :
  In None groups ->
  exists before after,
    join (map of_opt groups)
    = join (map of_opt before) +:+ "None" +:+ join (map of_opt after)
    /\ groups = before ++ None :: after.
Proof.
  induction groups as [|g groups IH]; simpl; [tauto|].
  intros [->|Hin].
  - exists [], groups. split; reflexivity.
  - destruct (IH Hin) as (before & after & E & ->).
    exists (g :: before), after. split; [|reflexivity].
    simpl. rewrite E. symmetry. apply append_assoc.
Qed.

(** C10: a group that took no part in the match is joined as the four
    characters "None"; under a format that accepts no string with a
    letter in it (as the formats made of numeric directives are), the
    filename is then unclassified: the function returns [None] and logs
    "fail to convert date" with that string. *)
Theorem extract_joins_a_missing_group_as_None
    (filename regex_pattern datetime_format : string)
    (groups : list (option string)) :
  re_search regex_pattern filename = Ok (Some groups) ->
  In None groups ->
  (forall s, has_letter s = true ->
             exists msg, strptime s datetime_format = Raise (ValueError msg)) ->
  exists before after msg,
    groups = before ++ None :: after
    /\ join (map of_opt groups)
       = join (map of_opt before) +:+ "None" +:+ join (map of_opt after)
    /\ extract_datetime_from_filename filename regex_pattern datetime_format
       = Logging ERROR
           (fail_to_convert_record filename regex_pattern
              (join (map of_opt groups)) datetime_format msg)
           (Ret None).
Proof.
  intros Hm Hin Hfmt.
  destruct (join_with_missing_group groups Hin) as (before & after & E & Hg).
  destruct (Hfmt (join (map of_opt groups))) as [msg Hp].
  { rewrite E, !has_letter_app. replace (has_letter "None") with true by reflexivity.
    apply orb_true_r. }
  exists before, after, msg. repeat split; try assumption.
  apply (extract_value_error _ _ _ _ _ Hm Hp).
Qed.

End Extract.

(** ** [move_files_to_s3] *)

Section Move.
Context {RT : PyRuntime}.

Ltac step_trace :=
  match goal with
  | H : is_trace (Ret _) _ _ |- _ => inversion H; subst; clear H
  | H : is_trace (Throw _) _ _ |- _ => inversion H; subst; clear H
  | H : is_trace (Logging _ _ _) _ _ |- _ => inversion H; subst; clear H
  | H : is_trace (CopyObject _ _ _ _) _ _ |- _ => inversion H; subst; clear H
  | H : is_trace (DeleteObject _ _ _) _ _ |- _ => inversion H; subst; clear H
  | H : is_trace (ListObjectsV2 _ _ _ _) _ _ |- _ => inversion H; subst; clear H
  | H : is_trace (Now _) _ _ |- _ => inversion H; subst; clear H
  | H : is_trace (try_except _ (bind (of_result ?x) _) _) _ _ |- _ =>
      destruct x as [[]|?]; simpl in H
  | H : is_trace (try_except _ (of_result ?x) _) _ _ |- _ =>
      destruct x as [[]|?]; simpl in H
  | H : is_trace (bind (of_result ?x) _) _ _ |- _ =>
      destruct x as [?|?]; simpl in H
  end.

Lemma move_files_to_s3_traces (source_path destination_dir : string) tr r :
  is_trace (move_files_to_s3 source_path destination_dir) tr r ->
  r = Ok tt /\ move_trace source_path destination_dir tr.
Proof.
  unfold move_files_to_s3. prog_simpl.
  destruct (parse_s3_uri source_path) as [[sb sk]|e1] eqn:Hs; simpl.
  - destruct (parse_s3_uri destination_dir) as [[db dd]|e2] eqn:Hd; simpl.
    + intros H. repeat step_trace; (split; [reflexivity|]).
      * eapply move_done; eassumption.
      * eapply move_delete_failed; eassumption.
      * eapply move_copy_failed; eassumption.
    + intros H. repeat step_trace. split; [reflexivity|].
      eapply move_bad_destination; eassumption.
  - intros H. repeat step_trace. split; [reflexivity|].
    eapply move_bad_source; eassumption.
Qed.

Lemma move_files_to_s3_never_raises (source_path destination_dir : string) :
  never_raises (move_files_to_s3 source_path destination_dir).
Proof.
  intros tr r H. apply move_files_to_s3_traces in H as [-> _]. eauto.
Qed.

Ltac split_trace :=
  repeat match goal with
         | H : _ :: _ = ?pre ++ _ :: _ |- _ =>
             destruct pre; simpl in H; inversion H; subst; clear H
         | H : [] = ?pre ++ _ :: _ |- _ => destruct pre; discriminate H
         end.

Lemma delete_after_copy_in_trace (source_path destination_dir : string) tr :
  move_trace source_path destination_dir tr ->
  forall pre ev post,
    tr = pre ++ ev :: post -> is_delete ev -> Exists (is_copy_ok source_path) pre.
Proof.
  intros Hm pre ev post Heq Hdel.
  destruct Hm; split_trace; try contradiction;
    apply Exists_cons_tl, Exists_cons_hd; reflexivity.
Qed.

Lemma no_delete_after_failed_copy (source_path destination_dir : string) tr :
  move_trace source_path destination_dir tr ->
  forall b k e, In (ECopy b k source_path (Raise e)) tr ->
                Forall (fun ev => ~ is_delete ev) tr.
Proof.
  intros Hm b k e Hin.
  destruct Hm; simpl in Hin; intuition (try discriminate);
    repeat constructor; simpl; tauto.
Qed.

(** The object that is moved stays in the service: after the move it is
    still at its source, or it is at the destination. *)
Lemma moved_object_remains (source_path destination_dir : string)
      (st : S3.state) src body r st' tr :
  S3.source_of source_path = Some src ->
  S3.objects st !! src = Some body ->
  run S3.service (move_files_to_s3 source_path destination_dir) st = (r, st', tr) ->
  S3.objects st' !! src = Some body
  \/ exists dest, destination_of source_path destination_dir = Some dest
                  /\ S3.objects st' !! dest = Some body.
Proof.
  intros Hsrc Hbody. unfold move_files_to_s3, destination_of. prog_simpl.
  destruct (parse_s3_uri source_path) as [[sb sk]|e1] eqn:Hs; simpl;
    [|intros H; inversion H; subst; auto].
  destruct (parse_s3_uri destination_dir) as [[db dd]|e2] eqn:Hd; simpl;
    [|intros H; inversion H; subst; auto].
  unfold S3.copy_object. destruct (S3.fail_copy st (S3.n_copy st)); simpl;
    [intros H; inversion H; subst; auto|].
  rewrite Hsrc, Hbody.
  destruct (decide (src = (db, os_path_join dd (os_path_basename sk)))) as [Heq|Hne];
    simpl; [intros H; inversion H; subst; auto|].
  unfold S3.delete_object; simpl.
  destruct (S3.fail_delete st (S3.n_delete st + 0)); simpl; intros H; inversion H; subst;
    simpl.
  - right. eexists. split; [reflexivity|]. apply lookup_insert_eq.
  - destruct (decide ((sb, sk) = (db, os_path_join dd (os_path_basename sk)))) as [E|N].
    + left. rewrite lookup_delete_ne by congruence.
      rewrite lookup_insert_ne by congruence. assumption.
    + right. eexists. split; [reflexivity|].
      rewrite lookup_delete_ne by assumption. apply lookup_insert_eq.
Qed.


End Move.

(** ** The thread pool *)

Section Pool.
Context {RT : PyRuntime} {W : Type} (cl : world W).

Lemma events_of_app th (a b : list entry) :
  events_of th (a ++ b) = events_of th a ++ events_of th b.
Proof.
  induction a as [|[th' ev|? ? ? ?] a IH]; simpl; [reflexivity| |assumption].
  destruct (decide (th' = th)); simpl; congruence.
Qed.

Lemma events_of_same th (evs : list event) :
  events_of th (map (Step th) evs) = evs.
Proof.
  induction evs as [|ev evs IH]; simpl; [reflexivity|].
  destruct (decide (th = th)); congruence.
Qed.

Lemma events_of_other th th' (evs : list event) :
  th' <> th -> events_of th (map (Step th') evs) = [].
Proof.
  intros Hne. induction evs as [|ev evs IH]; simpl; [reflexivity|].
  destruct (decide (th' = th)); congruence.
Qed.

Lemma step_is_trace {A} (p p' : prog A) w w' ev tr r :
  step cl p w = Some (ev, p', w') -> is_trace p' tr r -> is_trace p (ev :: tr) r.
Proof.
  destruct p; simpl; intros Hs Ht; try discriminate.
  - inversion Hs; subst. constructor. assumption.
  - destruct (w_now cl w). inversion Hs; subst. constructor. assumption.
  - destruct (w_list cl _ _ _ w). inversion Hs; subst. constructor. assumption.
  - destruct (w_copy cl _ _ _ w). inversion Hs; subst. constructor. assumption.
  - destruct (w_delete cl _ _ w). inversion Hs; subst. constructor. assumption.
Qed.

(** Joining runs every task to its end, each on its own thread. *)
Lemma pool_join_spec page tasks : forall i0 w rs w' tr,
  pool_join cl page i0 tasks w = (rs, w', tr) ->
  length rs = length tasks
  /\ (forall j p, tasks !! j = Some p ->
                  exists r, rs !! j = Some r
                            /\ is_trace p (events_of (Worker page (i0 + j)) tr) r)
  /\ (forall th, (forall j, (j < length tasks)%nat -> th <> Worker page (i0 + j)) ->
                 events_of th tr = []).
Proof.
  induction tasks as [|p tasks IH]; intros i0 w rs w' tr H; simpl in H.
  - inversion H; subst. split; [reflexivity|].
    split; [intros j q Hq; discriminate | intros; reflexivity].
  - destruct (run cl p w) as [[r w1] tr1] eqn:Hrun.
    destruct (pool_join cl page (S i0) tasks w1) as [[rs' w2] tr2] eqn:Hjoin.
    inversion H; subst. destruct (IH _ _ _ _ _ Hjoin) as (Hlen & Htasks & Hothers).
    split; [simpl; congruence|]. split.
    + intros [|j] q Hq; simpl in Hq.
      * inversion Hq; subst. exists r. split; [reflexivity|].
        rewrite events_of_app, Nat.add_0_r, events_of_same, Hothers, app_nil_r.
        -- eapply run_is_trace; eassumption.
        -- intros j _ E. inversion E. lia.
      * destruct (Htasks j q Hq) as (r' & Hr' & Ht). exists r'. split; [exact Hr'|].
        rewrite events_of_app, events_of_other by (intros E; inversion E; lia).
        replace (i0 + S j)%nat with (S i0 + j)%nat by lia. exact Ht.
    + intros th Hth. rewrite events_of_app, events_of_other, Hothers; [reflexivity| |].
      * intros j Hj. replace (S i0 + j)%nat with (i0 + S j)%nat by lia.
        apply Hth. simpl. lia.
      * intros E. apply (Hth 0%nat); [simpl; lia|]. rewrite Nat.add_0_r. congruence.
Qed.

(** Stepping along a schedule keeps every task a residue of itself. *)
Lemma pool_steps_spec page sched : forall tasks w tasks' w' tr,
  pool_steps cl page sched tasks w = (tasks', w', tr) ->
  length tasks' = length tasks
  /\ (forall j p, tasks !! j = Some p ->
                  exists p', tasks' !! j = Some p'
                             /\ forall tr2 r, is_trace p' tr2 r ->
                                              is_trace p (events_of (Worker page j) tr ++ tr2) r)
  /\ (forall th, (forall j, (j < length tasks)%nat -> th <> Worker page j) ->
                 events_of th tr = []).
Proof.
  induction sched as [|i sched IH]; intros tasks w tasks' w' tr H; simpl in H.
  - inversion H; subst. split; [reflexivity|]. split; [|intros; reflexivity].
    intros j p Hp. exists p. split; [exact Hp|]. intros tr2 r Ht. exact Ht.
  - destruct (tasks !! i) as [p|] eqn:Hi; [|eauto].
    destruct (step cl p w) as [[[ev p'] w1]|] eqn:Hstep; [|eauto].
    destruct (pool_steps cl page sched (<[i:=p']> tasks) w1) as [[ts w2] tr1] eqn:Hrest.
    inversion H; subst. destruct (IH _ _ _ _ _ Hrest) as (Hlen & Htasks & Hothers).
    rewrite length_insert in Hlen, Hothers. split; [exact Hlen|]. split.
    + intros j q Hq. destruct (decide (i = j)) as [->|Hne].
      * assert (q = p) by congruence. subst q.
        destruct (Htasks j p') as (p'' & Hp'' & Ht).
        { apply list_lookup_insert_eq. eapply lookup_lt_Some; eassumption. }
        exists p''. split; [exact Hp''|]. intros tr2 r Hr. simpl.
        destruct (decide (Worker page j = Worker page j)); [|congruence].
        simpl. eapply step_is_trace; eauto.
      * destruct (Htasks j q) as (p'' & Hp'' & Ht).
        { rewrite list_lookup_insert_ne by assumption. exact Hq. }
        exists p''. split; [exact Hp''|]. intros tr2 r Hr. simpl.
        destruct (decide (Worker page i = Worker page j)) as [E|_]; [congruence|].
        apply Ht. exact Hr.
    + intros th Hth. simpl. destruct (decide (Worker page i = th)) as [E|_].
      * exfalso. apply (Hth i); [eapply lookup_lt_Some; eassumption | congruence].
      * apply Hothers. exact Hth.
Qed.

(** [wait] returns with every task finished, and what a task did, taken
    out of the interleaving, is a behaviour of that task alone. *)
Lemma pool_wait_spec page sched tasks w rs w' tr :
  pool_wait cl page sched tasks w = (rs, w', tr) ->
  length rs = length tasks
  /\ forall j p, tasks !! j = Some p ->
                 exists r, rs !! j = Some r
                           /\ is_trace p (events_of (Worker page j) tr) r.
Proof.
  unfold pool_wait. intros H.
  destruct (pool_steps cl page sched tasks w) as [[ts w1] tr1] eqn:Hsteps.
  destruct (pool_join cl page 0 ts w1) as [[rs' w2] tr2] eqn:Hjoin.
  inversion H; subst.
  destruct (pool_steps_spec _ _ _ _ _ _ _ Hsteps) as (Hlen1 & Ht1 & _).
  destruct (pool_join_spec _ _ _ _ _ _ _ Hjoin) as (Hlen2 & Ht2 & _).
  split; [congruence|]. intros j p Hp.
  destruct (Ht1 j p Hp) as (p' & Hp' & Hres).
  destruct (Ht2 j p' Hp') as (r & Hr & Htr). exists r. split; [exact Hr|].
  rewrite events_of_app. apply Hres. exact Htr.
Qed.

End Pool.

(** ** The generator [list_s3_get_files] *)

Section Generator.
Context {RT : PyRuntime}.
Variables (s3_path : string) (n_keys n_loops : Z).

Lemma collect_paths_spec (s3_bucket : string) (contents paths : list string) (count : Z) :
  collect_paths s3_bucket contents paths count
  = (paths ++ real_files s3_bucket contents,
     count + Z.of_nat (length (real_files s3_bucket contents))).
Proof.
  revert paths count. unfold real_files.
  induction contents as [|k contents IH]; intros paths count; simpl.
  - rewrite app_nil_r, Z.add_0_r. reflexivity.
  - destruct (endswith_char "/" k); simpl; rewrite IH.
    + reflexivity.
    + rewrite <- app_assoc. simpl. f_equal. lia.
Qed.

Lemma real_files_length (s3_bucket : string) (keys : list string) :
  (length (real_files s3_bucket keys) <= length keys)%nat.
Proof.
  unfold real_files. rewrite length_map. apply List.filter_length_le.
Qed.

Lemma real_files_are_files (s3_bucket : string) (keys : list string) :
  Forall (fun f => exists k, In k keys /\ endswith_char "/" k = false
                             /\ f = os_path_join s3_bucket k)
         (real_files s3_bucket keys).
Proof.
  unfold real_files. apply List.Forall_forall. intros f Hf.
  apply List.in_map_iff in Hf as (k & <- & Hk).
  apply List.filter_In in Hk as [Hin Hk]. exists k.
  repeat split; [assumption|]. destruct (endswith_char "/" k); [discriminate|reflexivity].
Qed.

Lemma loop_unfold b d e c :
  list_s3_get_files_loop n_keys n_loops b d e c
  = if (c <=? n_loops) && negb e
    then ListObjectsV2 b d n_keys
           (fun x => bind (of_result x)
                       (fun response =>
                          match response with
                          | [] => logging WARNING "Empty set";; mret (None, GenDone)
                          | _ =>
                              let '(paths, count) := collect_paths b response [] 0 in
                              if (length paths =? 0)%nat then
                                logging WARNING "No files left";; mret (None, GenDone)
                              else
                                logging INFO (page_record c n_loops
                                                (Z.of_nat (length response)) count);;
                                mret (Some paths, GenYield b d e (c + 1))
                          end))
    else Ret (None, GenDone).
Proof. reflexivity. Qed.

Lemma loop_after_listing b d e c keys :
  bind (of_result (Ok keys))
    (fun response =>
       match response with
       | [] => logging WARNING "Empty set";; mret (None, GenDone)
       | _ =>
           let '(paths, count) := collect_paths b response [] 0 in
           if (length paths =? 0)%nat then
             logging WARNING "No files left";; mret (None, GenDone)
           else
             logging INFO (page_record c n_loops
                             (Z.of_nat (length response)) count);;
             mret (Some paths, GenYield b d e (c + 1))
       end)
  = after_listing n_loops b d e c keys.
Proof.
  unfold after_listing. simpl. destruct keys as [|k keys]; [reflexivity|].
  rewrite collect_paths_spec. rewrite app_nil_l, Z.add_0_l.
  destruct (length (real_files b (k :: keys)) =? 0)%nat; reflexivity.
Qed.

(** One turn of the [while] loop: it stops without a call, the listing
    raises, or the listing answers and [after_listing] goes on. *)
Lemma loop_traces b d e c tr r :
  is_trace (list_s3_get_files_loop n_keys n_loops b d e c) tr r ->
  ((c <=? n_loops) && negb e = false /\ tr = [] /\ r = Ok (None, GenDone))
  \/ ((c <=? n_loops) && negb e = true
      /\ ((exists ex, tr = [EList b d n_keys (Raise ex)] /\ r = Raise ex)
          \/ (exists keys tr', tr = EList b d n_keys (Ok keys) :: tr'
                               /\ is_trace (after_listing n_loops b d e c keys) tr' r))).
Proof.
  rewrite loop_unfold. destruct ((c <=? n_loops) && negb e) eqn:Hc; intros H.
  - right. split; [reflexivity|]. inversion H; subst; clear H.
    destruct x as [keys|ex].
    + right. exists keys, tr0. split; [reflexivity|].
      rewrite <- loop_after_listing. assumption.
    + left. exists ex. simpl in *.
      match goal with Hx : is_trace (Throw _) _ _ |- _ => inversion Hx; subst end.
      auto.
  - left. inversion H; subst. auto.
Qed.

Lemma after_listing_traces b d e c keys tr r :
  is_trace (after_listing n_loops b d e c keys) tr r ->
  (keys = [] /\ tr = [ELog WARNING "Empty set"] /\ r = Ok (None, GenDone))
  \/ (keys <> [] /\ real_files b keys = []
      /\ tr = [ELog WARNING "No files left"] /\ r = Ok (None, GenDone))
  \/ (real_files b keys <> []
      /\ tr = [ELog INFO (page_record c n_loops (Z.of_nat (length keys))
                             (Z.of_nat (length (real_files b keys))))]
      /\ r = Ok (Some (real_files b keys), GenYield b d e (c + 1))).
Proof.
  unfold after_listing. destruct keys as [|k keys].
  - intros H. left. inversion H; subst.
    match goal with Hx : is_trace (Ret _) _ _ |- _ => inversion Hx; subst end. auto.
  - destruct (length (real_files b (k :: keys)) =? 0)%nat eqn:Hlen; intros H.
    + right; left. apply Nat.eqb_eq, length_zero_iff_nil in Hlen.
      inversion H; subst.
      match goal with Hx : is_trace (Ret _) _ _ |- _ => inversion Hx; subst end.
      repeat split; [discriminate | assumption].
    + right; right. apply Nat.eqb_neq in Hlen. inversion H; subst.
      match goal with Hx : is_trace (Ret _) _ _ |- _ => inversion Hx; subst end.
      repeat split. intros E. rewrite E in Hlen. simpl in Hlen. lia.
Qed.

Lemma pull_traces g tr r :
  is_trace (list_s3_get_files s3_path n_keys n_loops g) tr r ->
  match g with
  | GenInit =>
      (exists e, parse_s3_uri s3_path = Raise e /\ tr = [] /\ r = Raise e)
      \/ (exists b d, parse_s3_uri s3_path = Ok (b, d)
                      /\ is_trace (list_s3_get_files_loop n_keys n_loops b d false 1) tr r)
  | GenYield b d e c => is_trace (list_s3_get_files_loop n_keys n_loops b d e c) tr r
  | GenDone => tr = [] /\ r = Ok (None, GenDone)
  end.
Proof.
  destruct g as [|b d e c|]; simpl.
  - unfold mbind, prog_bind. destruct (parse_s3_uri s3_path) as [[b d]|e]; simpl; intros H.
    + right. eauto.
    + left. inversion H; subst. eauto.
  - auto.
  - intros H. inversion H; subst. auto.
Qed.

(** A pull that yields a page. *)
Lemma pull_yields g tr page g' :
  is_trace (list_s3_get_files s3_path n_keys n_loops g) tr (Ok (Some page, g')) ->
  exists b d c keys,
    resumes_at s3_path g b d c /\ c <= n_loops
    /\ tr = [EList b d n_keys (Ok keys);
             ELog INFO (page_record c n_loops (Z.of_nat (length keys))
                                    (Z.of_nat (length page)))]
    /\ page = real_files b keys /\ page <> []
    /\ g' = GenYield b d false (c + 1).
Proof.
  intros H. apply pull_traces in H.
  assert (Hloop : forall b d e c,
             is_trace (list_s3_get_files_loop n_keys n_loops b d e c) tr
                      (Ok (Some page, g')) ->
             e = false /\ c <= n_loops
             /\ exists keys,
                 tr = [EList b d n_keys (Ok keys);
                       ELog INFO (page_record c n_loops (Z.of_nat (length keys))
                                              (Z.of_nat (length page)))]
                 /\ page = real_files b keys /\ page <> []
                 /\ g' = GenYield b d false (c + 1)).
  { intros b d e c Hl. apply loop_traces in Hl as [(_ & _ & E)|(Hc & Hl)]; [discriminate|].
    apply andb_true_iff in Hc as [Hc He]. apply Z.leb_le in Hc.
    destruct e; [discriminate|]. split; [reflexivity|]. split; [assumption|].
    destruct Hl as [(ex & _ & E)|(keys & tr' & -> & Ha)]; [discriminate|].
    apply after_listing_traces in Ha
      as [(_ & _ & E)|[(_ & _ & _ & E)|(Hne & -> & E)]]; try discriminate.
    inversion E; subst. exists keys. auto. }
  destruct g as [|b d e c|].
  - destruct H as [(e & _ & _ & E)|(b & d & Hp & Hl)]; [discriminate|].
    destruct (Hloop _ _ _ _ Hl) as (_ & Hc & keys & Ht & Hpage & Hne & Hg).
    exists b, d, 1, keys. unfold resumes_at. auto 10.
  - destruct (Hloop _ _ _ _ H) as (-> & Hc & keys & Ht & Hpage & Hne & Hg).
    exists b, d, c, keys. unfold resumes_at. auto 10.
  - destruct H as [_ E]. discriminate.
Qed.

(** A pull that ends the generator. *)
Lemma pull_stops g tr g' :
  is_trace (list_s3_get_files s3_path n_keys n_loops g) tr (Ok (None, g')) ->
  g' = GenDone
  /\ ((tr = []
       /\ (g = GenDone
           \/ (exists b d c, g = GenYield b d true c)
           \/ (exists b d c, resumes_at s3_path g b d c /\ n_loops < c)))
      \/ (exists b d c, resumes_at s3_path g b d c /\ c <= n_loops
                        /\ tr = [EList b d n_keys (Ok []); ELog WARNING "Empty set"])
      \/ (exists b d c keys, resumes_at s3_path g b d c /\ c <= n_loops
                             /\ keys <> [] /\ real_files b keys = []
                             /\ tr = [EList b d n_keys (Ok keys);
                                      ELog WARNING "No files left"])).
Proof.
  intros H. apply pull_traces in H.
  assert (Hloop : forall b d e c,
             is_trace (list_s3_get_files_loop n_keys n_loops b d e c) tr (Ok (None, g')) ->
             g' = GenDone
             /\ ((tr = [] /\ (e = true \/ n_loops < c))
                 \/ (e = false /\ c <= n_loops
                     /\ (tr = [EList b d n_keys (Ok []); ELog WARNING "Empty set"]
                         \/ exists keys, keys <> [] /\ real_files b keys = []
                                         /\ tr = [EList b d n_keys (Ok keys);
                                                  ELog WARNING "No files left"])))).
  { intros b d e c Hl. apply loop_traces in Hl as [(Hc & -> & E)|(Hc & Hl)].
    - inversion E; subst. split; [reflexivity|]. left. split; [reflexivity|].
      apply andb_false_iff in Hc as [Hc|Hc].
      + right. apply Z.leb_gt in Hc. assumption.
      + left. destruct e; [reflexivity | discriminate].
    - apply andb_true_iff in Hc as [Hc He]. apply Z.leb_le in Hc.
      destruct e; [discriminate|].
      destruct Hl as [(ex & _ & E)|(keys & tr' & -> & Ha)]; [discriminate|].
      apply after_listing_traces in Ha
        as [(-> & -> & E)|[(Hk & Hrf & -> & E)|(_ & _ & E)]]; try discriminate;
        inversion E; subst; (split; [reflexivity|]); right; repeat split; eauto. }
  destruct g as [|b d e c|].
  - destruct H as [(e & _ & _ & E)|(b & d & Hp & Hl)]; [discriminate|].
    destruct (Hloop _ _ _ _ Hl) as (-> & [(-> & [E|Hc])|(_ & Hc & [->|(keys & Hk & Hrf & ->)])]);
      try discriminate; (split; [reflexivity|]).
    + left. split; [reflexivity|]. right; right. exists b, d, 1. unfold resumes_at. auto.
    + right; left. exists b, d, 1. unfold resumes_at. auto.
    + right; right. exists b, d, 1, keys. unfold resumes_at. auto 10.
  - destruct (Hloop _ _ _ _ H) as (-> & [(-> & [->|Hc])|(-> & Hc & [->|(keys & Hk & Hrf & ->)])]);
      (split; [reflexivity|]).
    + left. split; [reflexivity|]. right; left. eauto.
    + left. split; [reflexivity|]. destruct e.
      * right; left. eauto.
      * right; right. exists b, d, c. unfold resumes_at. auto.
    + right; left. exists b, d, c. unfold resumes_at. auto.
    + right; right. exists b, d, c, keys. unfold resumes_at. auto 10.
  - destruct H as [-> E]. inversion E; subst. auto.
Qed.

(** Every call of a pull is a listing call with the configured
    [MaxKeys], or a record for the log; there is at most one such call. *)
Lemma pull_calls g tr r :
  is_trace (list_s3_get_files s3_path n_keys n_loops g) tr r ->
  (length (List.filter (fun ev => match ev with EList _ _ _ _ => true | _ => false end) tr)
   <= 1)%nat
  /\ forall b d m x, In (EList b d m x) tr ->
                     m = n_keys /\ exists c, resumes_at s3_path g b d c.
Proof.
  intros H. apply pull_traces in H.
  assert (Hloop : forall b d e c,
             is_trace (list_s3_get_files_loop n_keys n_loops b d e c) tr r ->
             (length (List.filter
                        (fun ev => match ev with EList _ _ _ _ => true | _ => false end) tr)
              <= 1)%nat
             /\ forall b' d' m x, In (EList b' d' m x) tr ->
                                  m = n_keys /\ b' = b /\ d' = d /\ e = false).
  { intros b d e c Hl. apply loop_traces in Hl as [(Hc & -> & E)|(Hc & Hl)].
    - split; [simpl; lia | intros ? ? ? ? []].
    - apply andb_true_iff in Hc as [_ He]. destruct e; [discriminate|].
      destruct Hl as [(ex & -> & E)|(keys & tr' & -> & Ha)].
      + split; [simpl; lia|]. intros ? ? ? ? [E'|[]]. inversion E'; subst. auto.
      + apply after_listing_traces in Ha
          as [(_ & -> & _)|[(_ & _ & -> & _)|(_ & -> & _)]];
          (split; [simpl; lia|]); intros ? ? ? ? [E'|[E'|[]]]; try discriminate;
          inversion E'; subst; auto. }
  destruct g as [|b d e c|].
  - destruct H as [(e & _ & -> & _)|(b & d & Hp & Hl)].
    + split; [simpl; lia | intros ? ? ? ? []].
    + destruct (Hloop _ _ _ _ Hl) as [Hn Hin]. split; [assumption|].
      intros b' d' m x Hx. destruct (Hin _ _ _ _ Hx) as (-> & -> & -> & _).
      split; [reflexivity|]. exists 1. unfold resumes_at. auto.
  - destruct (Hloop _ _ _ _ H) as [Hn Hin]. split; [assumption|].
    intros b' d' m x Hx. destruct (Hin _ _ _ _ Hx) as (-> & -> & -> & ->).
    split; [reflexivity|]. exists c. unfold resumes_at. auto.
  - destruct H as [-> _]. split; [simpl; lia | intros ? ? ? ? []].
Qed.

Lemma pull_decreases g tr page g' :
  is_trace (list_s3_get_files s3_path n_keys n_loops g) tr (Ok (Some page, g')) ->
  remaining n_loops g = S (remaining n_loops g').
Proof.
  intros H. apply pull_yields in H as (b & d & c & keys & Hg & Hc & _ & _ & _ & ->).
  destruct Hg as [(-> & _ & ->)| ->]; simpl; lia.
Qed.

Lemma pulls_bounded g pages :
  pulls s3_path n_keys n_loops g pages -> (length pages <= remaining n_loops g)%nat.
Proof.
  induction 1 as [g|g tr page g' pages Hpull _ IH]; simpl; [lia|].
  rewrite (pull_decreases _ _ _ _ Hpull). lia.
Qed.

(** In a run, the answer recorded with a listing call is what the
    service gave in some state. *)
Lemma run_listing_answers {W A} (cl : world W) (p : prog A) :
  forall w r w' tr b d m x,
    run cl p w = (r, w', tr) -> In (EList b d m x) tr ->
    exists w0, fst (w_list cl b d m w0) = x.
Proof.
  induction p as [a|e|lvl msg k IH|k IH|b0 q m0 k IH|b0 key src k IH|b0 key k IH];
    intros w r w' tr b d m x Hrun Hin; simpl in Hrun.
  - inversion Hrun; subst. destruct Hin.
  - inversion Hrun; subst. destruct Hin.
  - destruct (run cl k w) as [[r1 w1] tr1] eqn:E. inversion Hrun; subst.
    destruct Hin as [Hin|Hin]; [discriminate | eauto].
  - destruct (w_now cl w) as [t w1]. destruct (run cl (k t) w1) as [[r1 w2] tr1] eqn:E.
    inversion Hrun; subst. destruct Hin as [Hin|Hin]; [discriminate | eauto].
  - destruct (w_list cl b0 q m0 w) as [y w1] eqn:El.
    destruct (run cl (k y) w1) as [[r1 w2] tr1] eqn:E.
    inversion Hrun; subst. destruct Hin as [Hin|Hin]; [|eauto].
    inversion Hin; subst. exists w. rewrite El. reflexivity.
  - destruct (w_copy cl b0 key src w) as [y w1]. destruct (run cl (k y) w1) as [[r1 w2] tr1] eqn:E.
    inversion Hrun; subst. destruct Hin as [Hin|Hin]; [discriminate | eauto].
  - destruct (w_delete cl b0 key w) as [y w1]. destruct (run cl (k y) w1) as [[r1 w2] tr1] eqn:E.
    inversion Hrun; subst. destruct Hin as [Hin|Hin]; [discriminate | eauto].
Qed.

Lemma s3_listing_respects_MaxKeys (st : S3.state) b d m keys :
  fst (S3.list_objects_v2 b d m st) = Ok keys ->
  (length keys <= Z.to_nat m)%nat.
Proof.
  unfold S3.list_objects_v2. destruct (S3.fail_list st (S3.n_list st)); simpl;
    [discriminate|].
  intros E. inversion E; subst. rewrite length_take. lia.
Qed.

(** C6: a pull makes at most one listing call, with [MaxKeys = n_keys];
    a page that is yielded holds the keys of that call that are not
    folders, and there is at least one; the generator ends, silently,
    when it is resumed with [count_loop > n_loops], when the listing is
    empty, or when no key is left once the folders are skipped, and stays
    ended; so it yields at most [n_loops] pages, and against the
    reference service a page has at most [n_keys] files. *)
Theorem paginator_stops_at_the_first_end_condition :
  (forall g tr r,
      is_trace (list_s3_get_files s3_path n_keys n_loops g) tr r ->
      (length (List.filter
                 (fun ev => match ev with EList _ _ _ _ => true | _ => false end) tr)
       <= 1)%nat
      /\ forall b d m x, In (EList b d m x) tr ->
                         m = n_keys /\ exists c, resumes_at s3_path g b d c)
  /\ (forall g tr page g',
        is_trace (list_s3_get_files s3_path n_keys n_loops g) tr (Ok (Some page, g')) ->
        exists b d c keys,
          resumes_at s3_path g b d c /\ c <= n_loops
          /\ tr = [EList b d n_keys (Ok keys);
                   ELog INFO (page_record c n_loops (Z.of_nat (length keys))
                                          (Z.of_nat (length page)))]
          /\ page = real_files b keys /\ page <> []
          /\ (length page <= length keys)%nat
          /\ Forall (fun f => exists k, In k keys /\ endswith_char "/" k = false
                                        /\ f = os_path_join b k) page
          /\ g' = GenYield b d false (c + 1))
  /\ (forall g tr g',
        is_trace (list_s3_get_files s3_path n_keys n_loops g) tr (Ok (None, g')) ->
        g' = GenDone
        /\ ((tr = []
             /\ (g = GenDone
                 \/ (exists b d c, g = GenYield b d true c)
                 \/ (exists b d c, resumes_at s3_path g b d c /\ n_loops < c)))
            \/ (exists b d c, resumes_at s3_path g b d c /\ c <= n_loops
                              /\ tr = [EList b d n_keys (Ok []);
                                       ELog WARNING "Empty set"])
            \/ (exists b d c keys, resumes_at s3_path g b d c /\ c <= n_loops
                                   /\ keys <> [] /\ real_files b keys = []
                                   /\ tr = [EList b d n_keys (Ok keys);
                                            ELog WARNING "No files left"])))
  /\ (forall b d e c tr r,
        n_loops < c ->
        is_trace (list_s3_get_files s3_path n_keys n_loops (GenYield b d e c)) tr r ->
        tr = [] /\ r = Ok (None, GenDone))
  /\ (forall pages,
        pulls s3_path n_keys n_loops GenInit pages ->
        (length pages <= Z.to_nat n_loops)%nat)
  /\ (forall (st : S3.state) g page g' st' tr,
        run S3.service (list_s3_get_files s3_path n_keys n_loops g) st
        = (Ok (Some page, g'), st', tr) ->
        (length page <= Z.to_nat n_keys)%nat).
Proof.
  split; [exact pull_calls|]. split; [|split; [exact pull_stops|split; [|split]]].
  - intros g tr page g' H.
    destruct (pull_yields _ _ _ _ H) as (b & d & c & keys & Hg & Hc & Ht & Hp & Hne & Hg').
    exists b, d, c, keys. repeat split; try assumption.
    + subst page. apply real_files_length.
    + subst page. apply real_files_are_files.
  - intros b d e c tr r Hc H. apply pull_traces in H.
    apply loop_traces in H as [(_ & -> & ->)|(Hcond & _)]; [auto|].
    apply andb_true_iff in Hcond as [Hle _]. apply Z.leb_le in Hle. lia.
  - intros pages H. apply pulls_bounded in H. exact H.
  - intros st g page g' st' tr Hrun.
    pose proof (run_is_trace _ _ _ _ _ _ Hrun) as Ht.
    destruct (pull_yields _ _ _ _ Ht) as (b & d & c & keys & _ & _ & Htr & -> & _).
    destruct (run_listing_answers _ _ _ _ _ _ b d n_keys (Ok keys) Hrun) as [w0 Hw0].
    { rewrite Htr. left. reflexivity. }
    apply s3_listing_respects_MaxKeys in Hw0.
    pose proof (real_files_length b keys). lia.
Qed.

End Generator.

(** ** [start_segregation] *)

Ltac main_simpl := unfold mbind, main_bind, mret, main_ret in *.

Section Engine.
Context {RT : PyRuntime} {W : Type} (cl : world W).

Lemma in_main_spec {A} (p : prog A) s r s' :
  in_main cl p s = (r, s') ->
  exists tr w,
    run cl p (m_world s) = (r, w, tr)
    /\ s' = {| m_world := w;
               m_trace := m_trace s ++ map (Step MainThread) tr;
               m_scheds := m_scheds s; m_page := m_page s;
               m_pending := m_pending s; m_done := m_done s |}.
Proof.
  unfold in_main. destruct (run cl p (m_world s)) as [[r1 w] tr] eqn:E.
  intros H. inversion H; subst. eauto.
Qed.

Lemma step_all_events {A} (P : event -> Prop) (p p' : prog A) w w' ev :
  all_events P p -> step cl p w = Some (ev, p', w') -> P ev /\ all_events P p'.
Proof.
  destruct p; simpl; intros Hall Hs; try discriminate.
  - inversion Hs; subst. exact Hall.
  - destruct (w_now cl w). inversion Hs; subst. apply Hall.
  - destruct (w_list cl _ _ _ w). inversion Hs; subst. apply Hall.
  - destruct (w_copy cl _ _ _ w). inversion Hs; subst. apply Hall.
  - destruct (w_delete cl _ _ w). inversion Hs; subst. apply Hall.
Qed.

Lemma pool_join_entries (P : event -> Prop) page tasks : forall i0 w rs w' tr,
  Forall (all_events P) tasks ->
  pool_join cl page i0 tasks w = (rs, w', tr) ->
  Forall (fun en => exists j ev, en = Step (Worker page j) ev /\ P ev) tr.
Proof.
  induction tasks as [|p tasks IH]; intros i0 w rs w' tr Hall H; simpl in H.
  - inversion H; subst. constructor.
  - destruct (run cl p w) as [[r w1] tr1] eqn:Hrun.
    destruct (pool_join cl page (S i0) tasks w1) as [[rs' w2] tr2] eqn:Hjoin.
    inversion H; subst. inversion Hall; subst. apply Forall_app. split.
    + apply run_is_trace in Hrun.
      pose proof (all_events_trace P p tr1 r ltac:(assumption) Hrun) as Hev.
      apply Forall_map. eapply Forall_impl; [exact Hev|]. simpl. eauto.
    + eapply IH; eassumption.
Qed.

Lemma pool_steps_entries (P : event -> Prop) page sched : forall tasks w tasks' w' tr,
  Forall (all_events P) tasks ->
  pool_steps cl page sched tasks w = (tasks', w', tr) ->
  Forall (all_events P) tasks'
  /\ Forall (fun en => exists j ev, en = Step (Worker page j) ev /\ P ev) tr.
Proof.
  induction sched as [|i sched IH]; intros tasks w tasks' w' tr Hall H; simpl in H.
  - inversion H; subst. split; [assumption | constructor].
  - destruct (tasks !! i) as [p|] eqn:Hi; [|eauto].
    destruct (step cl p w) as [[[ev p'] w1]|] eqn:Hstep; [|eauto].
    destruct (pool_steps cl page sched (<[i:=p']> tasks) w1) as [[ts w2] tr1] eqn:Hrest.
    inversion H; subst.
    assert (Hp : all_events P p).
    { eapply Forall_lookup_1; eassumption. }
    destruct (step_all_events P _ _ _ _ _ Hp Hstep) as [Hev Hp'].
    destruct (IH _ _ _ _ _ (Forall_insert _ _ _ _ Hall Hp') Hrest) as [Hts Htr].
    split; [assumption|]. constructor; eauto.
Qed.

Lemma pool_wait_entries (P : event -> Prop) page sched tasks w rs w' tr :
  Forall (all_events P) tasks ->
  pool_wait cl page sched tasks w = (rs, w', tr) ->
  Forall (fun en => exists j ev, en = Step (Worker page j) ev /\ P ev) tr.
Proof.
  unfold pool_wait. intros Hall H.
  destruct (pool_steps cl page sched tasks w) as [[ts w1] tr1] eqn:Hsteps.
  destruct (pool_join cl page 0 ts w1) as [[rs' w2] tr2] eqn:Hjoin.
  inversion H; subst.
  destruct (pool_steps_entries P _ _ _ _ _ _ _ Hall Hsteps) as [Hts Htr1].
  apply Forall_app. split; [assumption|].
  eapply pool_join_entries; eassumption.
Qed.

Lemma move_files_to_s3_events (source_path destination_dir : string) :
  all_events move_event (move_files_to_s3 source_path destination_dir).
Proof.
  unfold move_files_to_s3. apply all_events_try.
  - prog_simpl. apply all_events_bind; [apply all_events_of_result|].
    intros [sb sk]. apply all_events_bind; [apply all_events_of_result|].
    intros [db dd]. simpl. split; [exact I|]. intros x. split; [exact I|].
    apply all_events_bind; [apply all_events_of_result|].
    intros _. simpl. intros y. split; [exact I|]. apply all_events_of_result.
  - intros e. simpl. auto.
Qed.

Lemma moves_only_events tasks :
  moves_only tasks -> Forall (all_events move_event) tasks.
Proof.
  intros H. eapply Forall_impl; [exact H|].
  intros p (sp & dd & ->). apply move_files_to_s3_events.
Qed.

(** The futures of a page of moves all end without an exception. *)
Lemma pool_wait_moves page sched tasks w rs w' tr :
  moves_only tasks ->
  pool_wait cl page sched tasks w = (rs, w', tr) ->
  rs = replicate (length tasks) (Ok tt)
  /\ Forall (fun en => exists j ev, en = Step (Worker page j) ev /\ move_event ev) tr.
Proof.
  intros Hm H. split.
  - destruct (pool_wait_spec _ _ _ _ _ _ _ _ H) as [Hlen Htasks].
    apply list_eq. intros j. destruct (tasks !! j) as [p|] eqn:Hj.
    + destruct (Htasks j p Hj) as (r & Hr & Ht).
      pose proof (Forall_lookup_1 _ _ _ _ Hm Hj) as (sp & dd & ->).
      apply move_files_to_s3_traces in Ht as [-> _].
      rewrite Hr. symmetry. apply lookup_replicate_2. eapply lookup_lt_Some; eassumption.
    + apply lookup_ge_None in Hj. rewrite (proj2 (lookup_ge_None _ _)) by lia.
      symmetry. apply lookup_ge_None. rewrite length_replicate. lia.
  - eapply pool_wait_entries; [apply moves_only_events|]; eassumption.
Qed.

Lemma submitted_app (a b : list entry) :
  submitted (a ++ b) = submitted a ++ submitted b.
Proof.
  induction a as [|[th ev|pg tk sp dd] a IH]; simpl; [reflexivity|assumption|].
  rewrite IH. reflexivity.
Qed.

Lemma submitted_main_steps (evs : list event) :
  submitted (map (Step MainThread) evs) = [].
Proof. induction evs; simpl; auto. Qed.

Lemma advances_refl cfg dd (s : mstate (W := W)) : advances cfg dd s s [].
Proof.
  unfold advances. rewrite app_nil_r. simpl. repeat split; auto; lia.
Qed.

Lemma advances_trans cfg dd (s s1 s2 : mstate (W := W)) tr1 tr2 :
  advances cfg dd s s1 tr1 -> advances cfg dd s1 s2 tr2 ->
  advances cfg dd s s2 (tr1 ++ tr2).
Proof.
  intros (Ht1 & Hf1 & Hm1 & Hd1 & Hl1) (Ht2 & Hf2 & Hm2 & Hd2 & Hl2).
  unfold advances. rewrite Ht2, Ht1, app_assoc, submitted_app, length_app.
  repeat split; auto.
  - apply Forall_app; auto.
  - lia.
Qed.

(** The main thread running a program that only lists and logs. *)
Lemma in_main_advances {A} cfg dd (p : prog A) s r s' :
  all_events (fun ev => is_log ev \/ is_listing ev) p ->
  in_main cl p s = (r, s') ->
  exists tr,
    is_trace p tr r
    /\ advances cfg dd s s' (map (Step MainThread) tr)
    /\ m_pending s' = m_pending s /\ m_page s' = m_page s.
Proof.
  intros Hall H. apply in_main_spec in H as (tr & w & Hrun & ->).
  apply run_is_trace in Hrun. exists tr. split; [assumption|].
  split; [|split; reflexivity].
  unfold advances; simpl. rewrite submitted_main_steps. simpl.
  split; [reflexivity|]. split; [|split; [auto|split; [auto|lia]]].
  apply Forall_map. eapply Forall_impl; [eapply all_events_trace; eassumption|].
  intros [] [Hl|Hl]; simpl in *; tauto.
Qed.

Lemma classify_only_logs cfg dd file :
  all_events is_log (classify cfg dd file).
Proof.
  unfold classify. destruct (pattern_of cfg); [apply extract_only_logs | exact I].
Qed.

Lemma all_events_impl {A} (P Q : event -> Prop) (p : prog A) :
  (forall ev, P ev -> Q ev) -> all_events P p -> all_events Q p.
Proof.
  intros HPQ. induction p; simpl; try tauto; intros Hp;
    try (intros x; specialize (Hp x)); intuition.
Qed.

Lemma clean_main_logs (tr : list event) :
  Forall is_log tr -> clean (map (Step MainThread) tr).
Proof.
  intros H. apply Forall_map. eapply Forall_impl; [exact H|].
  intros [] Hl; simpl in *; tauto.
Qed.

Lemma clean_workers page (tr : list entry) (P : event -> Prop) :
  Forall (fun en => exists j ev, en = Step (Worker page j) ev /\ P ev) tr -> clean tr.
Proof.
  intros H. eapply Forall_impl; [exact H|]. intros en (j & ev & -> & _). reflexivity.
Qed.

(** The loop over the files of a page: records of the classification,
    and one task submitted for each file reached. *)
Lemma submit_files_spec cfg dd files : forall s r s',
  submit_files cl cfg dd files s = (r, s') ->
  exists tr,
    advances cfg dd s s' tr /\ clean tr /\ m_page s' = m_page s
    /\ (r = Ok tt -> map fst (submitted tr) = files).
Proof.
  induction files as [|file files IH]; intros s r s' H; simpl in H.
  - inversion H; subst. exists []. split; [apply advances_refl|].
    split; [constructor|]. auto.
  - main_simpl.
    destruct (in_main cl (classify cfg dd file) s) as [[d|e] s1] eqn:Hc.
    + destruct (in_main_advances cfg dd _ _ _ _
                  (all_events_impl _ _ _ (fun ev H => or_introl H)
                                   (classify_only_logs cfg dd file)) Hc)
        as (tr1 & Ht1 & Ha1 & Hp1 & Hg1).
      unfold executor_submit in H at 1.
      set (s2 := {| m_world := m_world s1;
                    m_trace := m_trace s1
                               ++ [Submitted (m_page s1) (length (m_pending s1)) file
                                             (destination_dir cfg d)];
                    m_scheds := m_scheds s1; m_page := m_page s1;
                    m_pending := m_pending s1
                                 ++ [move_files_to_s3 file (destination_dir cfg d)];
                    m_done := m_done s1 |}) in H.
      assert (Ha2 : advances cfg dd s1 s2
                      [Submitted (m_page s1) (length (m_pending s1)) file
                                 (destination_dir cfg d)]).
      { unfold advances, s2; simpl. split; [reflexivity|].
        split; [|split; [|split; [auto|]]].
        - constructor; [|constructor]. simpl. eauto.
        - intros Hm. apply Forall_app. split; [assumption|].
          constructor; [eauto | constructor].
        - rewrite length_app. simpl. lia. }
      destruct (IH _ _ _ H) as (tr3 & Ha3 & Hc3 & Hg3 & Hf3).
      eexists. split; [eapply advances_trans; [exact Ha1|];
                       eapply advances_trans; [exact Ha2 | exact Ha3]|].
      split; [|split].
      * apply Forall_app. split.
        -- apply clean_main_logs. eapply all_events_trace; [|exact Ht1].
           apply classify_only_logs.
        -- constructor; [reflexivity | exact Hc3].
      * rewrite Hg3. unfold s2; simpl. exact Hg1.
      * intros Hr. rewrite !submitted_app, submitted_main_steps. simpl.
        rewrite (Hf3 Hr). reflexivity.
    + inversion H; subst.
      destruct (in_main_advances cfg dd _ _ _ _
                  (all_events_impl _ _ _ (fun ev H => or_introl H)
                                   (classify_only_logs cfg dd file)) Hc)
        as (tr1 & Ht1 & Ha1 & Hp1 & Hg1).
      exists (map (Step MainThread) tr1). split; [exact Ha1|].
      split; [|split; [exact Hg1 | discriminate]].
      apply clean_main_logs. eapply all_events_trace; [|exact Ht1].
      apply classify_only_logs.
Qed.

(** [wait]: the pending moves run to their end. *)
Lemma wait_spec cfg dd s r s' :
  moves_only (m_pending s) ->
  wait cl s = (r, s') ->
  r = Ok tt
  /\ exists tr, advances cfg dd s s' tr /\ clean tr /\ m_pending s' = []
                /\ submitted tr = [] /\ m_page s' = S (m_page s).
Proof.
  intros Hm. unfold wait.
  destruct (pool_wait cl (m_page s) (hd [] (m_scheds s)) (m_pending s) (m_world s))
    as [[rs w] tr] eqn:Hw.
  intros H. inversion H; subst. split; [reflexivity|].
  destruct (pool_wait_moves _ _ _ _ _ _ _ Hm Hw) as [-> Htr].
  exists tr. unfold advances; simpl.
  assert (Hs : submitted tr = []).
  { clear -Htr. induction Htr as [|en tr (j & ev & -> & _) _ IH]; simpl; auto. }
  rewrite Hs. split; [|split; [|split; [reflexivity|split; reflexivity]]].
  - split; [reflexivity|]. split; [|split; [|split]].
    + eapply Forall_impl; [exact Htr|]. intros en (j & ev & -> & Hev). exact Hev.
    + intros _. constructor.
    + intros Hd. apply Forall_app. split; [assumption|].
      apply Forall_forall. intros x Hx. apply elem_of_replicate in Hx as [-> _].
      reflexivity.
    + rewrite length_app, length_replicate. simpl. lia.
  - eapply clean_workers; exact Htr.
Qed.

Lemma all_events_list {A} (P : event -> Prop) b d m (k : result (list string) -> prog A) :
  (forall x, P (EList b d m x) /\ all_events P (k x)) ->
  all_events P (ListObjectsV2 b d m k).
Proof. auto. Qed.

Lemma generator_events s3_path nk nl g :
  all_events (fun ev => is_log ev \/ is_listing ev)
             (list_s3_get_files s3_path nk nl g).
Proof.
  assert (Hloop : forall b d e c,
             all_events (fun ev => is_log ev \/ is_listing ev)
                        (list_s3_get_files_loop nk nl b d e c)).
  { intros b d e c. rewrite loop_unfold. destruct ((c <=? nl) && negb e); [|exact I].
    apply all_events_list. intros [keys|ex]; (split; [right; exact I|]); [|exact I].
    cbv beta. rewrite loop_after_listing. unfold after_listing.
    destruct keys as [|k keys]; [simpl; auto|].
    destruct (length (real_files b (k :: keys)) =? 0)%nat; simpl; auto. }
  destruct g as [|b d e c|]; simpl; [|apply Hloop|exact I].
  apply all_events_bind; [apply all_events_of_result|]. intros [b d]. apply Hloop.
Qed.

(** A pull that raises: the path does not parse (no call was made), or
    the listing call raised and nothing follows it. *)
Lemma pull_raises s3_path nk nl g tr e :
  is_trace (list_s3_get_files s3_path nk nl g) tr (Raise e) ->
  tr = [] \/ exists b d, tr = [EList b d nk (Raise e)].
Proof.
  intros H. apply pull_traces in H.
  assert (Hloop : forall b d e0 c,
             is_trace (list_s3_get_files_loop nk nl b d e0 c) tr (Raise e) ->
             exists b d, tr = [EList b d nk (Raise e)]).
  { intros b d e0 c Hl. apply loop_traces in Hl as [(_ & _ & E)|(_ & Hl)]; [discriminate|].
    destruct Hl as [(ex & -> & E)|(keys & tr' & -> & Ha)].
    - inversion E; subst. eauto.
    - apply after_listing_traces in Ha as [(_ & _ & E)|[(_ & _ & _ & E)|(_ & _ & E)]];
        discriminate. }
  destruct g as [|b d e0 c|].
  - destruct H as [(e1 & _ & -> & _)|(b & d & _ & Hl)]; [auto | right; eauto].
  - right. eauto.
  - destruct H as [_ E]. discriminate.
Qed.

(** A pull that returns made no call that raised. *)
Lemma pull_returns_clean s3_path nk nl g tr x :
  is_trace (list_s3_get_files s3_path nk nl g) tr (Ok x) ->
  clean (map (Step MainThread) tr).
Proof.
  intros H. apply pull_traces in H.
  assert (Hloop : forall b d e0 c,
             is_trace (list_s3_get_files_loop nk nl b d e0 c) tr (Ok x) ->
             clean (map (Step MainThread) tr)).
  { intros b d e0 c Hl. apply loop_traces in Hl as [(_ & -> & _)|(_ & Hl)]; [constructor|].
    destruct Hl as [(ex & _ & E)|(keys & tr' & -> & Ha)]; [discriminate|].
    apply after_listing_traces in Ha as [(_ & -> & _)|[(_ & _ & -> & _)|(_ & -> & _)]];
      repeat constructor. }
  destruct g as [|b d e0 c|].
  - destruct H as [(e1 & _ & _ & E)|(b & d & _ & Hl)]; [discriminate | eauto].
  - eauto.
  - destruct H as [-> _]. constructor.
Qed.

Lemma for_pages_spec cfg dd fuel : forall g s r s',
  m_pending s = [] ->
  for_pages cl fuel cfg dd g s = (r, s') ->
  exists tr, advances cfg dd s s' tr /\ stops_on_failed_listing tr r s'.
Proof.
  induction fuel as [|fuel IH]; intros g s r s' Hp H; simpl in H.
  - inversion H; subst. exists []. split; [apply advances_refl | left; constructor].
  - main_simpl.
    destruct (in_main cl (list_s3_get_files (s3_dir cfg) (n_keys cfg) (n_loops cfg) g) s)
      as [[[page g']|e] s1] eqn:Hpull.
    + destruct (in_main_advances cfg dd _ _ _ _ (generator_events _ _ _ _) Hpull)
        as (tr1 & Ht1 & Ha1 & Hp1 & Hg1).
      pose proof (pull_returns_clean _ _ _ _ _ _ Ht1) as Hc1.
      destruct page as [files|].
      * destruct (submit_files cl cfg dd files s1) as [[[]|e] s2] eqn:Hsub.
        -- destruct (submit_files_spec _ _ _ _ _ _ Hsub) as (tr2 & Ha2 & Hc2 & Hg2 & _).
           destruct (wait cl s2) as [rw s3] eqn:Hwait.
           assert (Hm2 : moves_only (m_pending s2)).
           { destruct Ha2 as (_ & _ & Hm & _). apply Hm. rewrite Hp1, Hp. constructor. }
           destruct (wait_spec cfg dd _ _ _ Hm2 Hwait) as (-> & tr3 & Ha3 & Hc3 & Hp3 & _).
           destruct (IH _ _ _ _ Hp3 H) as (tr4 & Ha4 & Hs4).
           exists (map (Step MainThread) tr1 ++ tr2 ++ tr3 ++ tr4). split.
           ++ eapply advances_trans; [exact Ha1|].
              eapply advances_trans; [exact Ha2|].
              eapply advances_trans; [exact Ha3 | exact Ha4].
           ++ destruct Hs4 as [Hc4|(pre & b & d & m & e & -> & Hpre & -> & Hp4)].
              ** left. unfold clean. rewrite !Forall_app. auto.
              ** right. exists (map (Step MainThread) tr1 ++ tr2 ++ tr3 ++ pre), b, d, m, e.
                 rewrite <- !app_assoc. repeat split; auto.
                 unfold clean. rewrite !Forall_app. auto.
        -- inversion H; subst.
           destruct (submit_files_spec _ _ _ _ _ _ Hsub) as (tr2 & Ha2 & Hc2 & _).
           exists (map (Step MainThread) tr1 ++ tr2). split.
           ++ eapply advances_trans; eassumption.
           ++ left. unfold clean. rewrite Forall_app. auto.
      * inversion H; subst. exists (map (Step MainThread) tr1).
        split; [exact Ha1 | left; exact Hc1].
    + inversion H; subst.
      destruct (in_main_advances cfg dd _ _ _ _ (generator_events _ _ _ _) Hpull)
        as (tr1 & Ht1 & Ha1 & Hp1 & Hg1).
      exists (map (Step MainThread) tr1). split; [exact Ha1|].
      destruct (pull_raises _ _ _ _ _ _ Ht1) as [->|(b & d & ->)].
      * left. constructor.
      * right. exists [], b, d, (n_keys cfg), e. simpl.
        repeat split; [constructor | congruence].
Qed.

(** Leaving the [with] block: the futures still pending are waited for. *)
Lemma with_executor_exit cfg dd n (body : Main unit) s r1 s1 r s' :
  (n <=? 0) = false ->
  body s = (r1, s1) ->
  moves_only (m_pending s1) ->
  with_executor cl n body s = (r, s') ->
  r = r1
  /\ m_pending s' = []
  /\ exists tr, advances cfg dd s1 s' tr /\ clean tr /\ submitted tr = []
                /\ (m_pending s1 = [] -> tr = []).
Proof.
  intros Hn Hbody Hm. unfold with_executor. rewrite Hn, Hbody.
  destruct (m_pending s1) as [|p ps] eqn:Hp.
  - intros H. inversion H; subst. split; [reflexivity|]. split; [assumption|].
    exists []. split; [apply advances_refl|]. split; [constructor|]. auto.
  - destruct (wait cl s1) as [rw s2] eqn:Hw. intros H. inversion H; subst.
    rewrite <- Hp in Hm.
    destruct (wait_spec cfg dd _ _ _ Hm Hw) as (_ & tr & Ha & Hc & Hp2 & Hs & _).
    split; [reflexivity|]. split; [assumption|]. exists tr.
    split; [exact Ha|]. split; [exact Hc|]. split; [exact Hs|].
    intros E. congruence.
Qed.

Lemma log_in_main lvl msg (s : mstate (W := W)) :
  in_main cl (logging lvl msg) s
  = (Ok tt, {| m_world := m_world s;
               m_trace := m_trace s ++ [Step MainThread (ELog lvl msg)];
               m_scheds := m_scheds s; m_page := m_page s;
               m_pending := m_pending s; m_done := m_done s |}).
Proof. reflexivity. Qed.

Lemma now_in_main (s : mstate (W := W)) :
  in_main cl (Now Ret) s
  = (Ok (fst (w_now cl (m_world s))),
     {| m_world := snd (w_now cl (m_world s));
        m_trace := m_trace s ++ [Step MainThread (ENow (fst (w_now cl (m_world s))))];
        m_scheds := m_scheds s; m_page := m_page s;
        m_pending := m_pending s; m_done := m_done s |}).
Proof. unfold in_main. simpl. destruct (w_now cl (m_world s)). reflexivity. Qed.

(** A whole run, when the delay can be subtracted from the clock: the
    clock is read, then come the entries of the loop; the function returns
    normally, every task submitted has finished without an exception, and
    a listing call that raised is followed by its error record alone. *)
Lemma start_segregation_spec cfg s r s' :
  m_pending s = [] ->
  sub_overflow (fst (w_now cl (m_world s))) (time_delay cfg) = None ->
  start_segregation cl cfg s = (r, s') ->
  r = Ok tt
  /\ m_pending s' = []
  /\ exists tr,
      m_trace s' = m_trace s ++ Step MainThread (ENow (fst (w_now cl (m_world s)))) :: tr
      /\ Forall (loop_entry cfg (sub_seconds (fst (w_now cl (m_world s))) (time_delay cfg))) tr
      /\ (Forall (fun r => r = Ok tt) (m_done s) -> Forall (fun r => r = Ok tt) (m_done s'))
      /\ length (m_done s') = (length (m_done s) + length (submitted tr))%nat
      /\ (clean tr
          \/ exists pre b d m e,
              tr = pre ++ [Step MainThread (EList b d m (Raise e));
                           Step MainThread (ELog ERROR (str_exn e))]
              /\ clean pre).
Proof.
  intros Hp Hov. unfold start_segregation. main_simpl. rewrite now_in_main, Hov.
  set (now := fst (w_now cl (m_world s))).
  set (dd := sub_seconds now (time_delay cfg)).
  set (s0 := {| m_world := snd (w_now cl (m_world s));
                m_trace := m_trace s ++ [Step MainThread (ENow now)];
                m_scheds := m_scheds s; m_page := m_page s;
                m_pending := m_pending s; m_done := m_done s |}).
  unfold main_try.
  destruct (with_executor cl (n_workers cfg)
              (for_pages cl (S (Z.to_nat (n_loops cfg))) cfg dd GenInit) s0)
    as [r1 s1] eqn:Hwith.
  assert (Hrun : m_pending s1 = []
                 /\ exists tr,
                     advances cfg dd s0 s1 tr
                     /\ (clean tr
                         \/ exists pre b d m e,
                             tr = pre ++ [Step MainThread (EList b d m (Raise e))]
                             /\ clean pre /\ r1 = Raise e)).
  { destruct (n_workers cfg <=? 0) eqn:Hn.
    - unfold with_executor in Hwith. rewrite Hn in Hwith.
      inversion Hwith; subst. split; [exact Hp|]. exists [].
      split; [apply advances_refl | left; constructor].
    - destruct (for_pages cl (S (Z.to_nat (n_loops cfg))) cfg dd GenInit s0)
        as [r0 sb] eqn:Hbody.
      destruct (for_pages_spec cfg dd _ _ s0 _ _ Hp Hbody) as (tr1 & Ha1 & Hs1).
      assert (Hmb : moves_only (m_pending sb)).
      { destruct Ha1 as (_ & _ & Hm & _). apply Hm. simpl. rewrite Hp. constructor. }
      destruct (with_executor_exit cfg dd _ _ _ _ _ _ _ Hn Hbody Hmb Hwith)
        as (-> & Hp1 & tr2 & Ha2 & Hc2 & Hs2 & Hnil).
      split; [exact Hp1|]. exists (tr1 ++ tr2).
      split; [eapply advances_trans; eassumption|].
      destruct Hs1 as [Hc1|(pre & b & d & m & e & -> & Hpre & -> & Hpb)].
      + left. unfold clean. rewrite Forall_app. auto.
      + right. rewrite (Hnil Hpb), app_nil_r. exists pre, b, d, m, e. auto. }
  destruct Hrun as (Hp1 & tr & (Ht & Hf & Hm & Hd & Hl) & Hstop).
  simpl in Ht, Hd, Hl. rewrite Hp, Hp1 in Hl. simpl in Hl.
  destruct r1 as [[]|e].
  - intros H. inversion H; subst. split; [reflexivity|]. split; [exact Hp1|].
    exists tr. rewrite Ht, <- app_assoc. simpl. split; [reflexivity|].
    split; [exact Hf|]. split; [exact Hd|]. split; [lia|].
    destruct Hstop as [Hc|(pre & b & d & m & e & _ & _ & E)]; [left; exact Hc | discriminate].
  - rewrite log_in_main. intros H. inversion H; subst; simpl.
    split; [reflexivity|]. split; [exact Hp1|].
    exists (tr ++ [Step MainThread (ELog ERROR (str_exn e))]).
    rewrite Ht, <- !app_assoc. simpl. split; [reflexivity|].
    split; [apply Forall_app; split; [exact Hf | repeat constructor]|].
    split; [exact Hd|]. rewrite submitted_app, length_app. simpl. split; [lia|].
    destruct Hstop as [Hc|(pre & b & d & m & e' & -> & Hpre & E)].
    + left. unfold clean. rewrite Forall_app. split; [exact Hc | repeat constructor].
    + inversion E; subst. right. exists pre, b, d, m, e'.
      rewrite <- app_assoc. simpl. auto.
Qed.

(** When it cannot, the exception leaves the function once the clock is
    read: nothing is listed, logged or submitted. *)
Lemma start_segregation_overflow cfg s msg :
  sub_overflow (fst (w_now cl (m_world s))) (time_delay cfg) = Some msg ->
  start_segregation cl cfg s
  = (Raise (Exception "OverflowError" msg),
     {| m_world := snd (w_now cl (m_world s));
        m_trace := m_trace s ++ [Step MainThread (ENow (fst (w_now cl (m_world s))))];
        m_scheds := m_scheds s; m_page := m_page s;
        m_pending := m_pending s; m_done := m_done s |}).
Proof.
  intros Hov. unfold start_segregation. main_simpl. rewrite now_in_main, Hov.
  reflexivity.
Qed.

End Engine.

(** ** The claims about routing, moves and runs *)

Section Run.
Context {RT : PyRuntime} {W : Type} (cl : world W).

(** The fuel of [for_pages] is never used up: with any fuel above the
    number of pulls that can still yield, the loop is the same. *)
Lemma for_pages_fuel cfg dd : forall fuel g s,
  (remaining (n_loops cfg) g < fuel)%nat ->
  for_pages cl fuel cfg dd g s
  = for_pages cl (S (remaining (n_loops cfg) g)) cfg dd g s.
Proof.
  induction fuel as [|fuel IH]; intros g s Hlt; [lia|].
  simpl. main_simpl.
  destruct (in_main cl (list_s3_get_files (s3_dir cfg) (n_keys cfg) (n_loops cfg) g) s)
    as [[[[files|] g']|e] s1] eqn:Hpull; try reflexivity.
  apply in_main_spec in Hpull as (tr & w & Hrun & _). apply run_is_trace in Hrun.
  pose proof (pull_decreases _ _ _ _ _ _ _ Hrun) as Hdec.
  destruct (submit_files cl cfg dd files s1) as [[[]|e] s2]; [|reflexivity].
  destruct (wait cl s2) as [[[]|e] s3]; [|reflexivity].
  rewrite Hdec. apply IH. lia.
Qed.

(** In [start_segregation] the loop has all the fuel it needs. *)
Lemma for_pages_enough_fuel cfg dd fuel s :
  (Z.to_nat (n_loops cfg) < fuel)%nat ->
  for_pages cl fuel cfg dd GenInit s
  = for_pages cl (S (Z.to_nat (n_loops cfg))) cfg dd GenInit s.
Proof. intros H. apply (for_pages_fuel cfg dd fuel GenInit s H). Qed.

(** *** Every file listed is submitted *)













(** C4, as the code has it: in every behaviour of a move, the delete is
    issued only after the copy of that source has reported success, and a
    failed copy is followed by no delete; the same holds of every task of
    a page, for every schedule of the workers.  In the reference service a
    move that runs alone leaves the object at its source, at its
    destination, or at both.  Nothing more is kept: moves of one page that
    write the same destination key overwrite each other. *)
Theorem delete_is_issued_only_after_the_copy_succeeded
    (source_path destination_dir : string) :
  (forall tr r,
      is_trace (move_files_to_s3 source_path destination_dir) tr r ->
      (forall pre ev post,
          tr = pre ++ ev :: post -> is_delete ev ->
          Exists (is_copy_ok source_path) pre)
      /\ (forall b k e, In (ECopy b k source_path (Raise e)) tr ->
                        Forall (fun ev => ~ is_delete ev) tr))
  /\ (forall page sched tasks w rs w' tr j,
        pool_wait cl page sched tasks w = (rs, w', tr) ->
        tasks !! j = Some (move_files_to_s3 source_path destination_dir) ->
        (forall pre ev post,
            events_of (Worker page j) tr = pre ++ ev :: post -> is_delete ev ->
            Exists (is_copy_ok source_path) pre)
        /\ (forall b k e,
               In (ECopy b k source_path (Raise e)) (events_of (Worker page j) tr) ->
               Forall (fun ev => ~ is_delete ev) (events_of (Worker page j) tr)))
  /\ (forall (st : S3.state) src body r st' tr,
        S3.source_of source_path = Some src ->
        S3.objects st !! src = Some body ->
        run S3.service (move_files_to_s3 source_path destination_dir) st
        = (r, st', tr) ->
        S3.objects st' !! src = Some body
        \/ exists dest, destination_of source_path destination_dir = Some dest
                        /\ S3.objects st' !! dest = Some body).
Proof.
  split; [|split].
  - intros tr r H. apply move_files_to_s3_traces in H as [_ Hm]. split.
    + apply (delete_after_copy_in_trace _ _ _ Hm).
    + apply (no_delete_after_failed_copy _ _ _ Hm).
  - intros page sched tasks w rs w' tr j H Hj.
    destruct (pool_wait_spec cl _ _ _ _ _ _ _ H) as [_ Htasks].
    destruct (Htasks j _ Hj) as (r & _ & Ht).
    apply move_files_to_s3_traces in Ht as [_ Hm]. split.
    + apply (delete_after_copy_in_trace _ _ _ Hm).
    + apply (no_delete_after_failed_copy _ _ _ Hm).
  - intros. eapply moved_object_remains; eassumption.
Qed.

Lemma move_trace_ends_with_error source_path destination_dir tr :
  move_trace source_path destination_dir tr ->
  forall ev e, In ev tr -> raised ev = Some e ->
               last tr = Some (ELog ERROR (error_moving_record source_path
                                                               destination_dir e)).
Proof.
  intros Hm ev e Hin Hr.
  destruct Hm; simpl in Hin;
    repeat (destruct Hin as [<-|Hin]; [simpl in Hr; try discriminate|]);
    try contradiction; inversion Hr; subst; reflexivity.
Qed.

(** C5, as the code has it: whatever is raised while an object is
    moved is caught in [move_files_to_s3] and logged as an error with the
    source path, the destination and the exception, and the move returns
    normally; the futures of a page all finish, each task having done
    what a move does, for every schedule of the workers; in a whole run
    in which the default date can be computed every task submitted has
    finished without an exception and the function returns normally; when
    the subtraction of [time_delay] overflows, the [OverflowError] leaves
    the function before anything is listed or submitted; and after a page
    the loop resumes the generator, whatever the moves did.  No outcome
    and no summary are produced. *)
Theorem move_failures_are_logged_and_contained :
  (forall source_path destination_dir tr r,
      is_trace (move_files_to_s3 source_path destination_dir) tr r ->
      r = Ok tt
      /\ forall ev e, In ev tr -> raised ev = Some e ->
                      last tr = Some (ELog ERROR (error_moving_record
                                                    source_path destination_dir e)))
  /\ (forall page sched tasks w rs w' tr,
         moves_only tasks ->
         pool_wait cl page sched tasks w = (rs, w', tr) ->
         rs = replicate (length tasks) (Ok tt)
         /\ forall j source_path destination_dir,
             tasks !! j = Some (move_files_to_s3 source_path destination_dir) ->
             move_trace source_path destination_dir (events_of (Worker page j) tr))
  /\ (forall cfg s r s',
         m_pending s = [] -> m_done s = [] ->
         sub_overflow (fst (w_now cl (m_world s))) (time_delay cfg) = None ->
         start_segregation cl cfg s = (r, s') ->
         r = Ok tt /\ m_pending s' = []
         /\ exists tr,
             m_trace s'
             = m_trace s ++ Step MainThread (ENow (fst (w_now cl (m_world s)))) :: tr
             /\ m_done s' = replicate (length (submitted tr)) (Ok tt))
  /\ (forall cfg s r s' msg,
         sub_overflow (fst (w_now cl (m_world s))) (time_delay cfg) = Some msg ->
         start_segregation cl cfg s = (r, s') ->
         r = Raise (Exception "OverflowError" msg)
         /\ m_trace s'
            = m_trace s ++ [Step MainThread (ENow (fst (w_now cl (m_world s))))]
         /\ m_done s' = m_done s)
  /\ (forall fuel cfg dd g s files g' s1 s2,
         in_main cl (list_s3_get_files (s3_dir cfg) (n_keys cfg) (n_loops cfg) g) s
         = (Ok (Some files, g'), s1) ->
         submit_files cl cfg dd files s1 = (Ok tt, s2) ->
         for_pages cl (S fuel) cfg dd g s
         = for_pages cl fuel cfg dd g' (snd (wait cl s2))).
Proof.
  split; [|split; [|split; [|split]]].
  - intros sp dd tr r H. apply move_files_to_s3_traces in H as [-> Hm].
    split; [reflexivity|]. apply move_trace_ends_with_error. exact Hm.
  - intros page sched tasks w rs w' tr Hm H.
    destruct (pool_wait_moves cl _ _ _ _ _ _ _ Hm H) as [Hrs _].
    split; [exact Hrs|]. intros j sp dd Hj.
    destruct (pool_wait_spec cl _ _ _ _ _ _ _ H) as [_ Htasks].
    destruct (Htasks j _ Hj) as (r & _ & Ht).
    apply move_files_to_s3_traces in Ht as [_ Ht]. exact Ht.
  - intros cfg s r s' Hp Hd Hov H.
    destruct (start_segregation_spec cl cfg s r s' Hp Hov H)
      as (-> & Hp' & tr & Ht & _ & Hok & Hlen & _).
    split; [reflexivity|]. split; [exact Hp'|]. exists tr. split; [exact Ht|].
    rewrite Hd in Hok, Hlen. simpl in Hlen. rewrite <- Hlen.
    specialize (Hok (List.Forall_nil _)). clear -Hok.
    induction (m_done s') as [|x l IH]; [reflexivity|].
    inversion Hok; subst. simpl. f_equal. apply IH. assumption.
  - intros cfg s r s' msg Hov H.
    rewrite (start_segregation_overflow cl cfg s msg Hov) in H.
    inversion H; subst. auto.
  - intros fuel cfg dd g s files g' s1 s2 Hpull Hsub. simpl. main_simpl.
    rewrite Hpull, Hsub. unfold wait at 1.
    destruct (pool_wait cl (m_page s2) (hd [] (m_scheds s2)) (m_pending s2) (m_world s2))
      as [[rs w] tr] eqn:Hw.
    unfold wait. rewrite Hw. reflexivity.
Qed.





End Run.

Lemma replace_without_occurrence (old new s : string) :
  occurs old s = false -> replace old new s = s.
Proof.
  unfold replace. induction s as [|c s IH]; [reflexivity|].
  intros H.
  change (occurs old (String c s))
    with (String.prefix old (String c s) || occurs old s) in H.
  apply orb_false_iff in H as [Hp Ho].
  change (replace_aux old new 0 (String c s))
    with (if String.prefix old (String c s)
          then new +:+ replace_aux old new (String.length old - 1) s
          else String c (replace_aux old new 0 s)).
  rewrite Hp, (IH Ho). reflexivity.
Qed.

Lemma substring_all (s : string) : String.substring 0 (String.length s) s = s.
Proof. induction s as [|c s IH]; simpl; [reflexivity | now rewrite IH]. Qed.

(** On a path in which the scheme text occurs at the start only, or not at
    all, [parse_s3_uri] does what the specification says: the part before
    the first separator is the bucket, the part after it the key, and the
    unpacking fails exactly when there is no separator. *)
Lemma parse_s3_uri_on_plain_paths (uri rest : string) :
  uri = "s3://" +:+ rest \/ uri = rest ->
  occurs "s3://" rest = false ->
  parse_as_specified uri = split_first "/" rest
  /\ parse_s3_uri uri
     = match split_first "/" rest with
       | Some (bucket, key) => Ok (bucket, key)
       | None => Raise (ValueError "not enough values to unpack (expected 2, got 1)")
       end.
Proof.
  intros Huri Hocc.
  assert (Hr : replace "s3://" "" uri = rest /\ parse_as_specified uri = split_first "/" rest).
  { destruct Huri as [->| ->].
    - destruct rest as [|c rest]; [split; reflexivity|]. split.
      + change (replace "s3://" "" ("s3://" +:+ String c rest))
          with (replace "s3://" "" (String c rest)).
        apply replace_without_occurrence. exact Hocc.
      + unfold parse_as_specified.
        change (startswith "s3://" ("s3://" +:+ String c rest)) with true.
        change (String.substring 5 (String.length ("s3://" +:+ String c rest) - 5)
                                 ("s3://" +:+ String c rest))
          with (String.substring 0 (String.length (String c rest)) (String c rest)).
        rewrite substring_all. reflexivity.
    - split; [apply replace_without_occurrence; exact Hocc|].
      unfold parse_as_specified, startswith.
      destruct rest as [|c rest]; [reflexivity|].
      change (occurs "s3://" (String c rest))
        with (String.prefix "s3://" (String c rest) || occurs "s3://" rest) in Hocc.
      apply orb_false_iff in Hocc as [Hp _]. rewrite Hp. reflexivity. }
  destruct Hr as [Hr Hs]. split; [exact Hs|].
  unfold parse_s3_uri, split1. rewrite Hr.
  destruct (split_first "/" rest) as [[b k]|]; reflexivity.
Qed.

(** C9: on a path in which the scheme text occurs after the first
    separator, [parse_s3_uri] removes that occurrence too: the key it
    returns is not the part after the first separator. *)
Theorem parse_s3_uri_removes_every_scheme_occurrence :
  parse_s3_uri "bucket/a/s3://b" = Ok ("bucket", "a/b")
  /\ parse_as_specified "bucket/a/s3://b" = Some ("bucket", "a/s3://b")
  /\ parse_s3_uri "s3://bucket/a/s3://b" = Ok ("bucket", "a/b")
  /\ parse_as_specified "s3://bucket/a/s3://b" = Some ("bucket", "a/s3://b").
Proof. repeat split; vm_compute; reflexivity. Qed.

(** ** The reference runtime *)

Section ReferenceRuntime.

Lemma class_rejects_letters (ranges : list (ascii * ascii)) (a : ascii) :
  forallb (fun n => negb (Re.in_ranges (ascii_of_nat n) ranges
                          && Re.is_alpha (ascii_of_nat n))) (seq 0 256) = true ->
  Re.in_ranges a ranges = true -> Re.is_alpha a = false.
Proof.
  intros Hall Hin. rewrite List.forallb_forall in Hall.
  assert (Ha : In (nat_of_ascii a) (seq 0 256)).
  { apply List.in_seq. pose proof (nat_ascii_bounded a). lia. }
  apply Hall in Ha. rewrite ascii_nat_embedding, Hin, andb_true_l in Ha.
  apply negb_true_iff in Ha. exact Ha.
Qed.

Lemma has_letter_one (a : ascii) :
  has_letter (String a EmptyString) = Re.is_alpha a.
Proof. unfold has_letter. simpl. apply orb_false_r. Qed.

(** A match of a letter-free expression consumes no letter. *)
Lemma matches_letter_free {R : Type} (r : Re.regex) :
  Re.letter_free r = true ->
  forall pos s cs (k : nat -> string -> Re.caps -> option R) x,
    Re.matches r pos s cs k = Some x ->
    exists consumed pos' s' cs',
      s = consumed +:+ s' /\ has_letter consumed = false /\ k pos' s' cs' = Some x.
Proof.
  induction r as [|c| |neg ranges| | |r1 IH1 r2 IH2|r1 IH1 r2 IH2|lo hi r1 IH1|i r1 IH1];
    intros Hfree pos s cs k x H; cbn [Re.letter_free] in Hfree; cbn [Re.matches] in H;
    try discriminate.
  - exists EmptyString, pos, s, cs. auto.
  - destruct s as [|a s']; [discriminate|].
    destruct (Ascii.eqb a c) eqn:E; [|discriminate].
    apply Ascii.eqb_eq in E as ->.
    exists (String c EmptyString), (S pos), s', cs. rewrite has_letter_one.
    apply negb_true_iff in Hfree. auto.
  - destruct s as [|a s']; [discriminate|].
    apply andb_true_iff in Hfree as [Hneg Hall]. apply negb_true_iff in Hneg as ->.
    simpl in H. destruct (Re.in_ranges a ranges) eqn:Hin; [|discriminate].
    exists (String a EmptyString), (S pos), s', cs. rewrite has_letter_one.
    split; [reflexivity|]. split; [|exact H].
    eapply class_rejects_letters; eassumption.
  - destruct (pos =? 0)%nat; [|discriminate]. exists EmptyString, pos, s, cs. auto.
  - exists EmptyString, pos, s, cs. split; [reflexivity|]. split; [reflexivity|].
    destruct s as [|a [|b s']]; try discriminate; [exact H|].
    destruct (Ascii.eqb a "010"); [exact H | discriminate].
  - apply andb_true_iff in Hfree as [Hf1 Hf2].
    destruct (IH1 Hf1 _ _ _ _ _ H) as (c1 & p1 & s1 & cs1 & -> & Hl1 & H1).
    destruct (IH2 Hf2 _ _ _ _ _ H1) as (c2 & p2 & s2 & cs2 & -> & Hl2 & H2).
    exists (c1 +:+ c2), p2, s2, cs2. rewrite append_assoc, has_letter_app, Hl1, Hl2. auto.
  - apply andb_true_iff in Hfree as [Hf1 Hf2].
    destruct (Re.matches r1 pos s cs k) as [y|] eqn:E.
    + inversion H; subst. eapply IH1; eassumption.
    + eapply IH2; eassumption.
  - destruct (IH1 Hfree _ _ _ _ _ H) as (c1 & p1 & s1 & cs1 & -> & Hl1 & H1).
    exists c1, p1, s1, (<[i:=Some (String.substring 0 (p1 - pos) (c1 +:+ s1))]> cs1).
    auto.
Qed.

Lemma make_raises_ValueError y m d H M S e :
  Datetime.make y m d H M S = Raise e -> exists msg, e = ValueError msg.
Proof.
  unfold Datetime.make.
  repeat match goal with
         | |- context [if ?c then _ else _] => destruct c
         end; intros E; inversion E; eauto.
Qed.

(** With a format that compiles, the reference [strptime] raises nothing
    but [ValueError]. *)
Lemma strptime_raises_ValueError (fmt : string) its r ds :
  Datetime.items fmt false = Ok its ->
  Datetime.format_regex its [] = Ok (r, ds) ->
  forall s e, Datetime.strptime s fmt = Raise e -> is_ValueError e = true.
Proof.
  intros Hi Hr s e. unfold Datetime.strptime. rewrite Hi, Hr.
  destruct (Re.matches r 0 s _ _) as [[cs [|a rest]]|]; intros E.
  - apply make_raises_ValueError in E as [msg ->]. reflexivity.
  - inversion E; subst. reflexivity.
  - inversion E; subst. reflexivity.
Qed.

(** A format whose expression is letter-free accepts no string with a
    letter in it: the formats made of numeric directives are such. *)
Lemma strptime_rejects_letters (fmt : string) its r ds :
  Datetime.items fmt false = Ok its ->
  Datetime.format_regex its [] = Ok (r, ds) ->
  Re.letter_free r = true ->
  forall s, has_letter s = true ->
            exists msg, Datetime.strptime s fmt = Raise (ValueError msg).
Proof.
  intros Hi Hr Hfree s Hs. unfold Datetime.strptime. rewrite Hi, Hr.
  destruct (Re.matches r 0 s _ _) as [[cs [|a rest]]|] eqn:E; eauto.
  exfalso.
  destruct (matches_letter_free r Hfree _ _ _ _ _ E) as (c & p & s' & cs' & -> & Hl & Hk).
  inversion Hk; subst. rewrite has_letter_app, Hl in Hs. discriminate.
Qed.

End ReferenceRuntime.

(** ** The claims at concrete inputs *)

Lemma triple_eta {A B C : Type} (x : A * B * C) : x = (x.1.1, x.1.2, x.2).
Proof. destruct x as [[a b] c]. reflexivity. Defined.

Lemma pair_eta {A B : Type} (x : A * B) : x = (x.1, x.2).
Proof. destruct x as [a b]. reflexivity. Defined.

Lemma extract_returns_the_parsed_timestamp_witness :
  re_search (PyRuntime := CPython) cdr_pattern cdr_file = Ok (Some [Some "20240901"])
  /\ strptime (PyRuntime := CPython) "20240901" "%Y%m%d" = Ok (date 2024 9 1 0 0 0)
  /\ extract_datetime_from_filename (RT := CPython) cdr_file cdr_pattern "%Y%m%d"
     = Ret (Some (date 2024 9 1 0 0 0)).
Proof.
  assert (H1 : re_search (PyRuntime := CPython) cdr_pattern cdr_file
               = Ok (Some [Some "20240901"])) by (vm_compute; reflexivity).
  assert (H2 : strptime (PyRuntime := CPython) (join (map of_opt [Some "20240901"])) "%Y%m%d"
               = Ok (date 2024 9 1 0 0 0)) by (vm_compute; reflexivity).
  split; [exact H1|]. split; [exact H2|].
  exact (proj1 (extract_returns_the_parsed_timestamp
                  (RT := CPython) cdr_file cdr_pattern "%Y%m%d"
                  [Some "20240901"] (date 2024 9 1 0 0 0) H1 H2)).
Defined.

(** An unbalanced pattern, and a format that names a directive twice, make
    [extract_datetime_from_filename] raise: the claim that it never does
    fails at these inputs. *)
Lemma extract_lets_other_exceptions_escape :
  ~ never_raises (extract_datetime_from_filename (RT := CPython) report_file "(" "%Y%m%d")
  /\ ~ never_raises (extract_datetime_from_filename (RT := CPython)
                       "20242024" "(\d{8})" "%Y%Y").
Proof.
  split; intros H.
  - destruct (H [] (Raise (Exception "re.error" "cannot compile ("))) as [a Ha];
      [|discriminate].
    rewrite (extract_bad_pattern (RT := CPython) report_file "(" "%Y%m%d"
               (Exception "re.error" "cannot compile ("));
      [constructor | vm_compute; reflexivity].
  - destruct (H [] (Raise (Exception "re.error" "redefinition of group name")))
      as [a Ha]; [|discriminate].
    rewrite (extract_other_error (RT := CPython) "20242024" "(\d{8})" "%Y%Y"
               [Some "20242024"] "re.error" "redefinition of group name");
      [constructor | vm_compute; reflexivity | vm_compute; reflexivity].
Qed.

Lemma extract_failures_are_unclassified_witness :
  (exists m, re_search (PyRuntime := CPython) report_pattern report_file = Ok m)
  /\ (forall s e, strptime (PyRuntime := CPython) s "%Y%m%d" = Raise e ->
                  is_ValueError e = true)
  /\ forall tr r,
      is_trace (extract_datetime_from_filename (RT := CPython)
                  report_file report_pattern "%Y%m%d") tr r ->
      r = Ok None /\ tr = [ELog ERROR (no_match_record report_file report_pattern)].
Proof.
  assert (H1 : exists m, re_search (PyRuntime := CPython) report_pattern report_file = Ok m)
    by (exists None; vm_compute; reflexivity).
  assert (H2 : forall s e, strptime (PyRuntime := CPython) s "%Y%m%d" = Raise e ->
                           is_ValueError e = true).
  { eapply strptime_raises_ValueError; reflexivity. }
  split; [exact H1|]. split; [exact H2|]. intros tr r H.
  destruct (extract_failures_are_unclassified
              (RT := CPython) report_file report_pattern "%Y%m%d" H1 H2 tr r H)
    as (_ & Hn & _).
  apply Hn. vm_compute. reflexivity.
Defined.

Lemma extract_joins_a_missing_group_as_None_witness :
  re_search (PyRuntime := CPython) "(\d{8})(-\d{2})?" "20240901"
  = Ok (Some [Some "20240901"; None])
  /\ In None [Some "20240901"; None]
  /\ (forall s, has_letter s = true ->
                exists msg, strptime (PyRuntime := CPython) s "%Y%m%d"
                            = Raise (ValueError msg))
  /\ exists msg,
      extract_datetime_from_filename (RT := CPython) "20240901" "(\d{8})(-\d{2})?" "%Y%m%d"
      = Logging ERROR
          (fail_to_convert_record "20240901" "(\d{8})(-\d{2})?" "20240901None"
                                  "%Y%m%d" msg)
          (Ret None).
Proof.
  assert (H1 : re_search (PyRuntime := CPython) "(\d{8})(-\d{2})?" "20240901"
               = Ok (Some [Some "20240901"; None])) by (vm_compute; reflexivity).
  assert (H2 : In None [Some "20240901"; None]) by (simpl; auto).
  assert (H3 : forall s, has_letter s = true ->
                         exists msg, strptime (PyRuntime := CPython) s "%Y%m%d"
                                     = Raise (ValueError msg)).
  { eapply strptime_rejects_letters; [reflexivity | reflexivity | vm_compute; reflexivity]. }
  split; [exact H1|]. split; [exact H2|]. split; [exact H3|].
  destruct (extract_joins_a_missing_group_as_None
              (RT := CPython) "20240901" "(\d{8})(-\d{2})?" "%Y%m%d"
              [Some "20240901"; None] H1 H2 H3)
    as (before & after & msg & _ & _ & E).
  exists msg. exact E.
Defined.


Lemma delete_is_issued_only_after_the_copy_succeeded_witness :
  let st := sample_service S3.never S3.never S3.never in
  let st' := (run S3.service
                (move_files_to_s3 "cdr/in/report_wrong_format.txt" "s3://cdr/error/") st).1.2 in
  S3.source_of "cdr/in/report_wrong_format.txt" = Some ("cdr", "in/report_wrong_format.txt")
  /\ S3.objects st !! ("cdr", "in/report_wrong_format.txt") = Some "report"
  /\ (S3.objects st' !! ("cdr", "in/report_wrong_format.txt") = Some "report"
      \/ exists dest,
          destination_of "cdr/in/report_wrong_format.txt" "s3://cdr/error/" = Some dest
          /\ S3.objects st' !! dest = Some "report").
Proof.
  intros st st'.
  assert (H1 : S3.source_of "cdr/in/report_wrong_format.txt"
               = Some ("cdr", "in/report_wrong_format.txt")) by reflexivity.
  assert (H2 : S3.objects st !! ("cdr", "in/report_wrong_format.txt") = Some "report")
    by (vm_compute; reflexivity).
  split; [exact H1|]. split; [exact H2|].
  exact (proj2 (proj2 (delete_is_issued_only_after_the_copy_succeeded
                         (RT := CPython) S3.service
                         "cdr/in/report_wrong_format.txt" "s3://cdr/error/"))
               st _ _ _ _ _ H1 H2 (triple_eta _)).
Defined.

(** Two moves of one page whose sources have the same base name: both
    copies succeed before either delete, both moves return normally, and
    of the two objects only the one copied last is left; the other is at
    no key, neither at its source nor at its destination. *)
Lemma two_moves_to_one_key_drop_an_object :
  let res := pool_wait S3.service 0 [0; 0; 1; 1]%nat
               [move_files_to_s3 "cdr/in/a/report.txt" "s3://cdr/out/";
                move_files_to_s3 "cdr/in/b/report.txt" "s3://cdr/out/"] twin_service in
  S3.source_of "cdr/in/a/report.txt" = Some ("cdr", "in/a/report.txt")
  /\ S3.objects twin_service !! ("cdr", "in/a/report.txt") = Some "first"
  /\ destination_of "cdr/in/a/report.txt" "s3://cdr/out/" = Some ("cdr", "out/report.txt")
  /\ res.2
     = [Step (Worker 0 0) (ELog DEBUG "Moving cdr/in/a/report.txt to cdr/out/report.txt");
        Step (Worker 0 0) (ECopy "cdr" "out/report.txt" "cdr/in/a/report.txt" (Ok tt));
        Step (Worker 0 1) (ELog DEBUG "Moving cdr/in/b/report.txt to cdr/out/report.txt");
        Step (Worker 0 1) (ECopy "cdr" "out/report.txt" "cdr/in/b/report.txt" (Ok tt));
        Step (Worker 0 0) (EDelete "cdr" "in/a/report.txt" (Ok tt));
        Step (Worker 0 1) (EDelete "cdr" "in/b/report.txt" (Ok tt))]
  /\ res.1.1 = [Ok tt; Ok tt]
  /\ S3.objects res.1.2 !! ("cdr", "in/a/report.txt") = None
  /\ S3.objects res.1.2 !! ("cdr", "out/report.txt") = Some "second"
  /\ forall key, S3.objects res.1.2 !! key <> Some "first".
Proof.
  intros res. split; [reflexivity|]. split; [vm_compute; reflexivity|].
  split; [reflexivity|]. split; [reflexivity|]. split; [vm_compute; reflexivity|].
  split; [vm_compute; reflexivity|]. split; [vm_compute; reflexivity|].
  intros key Hk. apply elem_of_map_to_list in Hk.
  assert (E : map_to_list (S3.objects res.1.2) = [(("cdr", "out/report.txt"), "second")])
    by (vm_compute; reflexivity).
  rewrite E in Hk. apply list_elem_of_singleton in Hk. discriminate Hk.
Qed.

(** A run in which every copy fails returns what a run without failures
    returns, and its futures hold the same values: no move has a failed
    outcome and nothing counts the failures. *)
Lemma failed_moves_have_no_outcome_and_no_count :
  let failing := run_sample sample_config_one_page
                            (sample_service S3.never S3.always S3.never) in
  let working := run_sample sample_config_one_page
                            (sample_service S3.never S3.never S3.never) in
  existsb (copy_failed "cdr/in/report_wrong_format.txt") (m_trace failing.2) = true
  /\ existsb (copy_failed "cdr/in/report_wrong_format.txt") (m_trace working.2) = false
  /\ failing.1 = Ok tt /\ working.1 = Ok tt
  /\ m_done failing.2 = [Ok tt; Ok tt] /\ m_done working.2 = [Ok tt; Ok tt].
Proof. intros failing working. repeat split; vm_compute; reflexivity. Qed.

Lemma move_failures_are_logged_and_contained_witness :
  let s := initial (sample_service S3.never S3.always S3.never) [] in
  let res := start_segregation S3.service sample_config_one_page s in
  m_pending s = [] /\ m_done s = []
  /\ sub_overflow (S3.now (m_world s)).1 86400 = None
  /\ res.1 = Ok tt /\ m_pending res.2 = []
  /\ exists tr,
      m_trace res.2 = m_trace s ++ Step MainThread (ENow (S3.now (m_world s)).1) :: tr
      /\ m_done res.2 = replicate (length (submitted tr)) (Ok tt).
Proof.
  intros s res. split; [reflexivity|]. split; [reflexivity|]. split; [reflexivity|].
  destruct (move_failures_are_logged_and_contained (RT := CPython) S3.service)
    as (_ & _ & Hrun & _).
  exact (Hrun sample_config_one_page s _ _ eq_refl eq_refl eq_refl (pair_eta _)).
Defined.

Lemma paginator_stops_at_the_first_end_condition_witness :
  let st := sample_service S3.never S3.never S3.never in
  let res := run S3.service (list_s3_get_files "s3://cdr/in/" 500 10 GenInit) st in
  res.1.1 = Ok (Some ["cdr/in/CHARGINGCDR_4008-BROCC3-20240901-234125-56908.ber";
                      "cdr/in/report_wrong_format.txt"],
                GenYield "cdr" "in/" false 2)
  /\ (length ["cdr/in/CHARGINGCDR_4008-BROCC3-20240901-234125-56908.ber";
              "cdr/in/report_wrong_format.txt"] <= Z.to_nat 500)%nat.
Proof.
  intros st res.
  assert (H1 : res.1.1
               = Ok (Some ["cdr/in/CHARGINGCDR_4008-BROCC3-20240901-234125-56908.ber";
                           "cdr/in/report_wrong_format.txt"],
                     GenYield "cdr" "in/" false 2)) by (vm_compute; reflexivity).
  split; [exact H1|].
  destruct (paginator_stops_at_the_first_end_condition (RT := CPython) "s3://cdr/in/" 500 10)
    as (_ & _ & _ & _ & _ & Hpage).
  apply (Hpage st GenInit _ (GenYield "cdr" "in/" false 2) res.1.2 res.2).
  rewrite <- H1. apply triple_eta.
Defined.




(** * Further properties

    What the code does beyond the claims above: the paths it builds and
    parses, the runs that never reach the service, and the configuration
    it is started with. *)

(** ** Paths: [parse_s3_uri], [os.path.join] and [os.path.basename] *)

Lemma contains_char_app (c : ascii) (a b : string) :
  contains_char c (a +:+ b) = contains_char c a || contains_char c b.
Proof.
  induction a as [|x a IH]; [reflexivity|].
  rewrite append_cons. simpl. rewrite IH. apply orb_assoc.
Qed.

Lemma split_first_inv (sep : ascii) (s a b : string) :
  split_first sep s = Some (a, b) ->
  s = a +:+ String sep b /\ contains_char sep a = false.
Proof.
  revert a. induction s as [|c s IH]; intros a; simpl; [discriminate|].
  destruct (Ascii.eqb c sep) eqn:Hc.
  - intros E. inversion E; subst. apply Ascii.eqb_eq in Hc. subst. auto.
  - destruct (split_first sep s) as [[a' b']|]; [|discriminate].
    intros E. inversion E; subst. destruct (IH a' eq_refl) as [-> Ha].
    rewrite append_cons. simpl. rewrite Hc, Ha. auto.
Qed.

Lemma split_first_none (sep : ascii) (s : string) :
  split_first sep s = None -> contains_char sep s = false.
Proof.
  induction s as [|c s IH]; simpl; [reflexivity|].
  destruct (Ascii.eqb c sep); [discriminate|].
  destruct (split_first sep s) as [[a b]|]; [discriminate|]. auto.
Qed.

Lemma split_first_app (sep : ascii) (a b : string) :
  contains_char sep a = false ->
  split_first sep (a +:+ String sep b) = Some (a, b).
Proof.
  induction a as [|c a IH]; simpl.
  - intros _. change ("" +:+ String sep b) with (String sep b). simpl.
    rewrite Ascii.eqb_refl. reflexivity.
  - intros H. apply orb_false_iff in H as [Hc Ha].
    rewrite Hc, (IH Ha). reflexivity.
Qed.

Lemma basename_has_no_separator (p : string) :
  contains_char "/" (os_path_basename p) = false.
Proof.
  induction p as [|c p IH]; [reflexivity|].
  change (os_path_basename (String c p))
    with (if contains_char "/" (String c p) then os_path_basename p else String c p).
  destruct (contains_char "/" (String c p)) eqn:H; assumption.
Qed.

Lemma basename_of_a_name (s : string) :
  contains_char "/" s = false -> os_path_basename s = s.
Proof.
  destruct s as [|c s]; [reflexivity|]. intros H.
  change (os_path_basename (String c s))
    with (if contains_char "/" (String c s) then os_path_basename s else String c s).
  rewrite H. reflexivity.
Qed.

Lemma basename_after_separator (a b : string) :
  contains_char "/" b = false -> os_path_basename (a +:+ "/" +:+ b) = b.
Proof.
  intros Hb. induction a as [|c a IH].
  - change ("" +:+ "/" +:+ b) with (String "/" b).
    change (os_path_basename (String "/" b))
      with (if contains_char "/" (String "/" b) then os_path_basename b else String "/" b).
    simpl. apply basename_of_a_name. exact Hb.
  - rewrite append_cons.
    change (os_path_basename (String c (a +:+ "/" +:+ b)))
      with (if contains_char "/" (String c (a +:+ "/" +:+ b))
            then os_path_basename (a +:+ "/" +:+ b) else String c (a +:+ "/" +:+ b)).
    assert (H : contains_char "/" (String c (a +:+ "/" +:+ b)) = true).
    { simpl. rewrite contains_char_app.
      change ("/" +:+ b) with (String "/" b). simpl.
      rewrite orb_true_r. apply orb_true_r. }
    rewrite H. exact IH.
Qed.

Lemma endswith_char_inv (c : ascii) (a : string) :
  endswith_char c a = true -> exists a', a = a' +:+ String c "".
Proof.
  induction a as [|x a IH]; [discriminate|].
  destruct a as [|y a].
  - simpl. intros H. apply Ascii.eqb_eq in H. subst. exists "". reflexivity.
  - intros H. destruct (IH H) as [a' Ha']. exists (String x a').
    rewrite append_cons, <- Ha'. reflexivity.
Qed.

Lemma endswith_char_app (c : ascii) (a : string) :
  endswith_char c (a +:+ String c "") = true.
Proof.
  induction a as [|x a IH]; [simpl; apply Ascii.eqb_refl|].
  rewrite append_cons.
  destruct (a +:+ String c "") as [|y r] eqn:E; [|exact IH].
  destruct a; discriminate E.
Qed.

(** The key a move copies to ends with the base name of the source key. *)
Lemma basename_of_join (dest_dir name : string) :
  contains_char "/" name = false ->
  os_path_basename (os_path_join dest_dir name) = name
  /\ (os_path_join dest_dir name = dest_dir +:+ name
      \/ os_path_join dest_dir name = dest_dir +:+ "/" +:+ name).
Proof.
  intros Hn. unfold os_path_join.
  assert (Hs : startswith "/" name = false).
  { destruct name as [|c n]; [reflexivity|].
    simpl in Hn. apply orb_false_iff in Hn as [Hc _].
    unfold startswith.
    change (String.prefix "/" (String c n))
      with (if ascii_dec "/" c then String.prefix "" n else false).
    destruct (ascii_dec "/" c) as [E|N]; [|reflexivity].
    subst c. discriminate Hc. }
  rewrite Hs. destruct (String.eqb dest_dir "") eqn:He; simpl.
  - apply String.eqb_eq in He. subst. split; [|left; reflexivity].
    apply basename_of_a_name. exact Hn.
  - destruct (endswith_char "/" dest_dir) eqn:Hd.
    + split; [|left; reflexivity].
      apply endswith_char_inv in Hd as [a ->].
      rewrite append_assoc. apply (basename_after_separator a name Hn).
    + split; [|right; reflexivity]. apply basename_after_separator. exact Hn.
Qed.

(** X1: [parse_s3_uri] removes the scheme text and cuts what is left at
    its first separator: the bucket holds no separator and bucket,
    separator and key make up the path again; it raises, with the
    [ValueError] of the unpacking, exactly when no separator is left. *)
Theorem parse_s3_uri_cuts_at_the_first_separator (s3_path : string) :
  match parse_s3_uri s3_path with
  | Ok (s3_bucket, s3_key) =>
      replace "s3://" "" s3_path = s3_bucket +:+ "/" +:+ s3_key
      /\ contains_char "/" s3_bucket = false
  | Raise e =>
      e = ValueError "not enough values to unpack (expected 2, got 1)"
      /\ contains_char "/" (replace "s3://" "" s3_path) = false
  end.
Proof.
  unfold parse_s3_uri, split1.
  destruct (split_first "/" (replace "s3://" "" s3_path)) as [[a b]|] eqn:E.
  - apply split_first_inv in E. exact E.
  - split; [reflexivity|]. apply split_first_none. exact E.
Qed.

Lemma join_bucket_key (s3_bucket _key : string) :
  s3_bucket <> "" -> contains_char "/" s3_bucket = false ->
  startswith "/" _key = false ->
  os_path_join s3_bucket _key = s3_bucket +:+ "/" +:+ _key.
Proof.
  intros Hne Hb Hk. unfold os_path_join. rewrite Hk.
  destruct (String.eqb s3_bucket "") eqn:He;
    [apply String.eqb_eq in He; contradiction|].
  destruct (endswith_char "/" s3_bucket) eqn:Hd; [|reflexivity].
  apply endswith_char_inv in Hd as [a ->].
  rewrite contains_char_app in Hb. simpl in Hb.
  rewrite orb_true_r in Hb. discriminate.
Qed.

Lemma listed_path_parses_back (s3_bucket _key : string) :
  s3_bucket <> "" -> contains_char "/" s3_bucket = false ->
  startswith "/" _key = false ->
  occurs "s3://" (s3_bucket +:+ "/" +:+ _key) = false ->
  parse_s3_uri (os_path_join s3_bucket _key) = Ok (s3_bucket, _key)
  /\ S3.source_of (os_path_join s3_bucket _key) = Some (s3_bucket, _key).
Proof.
  intros Hne Hb Hk Ho. rewrite (join_bucket_key _ _ Hne Hb Hk).
  unfold parse_s3_uri, split1, S3.source_of.
  rewrite (replace_without_occurrence _ _ _ Ho).
  change (s3_bucket +:+ "/" +:+ _key) with (s3_bucket +:+ String "/" _key).
  rewrite (split_first_app "/" s3_bucket _key Hb). auto.
Qed.

(** X2: a path the generator yields for a listed key parses back to the
    bucket and that key, unless the bucket is empty or holds a separator,
    the key starts with one, or the scheme text occurs in the path; the
    service reads the copy source the same way, so the delete of a move
    names the object that was listed and copied. *)
Theorem a_listed_path_parses_back_to_its_key {RT : PyRuntime}
    (s3_bucket _key destination_dir : string) :
  s3_bucket <> "" -> contains_char "/" s3_bucket = false ->
  startswith "/" _key = false ->
  occurs "s3://" (s3_bucket +:+ "/" +:+ _key) = false ->
  parse_s3_uri (os_path_join s3_bucket _key) = Ok (s3_bucket, _key)
  /\ S3.source_of (os_path_join s3_bucket _key) = Some (s3_bucket, _key)
  /\ forall tr r,
      is_trace (move_files_to_s3 (os_path_join s3_bucket _key) destination_dir) tr r ->
      forall b k x, In (EDelete b k x) tr -> b = s3_bucket /\ k = _key.
Proof.
  intros Hne Hb Hk Ho.
  destruct (listed_path_parses_back _ _ Hne Hb Hk Ho) as [Hp Hs].
  split; [exact Hp|]. split; [exact Hs|].
  intros tr r H b k x Hin. apply move_files_to_s3_traces in H as [_ Hm].
  destruct Hm as [e He|sb sk e Hsp Hd|sb sk db dd e Hsp Hd|sb sk db dd e Hsp Hd
                  |sb sk db dd Hsp Hd];
    simpl in Hin; repeat (destruct Hin as [Hin|Hin]; try discriminate Hin);
      try contradiction;
      inversion Hin; subst; rewrite Hp in Hsp; inversion Hsp; auto.
Qed.

(** X3: [os.path.join] drops the bucket when the key starts with a
    separator: the path yielded for such a key is the key alone, and it
    parses to the empty bucket and the rest of the key, less every
    occurrence of the scheme text in it. *)
Theorem a_key_with_a_leading_separator_loses_its_bucket (s3_bucket rest : string) :
  os_path_join s3_bucket ("/" +:+ rest) = "/" +:+ rest
  /\ parse_s3_uri (os_path_join s3_bucket ("/" +:+ rest))
     = Ok ("", replace "s3://" "" rest).
Proof.
  assert (Hj : os_path_join s3_bucket ("/" +:+ rest) = "/" +:+ rest)
    by (destruct rest; reflexivity).
  split; [exact Hj|]. rewrite Hj. reflexivity.
Qed.

(** X4: a move keeps the base name of the source key and nothing else
    of it: every copy it issues reads the source path it was given and
    writes, in the bucket of the destination, the destination directory
    followed by that base name. *)
Theorem a_move_keeps_only_the_base_name {RT : PyRuntime}
    (source_path destination_dir : string) tr r :
  is_trace (move_files_to_s3 source_path destination_dir) tr r ->
  forall b k src x,
    In (ECopy b k src x) tr ->
    src = source_path
    /\ exists sb sk dd,
        parse_s3_uri source_path = Ok (sb, sk)
        /\ parse_s3_uri destination_dir = Ok (b, dd)
        /\ os_path_basename k = os_path_basename sk
        /\ (k = dd +:+ os_path_basename sk
            \/ k = dd +:+ "/" +:+ os_path_basename sk).
Proof.
  intros H b k src x Hin. apply move_files_to_s3_traces in H as [_ Hm].
  destruct Hm as [e He|sb sk e Hsp Hd|sb sk db dd e Hsp Hd|sb sk db dd e Hsp Hd
                  |sb sk db dd Hsp Hd];
    simpl in Hin; repeat (destruct Hin as [Hin|Hin]; try discriminate Hin);
      try contradiction;
      inversion Hin; subst; (split; [reflexivity|]); exists sb, sk, dd;
        (split; [exact Hsp|]); (split; [exact Hd|]);
        apply basename_of_join, basename_has_no_separator.
Qed.

(** ** Runs that never reach the service

    [start_segregation] subtracts [time_delay] from the clock before
    anything else, outside its [try]: the runs described here are those in
    which this subtraction is done, that is, in which the interpreter does
    not raise [OverflowError] for it. *)

Section EdgeRuns.
Context {RT : PyRuntime} {W : Type} (cl : world W).

Lemma in_main_ret {A} (a : A) (s : mstate (W := W)) :
  in_main cl (Ret a) s
  = (Ok a, {| m_world := m_world s; m_trace := m_trace s ++ [];
              m_scheds := m_scheds s; m_page := m_page s;
              m_pending := m_pending s; m_done := m_done s |}).
Proof. reflexivity. Qed.

Lemma in_main_throw {A} (e : exn) (s : mstate (W := W)) :
  in_main cl (Throw (A := A) e) s
  = (Raise e, {| m_world := m_world s; m_trace := m_trace s ++ [];
                 m_scheds := m_scheds s; m_page := m_page s;
                 m_pending := m_pending s; m_done := m_done s |}).
Proof. reflexivity. Qed.

Lemma start_segregation_without_workers cfg s r s' :
  n_workers cfg <= 0 ->
  sub_overflow (fst (w_now cl (m_world s))) (time_delay cfg) = None ->
  start_segregation cl cfg s = (r, s') ->
  r = Ok tt
  /\ m_trace s'
     = m_trace s ++ [Step MainThread (ENow (fst (w_now cl (m_world s))));
                     Step MainThread (ELog ERROR "max_workers must be greater than 0")]
  /\ m_world s' = snd (w_now cl (m_world s))
  /\ m_pending s' = m_pending s /\ m_done s' = m_done s /\ m_page s' = m_page s.
Proof.
  intros Hw Hov. unfold start_segregation. main_simpl. rewrite now_in_main, Hov.
  unfold main_try, with_executor. rewrite (proj2 (Z.leb_le _ _) Hw).
  unfold main_raise. rewrite log_in_main. intros H. inversion H; subst; simpl.
  rewrite <- app_assoc. auto 10.
Qed.

(** X5: with [n_workers] at zero or below, the constructor of the pool
    raises: the run reads the clock, logs the error and returns; it makes
    no call to the service. *)
Theorem without_workers_the_run_does_nothing cfg s r s' :
  n_workers cfg <= 0 ->
  sub_overflow (fst (w_now cl (m_world s))) (time_delay cfg) = None ->
  start_segregation cl cfg s = (r, s') ->
  r = Ok tt
  /\ m_trace s'
     = m_trace s ++ [Step MainThread (ENow (fst (w_now cl (m_world s))));
                     Step MainThread (ELog ERROR "max_workers must be greater than 0")]
  /\ m_world s' = snd (w_now cl (m_world s))
  /\ m_pending s' = m_pending s /\ m_done s' = m_done s /\ m_page s' = m_page s.
Proof. intros Hw Hov. apply start_segregation_without_workers; assumption. Qed.

Lemma split_first_without_separator (sep : ascii) (s : string) :
  contains_char sep s = false -> split_first sep s = None.
Proof.
  induction s as [|c s IH]; simpl; [reflexivity|].
  intros H. apply orb_false_iff in H as [Hc Hs]. rewrite Hc, (IH Hs). reflexivity.
Qed.

Lemma for_pages_step fuel cfg dd g (s : mstate (W := W)) :
  for_pages cl (S fuel) cfg dd g s
  = match in_main cl (list_s3_get_files (s3_dir cfg) (n_keys cfg) (n_loops cfg) g) s with
    | (Ok (Some files, g'), s1) =>
        match submit_files cl cfg dd files s1 with
        | (Ok _, s2) => for_pages cl fuel cfg dd g' (snd (wait cl s2))
        | (Raise e, s2) => (Raise e, s2)
        end
    | (Ok (None, _), s1) => (Ok tt, s1)
    | (Raise e, s1) => (Raise e, s1)
    end.
Proof.
  simpl. main_simpl.
  destruct (in_main cl (list_s3_get_files (s3_dir cfg) (n_keys cfg) (n_loops cfg) g) s)
    as [[[[files|] g']|e] s1]; try reflexivity.
  destruct (submit_files cl cfg dd files s1) as [[[]|e] s2]; [|reflexivity].
  unfold wait.
  destruct (pool_wait cl (m_page s2) (hd [] (m_scheds s2)) (m_pending s2) (m_world s2))
    as [[rs w] tr]. reflexivity.
Qed.

Lemma run_list {A} b d m (k : result (list string) -> prog A) (w : W) x w1 :
  w_list cl b d m w = (x, w1) ->
  run cl (ListObjectsV2 b d m k) w
  = let '(r, w', tr) := run cl (k x) w1 in (r, w', EList b d m x :: tr).
Proof. intros H. simpl. rewrite H. reflexivity. Qed.

(** The first pull of the generator, once the service has answered. *)
Lemma in_main_first_pull cfg (s : mstate (W := W)) b d keys w' :
  parse_s3_uri (s3_dir cfg) = Ok (b, d) ->
  0 < n_loops cfg ->
  w_list cl b d (n_keys cfg) (m_world s) = (Ok keys, w') ->
  exists lvl msg x,
    run cl (after_listing (n_loops cfg) b d false 1 keys) w' = (Ok x, w', [ELog lvl msg])
    /\ in_main cl (list_s3_get_files (s3_dir cfg) (n_keys cfg) (n_loops cfg) GenInit) s
       = (Ok x, {| m_world := w';
                   m_trace := m_trace s
                              ++ [Step MainThread (EList b d (n_keys cfg) (Ok keys));
                                  Step MainThread (ELog lvl msg)];
                   m_scheds := m_scheds s; m_page := m_page s;
                   m_pending := m_pending s; m_done := m_done s |}).
Proof.
  intros Hp Hl Hw.
  assert (Ha : exists lvl msg x,
             after_listing (n_loops cfg) b d false 1 keys = Logging lvl msg (Ret x)).
  { unfold after_listing. destruct keys as [|k keys]; [eauto|].
    destruct (length (real_files b (k :: keys)) =? 0)%nat; eauto. }
  destruct Ha as (lvl & msg & x & Ha). exists lvl, msg, x.
  split; [rewrite Ha; reflexivity|].
  unfold in_main, list_s3_get_files. unfold mbind, prog_bind. rewrite Hp. simpl.
  rewrite loop_unfold. rewrite (proj2 (Z.leb_le 1 (n_loops cfg))) by lia.
  cbn [andb negb].
  rewrite (run_list _ _ _ _ _ _ _ Hw). cbv beta.
  rewrite loop_after_listing, Ha. reflexivity.
Qed.

(** X6: a source directory in which no separator is left once the
    scheme text is removed (a bucket alone, [s3://bucket]) does not parse:
    the run logs the [ValueError] of the unpacking and returns without any
    call to the service. *)
Theorem a_source_without_separator_ends_the_run cfg s r s' :
  m_pending s = [] ->
  sub_overflow (fst (w_now cl (m_world s))) (time_delay cfg) = None ->
  0 < n_workers cfg ->
  contains_char "/" (replace "s3://" "" (s3_dir cfg)) = false ->
  start_segregation cl cfg s = (r, s') ->
  r = Ok tt
  /\ m_trace s'
     = m_trace s
       ++ [Step MainThread (ENow (fst (w_now cl (m_world s))));
           Step MainThread
             (ELog ERROR "not enough values to unpack (expected 2, got 1)")]
  /\ m_world s' = snd (w_now cl (m_world s))
  /\ m_done s' = m_done s.
Proof.
  intros Hp Hov Hw Hc.
  assert (Hparse : parse_s3_uri (s3_dir cfg)
                   = Raise (ValueError "not enough values to unpack (expected 2, got 1)")).
  { unfold parse_s3_uri, split1.
    rewrite (split_first_without_separator _ _ Hc). reflexivity. }
  unfold start_segregation. main_simpl. rewrite now_in_main, Hov.
  unfold main_try, with_executor. rewrite (proj2 (Z.leb_gt _ _) Hw).
  rewrite for_pages_step.
  unfold list_s3_get_files at 1. unfold mbind, prog_bind. rewrite Hparse.
  simpl bind. rewrite in_main_throw. simpl m_pending. rewrite Hp.
  rewrite log_in_main. intros H. inversion H; subst; simpl.
  rewrite app_nil_r, <- app_assoc. auto.
Qed.

(** X7: with [n_loops] at zero or below, the loop of the generator is
    not entered: the run reads the clock and returns; it lists nothing and
    logs nothing. *)
Theorem without_loops_the_run_lists_nothing cfg s r s' b d :
  m_pending s = [] ->
  sub_overflow (fst (w_now cl (m_world s))) (time_delay cfg) = None ->
  0 < n_workers cfg ->
  n_loops cfg <= 0 ->
  parse_s3_uri (s3_dir cfg) = Ok (b, d) ->
  start_segregation cl cfg s = (r, s') ->
  r = Ok tt
  /\ m_trace s' = m_trace s ++ [Step MainThread (ENow (fst (w_now cl (m_world s))))]
  /\ m_world s' = snd (w_now cl (m_world s))
  /\ m_done s' = m_done s.
Proof.
  intros Hp Hov Hw Hl Hparse.
  unfold start_segregation. main_simpl. rewrite now_in_main, Hov.
  unfold main_try, with_executor. rewrite (proj2 (Z.leb_gt _ _) Hw).
  rewrite for_pages_step.
  unfold list_s3_get_files at 1. unfold mbind, prog_bind. rewrite Hparse.
  simpl bind. rewrite loop_unfold.
  rewrite (proj2 (Z.leb_gt 1 (n_loops cfg))) by lia. cbn [andb].
  rewrite in_main_ret. simpl m_pending. rewrite Hp.
  intros H. inversion H; subst; simpl. rewrite app_nil_r. auto.
Qed.

(** X8: when the first listing holds no file (it is empty, or holds
    folder keys only) the run ends there: one listing call, one warning,
    no task submitted, and the function returns normally.  A run over a
    prefix whose files have all been moved is such a run. *)
Theorem a_prefix_without_files_ends_the_run cfg s r s' b d keys w' :
  m_pending s = [] ->
  sub_overflow (fst (w_now cl (m_world s))) (time_delay cfg) = None ->
  0 < n_workers cfg ->
  0 < n_loops cfg ->
  parse_s3_uri (s3_dir cfg) = Ok (b, d) ->
  w_list cl b d (n_keys cfg) (snd (w_now cl (m_world s))) = (Ok keys, w') ->
  real_files b keys = [] ->
  start_segregation cl cfg s = (r, s') ->
  r = Ok tt
  /\ m_trace s'
     = m_trace s
       ++ [Step MainThread (ENow (fst (w_now cl (m_world s))));
           Step MainThread (EList b d (n_keys cfg) (Ok keys));
           Step MainThread
             (ELog WARNING match keys with [] => "Empty set" | _ => "No files left" end)]
  /\ m_world s' = w'
  /\ m_done s' = m_done s.
Proof.
  intros Hp Hov Hw Hl Hparse Hlist Hfiles.
  unfold start_segregation. main_simpl. rewrite now_in_main, Hov.
  unfold main_try, with_executor. rewrite (proj2 (Z.leb_gt _ _) Hw).
  rewrite for_pages_step.
  match goal with
  | |- context [in_main cl (list_s3_get_files _ _ _ GenInit) ?s0] =>
      destruct (in_main_first_pull cfg s0 b d keys w' Hparse Hl Hlist)
        as (lvl & msg & x & Ha & ->)
  end.
  assert (Hx : x = (None, GenDone)
               /\ lvl = WARNING
               /\ msg = match keys with [] => "Empty set" | _ => "No files left" end).
  { unfold after_listing in Ha. destruct keys as [|k keys].
    - inversion Ha; subst. auto.
    - rewrite Hfiles in Ha. inversion Ha; subst. auto. }
  destruct Hx as (-> & -> & ->). simpl m_pending. rewrite Hp.
  intros H. inversion H; subst; simpl. rewrite <- app_assoc. auto.
Qed.

(** X9: when the classification of the first file of the first page
    raises (a pattern that does not compile raises for every file), the
    exception leaves the loop: nothing of the page is submitted, the run
    logs the exception and returns normally, and every object listed stays
    where it is. *)
Theorem a_classification_that_raises_abandons_the_page
    cfg s r s' b d keys w' file files regex_pattern e :
  m_pending s = [] ->
  sub_overflow (fst (w_now cl (m_world s))) (time_delay cfg) = None ->
  0 < n_workers cfg ->
  0 < n_loops cfg ->
  parse_s3_uri (s3_dir cfg) = Ok (b, d) ->
  w_list cl b d (n_keys cfg) (snd (w_now cl (m_world s))) = (Ok keys, w') ->
  real_files b keys = file :: files ->
  pattern_of cfg = Some regex_pattern ->
  re_search regex_pattern (os_path_basename file) = Raise e ->
  start_segregation cl cfg s = (r, s') ->
  r = Ok tt
  /\ m_trace s'
     = m_trace s
       ++ [Step MainThread (ENow (fst (w_now cl (m_world s))));
           Step MainThread (EList b d (n_keys cfg) (Ok keys));
           Step MainThread
             (ELog INFO (page_record 1 (n_loops cfg) (Z.of_nat (length keys))
                                     (Z.of_nat (length (file :: files)))));
           Step MainThread (ELog ERROR (str_exn e))]
  /\ m_world s' = w'
  /\ m_done s' = m_done s.
Proof.
  intros Hp Hov Hw Hl Hparse Hlist Hfiles Hpat Hre.
  unfold start_segregation. main_simpl. rewrite now_in_main, Hov.
  unfold main_try, with_executor. rewrite (proj2 (Z.leb_gt _ _) Hw).
  rewrite for_pages_step.
  match goal with
  | |- context [in_main cl (list_s3_get_files _ _ _ GenInit) ?s0] =>
      destruct (in_main_first_pull cfg s0 b d keys w' Hparse Hl Hlist)
        as (lvl & msg & x & Ha & ->)
  end.
  assert (Hx : x = (Some (file :: files), GenYield b d false (1 + 1))
               /\ lvl = INFO
               /\ msg = page_record 1 (n_loops cfg) (Z.of_nat (length keys))
                                    (Z.of_nat (length (file :: files)))).
  { unfold after_listing in Ha. destruct keys as [|k keys]; [discriminate Hfiles|].
    rewrite Hfiles in Ha. simpl in Ha. inversion Ha; subst. auto. }
  destruct Hx as (-> & -> & ->).
  cbn [submit_files]. main_simpl.
  unfold classify at 1. rewrite Hpat.
  rewrite (extract_bad_pattern _ _ _ _ Hre). rewrite in_main_throw.
  simpl m_pending. rewrite Hp. rewrite log_in_main.
  intros H. inversion H; subst; simpl. rewrite app_nil_r, <- !app_assoc. auto.
Qed.

End EdgeRuns.

(** ** Moves against the reference service *)

Section Collisions.
Context {RT : PyRuntime}.

(** A move that meets no fault, in the reference service. *)
Lemma move_in_service (st : S3.state) source_path destination_dir sb sk db dd body :
  S3.fail_copy st = S3.never -> S3.fail_delete st = S3.never ->
  parse_s3_uri source_path = Ok (sb, sk) ->
  S3.source_of source_path = Some (sb, sk) ->
  parse_s3_uri destination_dir = Ok (db, dd) ->
  S3.objects st !! (sb, sk) = Some body ->
  (sb, sk) <> (db, os_path_join dd (os_path_basename sk)) ->
  exists st' tr,
    run S3.service (move_files_to_s3 source_path destination_dir) st = (Ok tt, st', tr)
    /\ S3.objects st'
       = delete (sb, sk)
           (<[(db, os_path_join dd (os_path_basename sk)) := body]> (S3.objects st))
    /\ S3.fail_copy st' = S3.never /\ S3.fail_delete st' = S3.never.
Proof.
  intros Hfc Hfd Hs Hsrc Hd Hbody Hne.
  unfold move_files_to_s3. prog_simpl. rewrite Hs, Hd. simpl.
  unfold S3.copy_object. rewrite Hfc, Hsrc, Hbody. simpl.
  destruct (decide ((sb, sk) = (db, os_path_join dd (os_path_basename sk))));
    [contradiction|]. simpl.
  unfold S3.delete_object. simpl. rewrite Hfd. simpl.
  eexists _, _. split; [reflexivity|]. simpl. auto.
Qed.

(** X10: two objects with the same base name, moved to the same
    destination directory one after the other with no fault, end in one
    object: the destination key holds the body moved last, both sources
    are gone, and the body moved first is no longer under any of the three
    keys. *)
Theorem moves_with_one_base_name_overwrite_each_other
    (st : S3.state) page sp1 sp2 destination_dir sb1 sk1 sb2 sk2 db dd body1 body2 :
  S3.fail_copy st = S3.never -> S3.fail_delete st = S3.never ->
  parse_s3_uri sp1 = Ok (sb1, sk1) -> S3.source_of sp1 = Some (sb1, sk1) ->
  parse_s3_uri sp2 = Ok (sb2, sk2) -> S3.source_of sp2 = Some (sb2, sk2) ->
  parse_s3_uri destination_dir = Ok (db, dd) ->
  os_path_basename sk1 = os_path_basename sk2 ->
  (sb1, sk1) <> (sb2, sk2) ->
  (sb1, sk1) <> (db, os_path_join dd (os_path_basename sk1)) ->
  (sb2, sk2) <> (db, os_path_join dd (os_path_basename sk1)) ->
  S3.objects st !! (sb1, sk1) = Some body1 ->
  S3.objects st !! (sb2, sk2) = Some body2 ->
  let st' := (pool_wait S3.service page []
                [move_files_to_s3 sp1 destination_dir;
                 move_files_to_s3 sp2 destination_dir] st).1.2 in
  S3.objects st'
  = <[(db, os_path_join dd (os_path_basename sk1)) := body2]>
      (delete (sb2, sk2) (delete (sb1, sk1) (S3.objects st)))
  /\ S3.objects st' !! (db, os_path_join dd (os_path_basename sk1)) = Some body2
  /\ S3.objects st' !! (sb1, sk1) = None
  /\ S3.objects st' !! (sb2, sk2) = None.
Proof.
  intros Hfc Hfd Hs1 Hsrc1 Hs2 Hsrc2 Hd Hbase Hne H1 H2 Hb1 Hb2.
  set (target := (db, os_path_join dd (os_path_basename sk1))) in *.
  destruct (move_in_service st sp1 destination_dir sb1 sk1 db dd body1
              Hfc Hfd Hs1 Hsrc1 Hd Hb1 H1) as (st1 & tr1 & Hrun1 & Ho1 & Hfc1 & Hfd1).
  fold target in Ho1.
  assert (Hb2' : S3.objects st1 !! (sb2, sk2) = Some body2).
  { rewrite Ho1. rewrite lookup_delete_ne by congruence.
    rewrite lookup_insert_ne by congruence. exact Hb2. }
  assert (H2' : (sb2, sk2) <> (db, os_path_join dd (os_path_basename sk2))).
  { rewrite <- Hbase. exact H2. }
  destruct (move_in_service st1 sp2 destination_dir sb2 sk2 db dd body2
              Hfc1 Hfd1 Hs2 Hsrc2 Hd Hb2' H2') as (st2 & tr2 & Hrun2 & Ho2 & _).
  rewrite <- Hbase in Ho2. fold target in Ho2.
  intros st'.
  assert (Hst : st' = st2).
  { unfold st', pool_wait. cbn [pool_steps pool_join]. rewrite Hrun1, Hrun2.
    reflexivity. }
  rewrite Hst. clear st' Hst.
  assert (Heq : S3.objects st2
                = <[target := body2]>
                    (delete (sb2, sk2) (delete (sb1, sk1) (S3.objects st)))).
  { rewrite Ho2, Ho1. apply map_eq. intros i.
    destruct (decide (i = target)) as [->|Ht].
    - rewrite lookup_delete_ne by congruence. rewrite !lookup_insert_eq. reflexivity.
    - rewrite (lookup_insert_ne _ target i) by congruence.
      destruct (decide (i = (sb2, sk2))) as [->|Hi2].
      + rewrite !lookup_delete_eq. reflexivity.
      + rewrite !(lookup_delete_ne _ (sb2, sk2) i) by congruence.
        rewrite (lookup_insert_ne _ target i) by congruence.
        destruct (decide (i = (sb1, sk1))) as [->|Hi1].
        * rewrite !lookup_delete_eq. reflexivity.
        * rewrite !(lookup_delete_ne _ (sb1, sk1) i) by congruence.
          rewrite (lookup_insert_ne _ target i) by congruence. reflexivity. }
  split; [exact Heq|]. rewrite Heq. split; [apply lookup_insert_eq|]. split.
  - rewrite lookup_insert_ne by congruence.
    rewrite lookup_delete_ne by congruence. apply lookup_delete_eq.
  - rewrite lookup_insert_ne by congruence. apply lookup_delete_eq.
Qed.

End Collisions.

(** ** The listing calls of a run *)

Section Requests.
Context {RT : PyRuntime} {W : Type} (cl : world W).

Lemma in_main_entries {A} (P : event -> Prop) (p : prog A) s r s' :
  all_events P p ->
  in_main cl p s = (r, s') ->
  exists tr,
    is_trace p tr r /\ Forall P tr
    /\ m_trace s' = m_trace s ++ map (Step MainThread) tr
    /\ m_pending s' = m_pending s.
Proof.
  intros Hall H. apply in_main_spec in H as (tr & w & Hrun & ->).
  apply run_is_trace in Hrun. exists tr. split; [exact Hrun|].
  split; [eapply all_events_trace; eassumption|]. auto.
Qed.

Lemma logs_are_no_requests cfg (tr : list event) :
  Forall is_log tr -> Forall (same_request cfg) (map (Step MainThread) tr).
Proof.
  intros H. apply Forall_map. eapply Forall_impl; [exact H|].
  intros [] Hl; simpl in *; tauto.
Qed.

Lemma submit_files_requests cfg dd files : forall s r s',
  submit_files cl cfg dd files s = (r, s') ->
  exists tr, m_trace s' = m_trace s ++ tr /\ Forall (same_request cfg) tr.
Proof.
  induction files as [|file files IH]; intros s r s' H; simpl in H.
  - inversion H; subst. exists []. rewrite app_nil_r. auto.
  - main_simpl.
    destruct (in_main cl (classify cfg dd file) s) as [[d|e] s1] eqn:Hc;
      destruct (in_main_entries _ _ _ _ _ (classify_only_logs cfg dd file) Hc)
        as (tr1 & _ & Hl1 & Ht1 & _).
    + unfold executor_submit in H at 1.
      destruct (IH _ _ _ H) as (tr3 & Ht3 & Hf3). simpl in Ht3.
      eexists. split; [rewrite Ht3, Ht1, <- !app_assoc; reflexivity|].
      apply Forall_app. split; [apply logs_are_no_requests; exact Hl1|].
      constructor; [exact I | exact Hf3].
    + inversion H; subst. eexists. split; [exact Ht1|].
      apply logs_are_no_requests. exact Hl1.
Qed.

Lemma wait_requests cfg s r s' :
  moves_only (m_pending s) ->
  wait cl s = (r, s') ->
  exists tr, m_trace s' = m_trace s ++ tr /\ Forall (same_request cfg) tr
             /\ m_pending s' = [].
Proof.
  intros Hm. unfold wait.
  destruct (pool_wait cl (m_page s) (hd [] (m_scheds s)) (m_pending s) (m_world s))
    as [[rs w] tr] eqn:Hw.
  intros H. inversion H; subst; simpl.
  destruct (pool_wait_moves _ _ _ _ _ _ _ _ Hm Hw) as [_ Htr].
  exists tr. split; [reflexivity|]. split; [|reflexivity].
  eapply Forall_impl; [exact Htr|].
  intros en (j & ev & -> & Hev). destruct ev; simpl in *; tauto.
Qed.

(** Where the generator was suspended, it resumes with the bucket and
    the prefix of [s3_dir]. *)
Lemma for_pages_requests cfg dd fuel : forall g s r s',
  (forall b d c, resumes_at (s3_dir cfg) g b d c ->
                 parse_s3_uri (s3_dir cfg) = Ok (b, d)) ->
  m_pending s = [] ->
  for_pages cl fuel cfg dd g s = (r, s') ->
  exists tr, m_trace s' = m_trace s ++ tr /\ Forall (same_request cfg) tr
             /\ moves_only (m_pending s').
Proof.
  induction fuel as [|fuel IH]; intros g s r s' Hg Hp H.
  - simpl in H. inversion H; subst. exists []. rewrite app_nil_r, Hp.
    repeat split; constructor.
  - rewrite for_pages_step in H.
    destruct (in_main cl (list_s3_get_files (s3_dir cfg) (n_keys cfg) (n_loops cfg) g) s)
      as [rp s1] eqn:Hpull.
    destruct (in_main_entries _ _ _ _ _ (generator_events _ _ _ _) Hpull)
      as (tr1 & Ht1 & _ & Htr1 & Hp1).
    assert (Hf1 : Forall (same_request cfg) (map (Step MainThread) tr1)).
    { destruct (pull_calls _ _ _ _ _ _ Ht1) as [_ Hin].
      apply Forall_map, List.Forall_forall. intros ev Hev.
      destruct ev as [| |b d m x| |]; simpl; auto.
      destruct (Hin b d m x Hev) as (-> & c & Hc). eauto. }
    destruct rp as [[[files|] g']|e].
    + destruct (submit_files cl cfg dd files s1) as [[[]|e] s2] eqn:Hsub.
      * destruct (submit_files_requests _ _ _ _ _ _ Hsub) as (tr2 & Htr2 & Hf2).
        destruct (submit_files_spec cl _ _ _ _ _ _ Hsub)
          as (tr2' & (_ & _ & Hm2 & _) & _).
        assert (Hm : moves_only (m_pending s2)).
        { apply Hm2. rewrite Hp1, Hp. constructor. }
        destruct (wait cl s2) as [rw s3] eqn:Hwait.
        destruct (wait_requests cfg _ _ _ Hm Hwait) as (tr3 & Htr3 & Hf3 & Hp3).
        simpl in H.
        assert (Hg' : forall b d c, resumes_at (s3_dir cfg) g' b d c ->
                                    parse_s3_uri (s3_dir cfg) = Ok (b, d)).
        { destruct (pull_yields _ _ _ _ _ _ _ Ht1)
            as (b0 & d0 & c0 & keys & Hr0 & _ & _ & _ & _ & ->).
          intros b d c [(E & _)|E]; [discriminate|].
          inversion E; subst. eapply Hg. exact Hr0. }
        destruct (IH _ _ _ _ Hg' Hp3 H) as (tr4 & Htr4 & Hf4 & Hm4).
        exists (map (Step MainThread) tr1 ++ tr2 ++ tr3 ++ tr4).
        split; [rewrite Htr4, Htr3, Htr2, Htr1, <- !app_assoc; reflexivity|].
        split; [|exact Hm4]. rewrite !Forall_app. auto.
      * inversion H; subst.
        destruct (submit_files_requests _ _ _ _ _ _ Hsub) as (tr2 & Htr2 & Hf2).
        destruct (submit_files_spec cl _ _ _ _ _ _ Hsub)
          as (tr2' & (_ & _ & Hm2 & _) & _).
        exists (map (Step MainThread) tr1 ++ tr2).
        split; [rewrite Htr2, Htr1, <- !app_assoc; reflexivity|].
        split; [rewrite Forall_app; auto|].
        apply Hm2. rewrite Hp1, Hp. constructor.
    + inversion H; subst. exists (map (Step MainThread) tr1).
      split; [exact Htr1|]. split; [exact Hf1|]. rewrite Hp1, Hp. constructor.
    + inversion H; subst. exists (map (Step MainThread) tr1).
      split; [exact Htr1|]. split; [exact Hf1|]. rewrite Hp1, Hp. constructor.
Qed.

(** X11: every listing call of a run is the same request: it is made
    by the main thread with the bucket and the prefix of [s3_dir] and
    [MaxKeys = n_keys], and carries no continuation; what a later page
    holds depends only on what the moves before it have left under the
    prefix. *)
Theorem every_listing_of_a_run_is_the_same_request cfg s r s' :
  m_pending s = [] ->
  start_segregation cl cfg s = (r, s') ->
  exists tr,
    m_trace s' = m_trace s ++ tr
    /\ Forall (same_request cfg) tr
    /\ forall th b d m x,
        In (Step th (EList b d m x)) tr ->
        th = MainThread /\ m = n_keys cfg /\ parse_s3_uri (s3_dir cfg) = Ok (b, d).
Proof.
  intros Hp H.
  assert (Hmain : exists tr, m_trace s' = m_trace s ++ tr /\ Forall (same_request cfg) tr).
  { revert H. unfold start_segregation. main_simpl. rewrite now_in_main.
    destruct (sub_overflow (fst (w_now cl (m_world s))) (time_delay cfg)) as [msg|].
    { unfold main_raise. intros E. inversion E; subst; simpl. eexists.
      split; [reflexivity|]. constructor; [exact I | constructor]. }
    set (dd := sub_seconds (fst (w_now cl (m_world s))) (time_delay cfg)).
    match goal with
    | |- context [main_try _ _ ?s0] => set (s1 := s0)
    end.
    unfold main_try.
    assert (Hwith : forall r1 s2,
               with_executor cl (n_workers cfg)
                 (for_pages cl (S (Z.to_nat (n_loops cfg))) cfg dd GenInit) s1 = (r1, s2) ->
               exists tr, m_trace s2 = m_trace s1 ++ tr /\ Forall (same_request cfg) tr).
    { intros r1 s2. unfold with_executor. destruct (n_workers cfg <=? 0).
      - intros E. inversion E; subst. exists []. rewrite app_nil_r. auto.
      - destruct (for_pages cl (S (Z.to_nat (n_loops cfg))) cfg dd GenInit s1)
          as [rb sb] eqn:Hbody.
        destruct (for_pages_requests cfg dd (S (Z.to_nat (n_loops cfg))) GenInit s1 rb sb)
          as (tr1 & Htr1 & Hf1 & Hm1);
          [|exact Hp|exact Hbody|].
        { intros b d c [(_ & E & _)|E]; [exact E | discriminate]. }
        destruct (m_pending sb) as [|p ps] eqn:Hpb.
        + intros E. inversion E; subst. eauto.
        + destruct (wait cl sb) as [rw sw] eqn:Hwait.
          rewrite <- Hpb in Hm1.
          destruct (wait_requests cfg _ _ _ Hm1 Hwait) as (tr2 & Htr2 & Hf2 & _).
          intros E. inversion E; subst. exists (tr1 ++ tr2).
          split; [rewrite Htr2, Htr1, <- app_assoc; reflexivity|].
          rewrite Forall_app. auto. }
    destruct (with_executor cl (n_workers cfg)
                (for_pages cl (S (Z.to_nat (n_loops cfg))) cfg dd GenInit) s1)
      as [r1 s2] eqn:Hrun.
    destruct (Hwith _ _ eq_refl) as (tr & Htr & Hf). simpl in Htr.
    destruct r1 as [[]|e].
    - intros E. inversion E; subst. eexists.
      split; [rewrite Htr, <- app_assoc; reflexivity|].
      constructor; [exact I | exact Hf].
    - rewrite log_in_main. intros E. inversion E; subst; simpl. eexists.
      split; [rewrite Htr, <- !app_assoc; reflexivity|].
      constructor; [exact I|]. rewrite Forall_app. split; [exact Hf|].
      repeat constructor. }
  destruct Hmain as (tr & Htr & Hf). exists tr. split; [exact Htr|].
  split; [exact Hf|]. intros th b d m x Hin.
  rewrite List.Forall_forall in Hf. exact (Hf _ Hin).
Qed.

End Requests.

(** ** Dictionaries *)

Lemma dict_get_set_eq {V} (key : string) (v : V) (d : list (string * V)) :
  dict_get key (dict_set key v d) = Some v.
Proof.
  induction d as [|[k v0] d IH]; simpl.
  - rewrite String.eqb_refl. reflexivity.
  - destruct (String.eqb k key) eqn:E; simpl; rewrite E; [reflexivity | exact IH].
Qed.

Lemma dict_get_set_ne {V} (key key' : string) (v : V) (d : list (string * V)) :
  key' <> key -> dict_get key' (dict_set key v d) = dict_get key' d.
Proof.
  intros Hne. induction d as [|[k v0] d IH]; simpl.
  - destruct (String.eqb key key') eqn:E; [|reflexivity].
    apply String.eqb_eq in E. congruence.
  - destruct (String.eqb k key) eqn:E; simpl.
    + apply String.eqb_eq in E. subst k.
      destruct (String.eqb key key') eqn:E'; [|reflexivity].
      apply String.eqb_eq in E'. congruence.
    + rewrite IH. reflexivity.
Qed.

Lemma dict_set_keys {V} (key : string) (v : V) (d : list (string * V)) :
  map fst (dict_set key v d)
  = if dict_mem key d then map fst d else map fst d ++ [key].
Proof.
  unfold dict_mem. induction d as [|[k v0] d IH]; simpl; [reflexivity|].
  destruct (String.eqb k key) eqn:E; simpl; [reflexivity|].
  rewrite IH. destruct (dict_get key d); reflexivity.
Qed.

Lemma dict_mem_keys {V} (key : string) (d : list (string * V)) :
  dict_mem key d = true <-> In key (map fst d).
Proof.
  unfold dict_mem. induction d as [|[k v0] d IH]; simpl; [split; [discriminate|tauto]|].
  destruct (String.eqb k key) eqn:E.
  - apply String.eqb_eq in E. subst. split; auto.
  - rewrite IH. apply String.eqb_neq in E. split; [auto|]. intros [H|H]; [congruence|auto].
Qed.

Lemma dict_set_NoDup {V} (key : string) (v : V) (d : list (string * V)) :
  List.NoDup (map fst d) -> List.NoDup (map fst (dict_set key v d)).
Proof.
  intros H. rewrite dict_set_keys. destruct (dict_mem key d) eqn:E; [exact H|].
  apply List.NoDup_app; [exact H | repeat constructor; simpl; tauto |].
  intros x Hx [<-|[]]. apply dict_mem_keys in Hx. congruence.
Qed.

(** ** [parse_config] *)

Section ParseConfig.
Context {RT : PyRuntime}.

Lemma element_induction (P : element -> Prop) :
  (forall t x cs, List.Forall P cs -> P (Element t x cs)) -> forall e, P e.
Proof.
  intros H. fix IH 1. intros [t x cs]. apply H.
  induction cs as [|c cs IHcs]; constructor; [apply IH | exact IHcs].
Qed.

Lemma fold_dict_get {E : Type} (tag_of : E -> string) (f : E -> pyval) (t : string)
      (cs : list E) : forall acc,
  dict_get t (fold_left (fun d c => dict_set (tag_of c) (f c) d) cs acc)
  = match last (List.filter (fun c => String.eqb (tag_of c) t) cs) with
    | Some c => Some (f c)
    | None => dict_get t acc
    end.
Proof.
  induction cs as [|c cs IH]; intros acc; simpl; [reflexivity|].
  rewrite IH. destruct (String.eqb (tag_of c) t) eqn:Ht.
  - apply String.eqb_eq in Ht. subst t.
    destruct (List.filter (fun c0 => String.eqb (tag_of c0) (tag_of c)) cs) as [|c1 l] eqn:F.
    + simpl. apply dict_get_set_eq.
    + change (last (c :: c1 :: l)) with (last (c1 :: l)).
      destruct (last (c1 :: l)) eqn:L; [reflexivity|].
      apply last_None in L. discriminate.
  - destruct (last (List.filter (fun c0 => String.eqb (tag_of c0) t) cs)); [reflexivity|].
    apply dict_get_set_ne. apply String.eqb_neq in Ht. congruence.
Qed.

Lemma fold_dict_NoDup {E : Type} (tag_of : E -> string) (f : E -> pyval)
      (cs : list E) : forall acc,
  List.NoDup (map fst acc) ->
  List.NoDup (map fst (fold_left (fun d c => dict_set (tag_of c) (f c) d) cs acc)).
Proof.
  induction cs as [|c cs IH]; intros acc H; simpl; [exact H|].
  apply IH, dict_set_NoDup, H.
Qed.

(** X12: [parse_config] keeps one entry for each tag among the children
    of the root, and its value is read from the last child with that tag:
    an element that is repeated silently replaces the earlier ones; a tag
    that no child has is not a key. *)
Theorem parse_config_keeps_the_last_element_of_a_tag (root : element) :
  List.NoDup (map fst (parse_config root))
  /\ forall t,
      dict_get t (parse_config root)
      = match last (List.filter (fun c => String.eqb (tag c) t) (children root)) with
        | Some c => Some (parse_config_element c)
        | None => None
        end.
Proof.
  split.
  - apply fold_dict_NoDup. constructor.
  - intros t. unfold parse_config. rewrite fold_dict_get. reflexivity.
Qed.

Lemma from_xml_dict (items : list (string * pyval)) :
  from_xml (VDict items)
  <-> items <> [] /\ List.Forall (fun kv => from_xml (snd kv)) items.
Proof.
  simpl. apply and_iff_compat_l.
  induction items as [|[k v] items IH]; simpl.
  - split; constructor.
  - rewrite IH. split.
    + intros [Hv Hl]. constructor; assumption.
    + intros H. inversion H; subst. auto.
Qed.

Lemma dict_set_Forall {V} (P : V -> Prop) (key : string) (v : V) (d : list (string * V)) :
  P v -> List.Forall (fun kv => P (snd kv)) d ->
  List.Forall (fun kv => P (snd kv)) (dict_set key v d).
Proof.
  intros Hv. induction 1 as [|[k v0] d Hk Hd IH]; simpl.
  - repeat constructor. exact Hv.
  - destruct (String.eqb k key); constructor; simpl; auto.
Qed.

Lemma dict_set_not_empty {V} (key : string) (v : V) (d : list (string * V)) :
  dict_set key v d <> [].
Proof. destruct d as [|[k v0] d]; simpl; [|destruct (String.eqb k key)]; discriminate. Qed.

Lemma fold_dict_Forall (P : pyval -> Prop) (cs : list element) : forall acc,
  List.Forall (fun c => P (parse_config_element c)) cs ->
  List.Forall (fun kv => P (snd kv)) acc ->
  List.Forall (fun kv => P (snd kv))
    (fold_left (fun d c => dict_set (tag c) (parse_config_element c) d) cs acc).
Proof.
  induction cs as [|c cs IH]; intros acc Hcs Hacc; simpl; [exact Hacc|].
  inversion Hcs; subst. apply IH; [assumption|]. apply dict_set_Forall; assumption.
Qed.

Lemma fold_dict_not_empty (cs : list element) : forall acc,
  cs <> [] \/ acc <> [] ->
  fold_left (fun d c => dict_set (tag c) (parse_config_element c) d) cs acc <> [].
Proof.
  induction cs as [|c cs IH]; intros acc H; simpl.
  - destruct H as [H|H]; [congruence | exact H].
  - apply IH. right. apply dict_set_not_empty.
Qed.

Lemma parse_config_element_from_xml (e : element) : from_xml (parse_config_element e).
Proof.
  induction e as [t x cs IH] using element_induction.
  destruct cs as [|c cs].
  - simpl. destruct x; exact I.
  - change (parse_config_element (Element t x (c :: cs)))
      with (VDict (fold_left
                     (fun d c' => dict_set (tag c') (parse_config_element c') d)
                     (c :: cs) [])).
    apply from_xml_dict. split.
    + apply fold_dict_not_empty. left. discriminate.
    + apply fold_dict_Forall; [exact IH | constructor].
Qed.

(** X13: what [parse_config] stores is [None] (an element without text
    and without children), a text, or a nested dictionary that is not
    empty: never a number, a boolean or a date, so every number of the
    configuration reaches [validate_refine_config] as a text; the text
    of an element that has children is dropped. *)
Theorem parse_config_stores_texts_and_dictionaries (root : element) :
  (forall key v, dict_get key (parse_config root) = Some v -> from_xml v)
  /\ (forall t x x' c cs,
         parse_config_element (Element t x (c :: cs))
         = parse_config_element (Element t x' (c :: cs))).
Proof.
  split; [|reflexivity].
  intros key v H.
  unfold parse_config in H. rewrite fold_dict_get in H.
  destruct (last (List.filter (fun c => String.eqb (tag c) key) (children root)));
    [|discriminate].
  inversion H; subst. apply parse_config_element_from_xml.
Qed.

End ParseConfig.

(** ** [validate_args] and [validate_refine_config] *)

Ltac result_simpl := unfold mbind, result_bind, mret, result_ret in *.

Section Validate.
Context {RT : PyRuntime} {HOST : PyHost}.

Lemma get_set_eq (key : string) (v : pyval) (d : list (string * pyval)) :
  get key (dict_set key v d) = v.
Proof. unfold get. rewrite dict_get_set_eq. reflexivity. Qed.

Lemma get_set_ne (key key' : string) (v : pyval) (d : list (string * pyval)) :
  key' <> key -> get key' (dict_set key v d) = get key' d.
Proof. intros H. unfold get. rewrite dict_get_set_ne by exact H. reflexivity. Qed.

Lemma check_int_other key setting d d' key' :
  check_int key setting d = Ok d' -> key' <> key -> dict_get key' d' = dict_get key' d.
Proof.
  unfold check_int. intros H Hne.
  destruct (String.eqb (type_ setting) "int" && truthy (get key d)).
  - destruct (py_int (get key d)); inversion H; subst.
    apply dict_get_set_ne. exact Hne.
  - inversion H; subst. reflexivity.
Qed.

Lemma check_str_other key setting d key' :
  key' <> key -> dict_get key' (check_str key setting d) = dict_get key' d.
Proof.
  unfold check_str. intros Hne.
  destruct (String.eqb (type_ setting) "str" && truthy (get key d)); [|reflexivity].
  apply dict_get_set_ne. exact Hne.
Qed.

Lemma default_to_other name v key d key' :
  key' <> key -> dict_get key' (default_to name v key d) = dict_get key' d.
Proof.
  unfold default_to. intros Hne.
  destruct (String.eqb key name && negb (truthy (get key d))); [|reflexivity].
  apply dict_get_set_ne. exact Hne.
Qed.

Lemma custom_checks_other key d d' key' :
  custom_checks key d = Ok d' -> key' <> key -> dict_get key' d' = dict_get key' d.
Proof.
  unfold custom_checks. intros H Hne.
  match type of H with
  | (if ?c then _ else _) = _ => destruct c
  end.
  - destruct os_cpu_count; inversion H; subst.
    rewrite dict_get_set_ne by exact Hne. rewrite !default_to_other by exact Hne.
    reflexivity.
  - inversion H; subst. rewrite !default_to_other by exact Hne. reflexivity.
Qed.

(** One turn of the loop writes under its own key only. *)
Lemma validate_key_other key setting d d' key' :
  validate_key key setting d = Ok d' -> key' <> key -> dict_get key' d' = dict_get key' d.
Proof.
  unfold validate_key. intros H Hne.
  destruct (required setting && negb (dict_mem key d)); [discriminate|].
  result_simpl. destruct (check_directory key setting d); [|discriminate].
  destruct (check_int key setting d) as [d1|e] eqn:Hint; [|discriminate].
  rewrite (custom_checks_other _ _ _ _ H Hne), (check_str_other _ _ _ _ Hne).
  eapply check_int_other; eassumption.
Qed.

Lemma validate_keys_other keys : forall d d' key',
  validate_keys keys d = Ok d' -> ~ In key' (map fst keys) ->
  dict_get key' d' = dict_get key' d.
Proof.
  induction keys as [|[key setting] keys IH]; intros d d' key' H Hn; simpl in *.
  - inversion H; subst. reflexivity.
  - result_simpl. destruct (validate_key key setting d) as [d1|e] eqn:Hk; [|discriminate].
    rewrite (IH _ _ _ H) by tauto. eapply validate_key_other; [exact Hk|]. intros ->. tauto.
Qed.

(** When the loop succeeds, the turn of each key succeeded, on a
    dictionary that held for this key what the loop started with and left
    for it what the loop ends with. *)
Lemma validate_keys_turn keys : forall d d',
  validate_keys keys d = Ok d' ->
  List.NoDup (map fst keys) ->
  forall key setting,
    In (key, setting) keys ->
    exists d0 d1,
      validate_key key setting d0 = Ok d1
      /\ dict_get key d0 = dict_get key d
      /\ dict_get key d' = dict_get key d1.
Proof.
  induction keys as [|[k st] keys IH]; intros d d' H Hnd key setting Hin; simpl in *;
    [contradiction|].
  result_simpl. destruct (validate_key k st d) as [dm|e] eqn:Hk; [|discriminate].
  inversion Hnd as [|? ? Hnotin Hnd']; subst.
  destruct Hin as [E|Hin].
  - inversion E; subst. exists d, dm. split; [exact Hk|]. split; [reflexivity|].
    eapply validate_keys_other; eassumption.
  - destruct (IH _ _ H Hnd' _ _ Hin) as (d0 & d1 & Hv & H0 & H1).
    exists d0, d1. split; [exact Hv|]. split; [|exact H1].
    rewrite H0. eapply validate_key_other; [exact Hk|].
    intros ->. apply Hnotin. apply (List.in_map fst) in Hin. exact Hin.
Qed.

Lemma config_keys_NoDup : List.NoDup (map fst config_keys).
Proof.
  repeat (constructor; [simpl; intuition discriminate|]). constructor.
Qed.

Lemma get_of_dict_get key (d d' : list (string * pyval)) :
  dict_get key d = dict_get key d' -> get key d = get key d'.
Proof. unfold get. intros ->. reflexivity. Qed.

(** *** The turn of each kind of key *)

Lemma text_turn key req d0 d1 :
  In key text_keys ->
  validate_key key {| required := req; type_ := "str"; permission := None |} d0 = Ok d1 ->
  (req = true -> dict_mem key d0 = true)
  /\ get key d1 = refined_text (get key d0).
Proof.
  intros Hkey. unfold validate_key, check_directory, check_int, check_str,
    custom_checks, default_to, refined_text.
  result_simpl. cbn [required type_ permission].
  destruct (req && negb (dict_mem key d0)) eqn:Hreq; [discriminate|].
  assert (Hmem : req = true -> dict_mem key d0 = true).
  { intros ->. simpl in Hreq. destruct (dict_mem key d0); [reflexivity|discriminate]. }
  simpl in Hkey.
  destruct Hkey as [<-|[<-|[<-|[<-|[<-|[]]]]]]; simpl;
    intros H; inversion H; subst; (split; [exact Hmem|]);
      destruct (truthy (get _ d0)); try reflexivity; apply get_set_eq.
Qed.

Lemma missing_text_turn key d0 e :
  In key text_keys ->
  validate_key key {| required := true; type_ := "str"; permission := None |} d0 = Raise e ->
  dict_mem key d0 = false
  /\ e = ValueError (key_setting key {| required := true; type_ := "str";
                                        permission := None |}
                     +:+ "error: missing required key.").
Proof.
  intros Hkey. unfold validate_key, check_directory, check_int, check_str,
    custom_checks, default_to.
  result_simpl. cbn [required type_ permission].
  destruct (dict_mem key d0); simpl.
  - simpl in Hkey. destruct Hkey as [<-|[<-|[<-|[<-|[<-|[]]]]]]; simpl; discriminate.
  - intros H. inversion H; subst. auto.
Qed.

Lemma number_turn key default d0 d1 :
  In (key, default) [("time_delay", 86400); ("n_keys", 500); ("n_loops", 10)] ->
  validate_key key {| required := false; type_ := "int"; permission := None |} d0 = Ok d1 ->
  exists z, refined_number (get key d0) default = Some z
            /\ z <> 0 /\ dict_get key d1 = Some (VInt z).
Proof.
  intros Hkey. unfold validate_key, check_directory, check_int, check_str,
    custom_checks, default_to, refined_number.
  result_simpl. simpl in Hkey.
  destruct Hkey as [E|[E|[E|[]]]]; inversion E; subst; simpl;
    (destruct (truthy (get _ d0)) eqn:Ht;
     [destruct (py_int (get _ d0)) as [z|]; [|discriminate];
      rewrite get_set_eq; simpl; destruct (z =? 0) eqn:Hz; simpl;
      intros H; inversion H; subst;
      [eexists; split; [reflexivity|]; split; [lia|];
       rewrite dict_get_set_eq; reflexivity
      |eexists; split; [reflexivity|]; split; [apply Z.eqb_neq; exact Hz|];
       apply dict_get_set_eq]
     |rewrite Ht; simpl; intros H; inversion H; subst;
      eexists; split; [reflexivity|]; split; [lia|]; apply dict_get_set_eq]).
Qed.

Lemma workers_turn d0 d1 :
  validate_key "n_workers" {| required := false; type_ := "int"; permission := None |} d0
  = Ok d1 ->
  exists z,
    dict_get "n_workers" d1 = Some (VInt z)
    /\ ((truthy (get "n_workers" d0) = true
         /\ py_int (get "n_workers" d0) = Some z /\ z <> 0)
        \/ (refined_number (get "n_workers" d0) 0 = Some 0
            /\ exists n, os_cpu_count = Some n /\ z = n / 2)).
Proof.
  unfold validate_key, check_directory, check_int, check_str,
    custom_checks, default_to, refined_number.
  result_simpl. simpl.
  destruct (truthy (get "n_workers" d0)) eqn:Ht.
  - destruct (py_int (get "n_workers" d0)) as [z|]; [|discriminate].
    rewrite get_set_eq. simpl. destruct (z =? 0) eqn:Hz; simpl.
    + destruct os_cpu_count as [n|]; [|discriminate].
      intros H. inversion H; subst. eexists. split; [apply dict_get_set_eq|].
      right. split; [reflexivity|]. eauto.
    + intros H. inversion H; subst. exists z. split; [apply dict_get_set_eq|].
      left. apply Z.eqb_neq in Hz. auto.
  - rewrite Ht. simpl. destruct os_cpu_count as [n|]; [|discriminate].
    intros H. inversion H; subst. eexists. split; [apply dict_get_set_eq|].
    right. split; [reflexivity|]. eauto.
Qed.

Lemma log_file_turn d0 d1 :
  validate_key "log_file" {| required := true; type_ := "file";
                             permission := Some "write" |} d0 = Ok d1 ->
  dict_mem "log_file" d0 = true
  /\ d1 = d0
  /\ (truthy (get "log_file" d0) = true ->
      exists s, get "log_file" d0 = VStr s
                /\ os_path_exists (os_path_dirname s) = true
                /\ os_access (os_path_dirname s) W_OK = true).
Proof.
  unfold validate_key, check_directory, check_int, check_str, custom_checks, default_to.
  result_simpl. simpl.
  destruct (dict_mem "log_file" d0); simpl; [|discriminate].
  destruct (truthy (get "log_file" d0)) eqn:Ht.
  - destruct (get "log_file" d0) as [| | |s| |] eqn:Hv; simpl; try discriminate.
    destruct (os_path_exists (os_path_dirname s)) eqn:Hex; simpl; [|discriminate].
    destruct (os_access (os_path_dirname s) W_OK) eqn:Hacc; simpl; [|discriminate].
    intros H. inversion H; subst. split; [reflexivity|]. split; [reflexivity|]. eauto.
  - intros H. inversion H; subst. split; [reflexivity|]. split; [reflexivity|].
    discriminate.
Qed.

(** *** The whole function *)

Lemma with_args_other d args key :
  ~ In key written_keys -> dict_get key (with_args d args) = dict_get key d.
Proof.
  intros H. unfold with_args. simpl in H.
  rewrite !dict_get_set_ne by (intros ->; tauto). reflexivity.
Qed.

(** What [validate_refine_config] does once the loop over the keys has
    ended. *)
Lemma validate_refine_config_inv d args tr r :
  is_trace (validate_refine_config d args) tr r ->
  match validate_keys config_keys (with_args d args) with
  | Raise e => tr = [] /\ r = Raise e
  | Ok d1 =>
      match datetime_of args with
      | None =>
          exists now,
            tr = [ENow now]
            /\ match dict_get "time_delay" d1 with
               | None => r = Raise (Exception "KeyError" "'time_delay'")
               | Some v =>
                   match seconds_of v with
                   | Ok seconds =>
                       match sub_overflow now seconds with
                       | Some msg => r = Raise (Exception "OverflowError" msg)
                       | None =>
                           r = Ok (dict_set "process_date"
                                            (VDate (sub_seconds now seconds)) d1)
                       end
                   | Raise e => r = Raise e
                   end
               end
      | Some s =>
          tr = []
          /\ match strptime s "%Y-%m-%d %H:%M:%S" with
             | Ok process_date =>
                 r = Ok (dict_set "process_date" (VDate process_date) d1)
             | Raise e => r = Raise e
             end
      end
  end.
Proof.
  unfold validate_refine_config. fold (with_args d args).
  unfold mbind, prog_bind, mret, prog_ret.
  destruct (validate_keys config_keys (with_args d args)) as [d1|e]; simpl.
  - destruct (datetime_of args) as [s|].
    + destruct (strptime s "%Y-%m-%d %H:%M:%S") as [pd|e]; simpl;
        intros H; inversion H; subst; auto.
    + intros H. inversion H; subst. exists t. split; [f_equal|];
        destruct (dict_get "time_delay" d1) as [v|];
        try destruct (seconds_of v) as [z|e]; simpl in *;
          try destruct (sub_overflow t z) as [msg|];
          match goal with Hx : is_trace _ _ _ |- _ => inversion Hx; subst end;
          reflexivity.
  - intros H. inversion H; subst. auto.
Qed.

(** A successful validation, put together: the loop succeeded and the
    date of the run was stored. *)
Lemma validate_refine_config_ok d args tr d' :
  is_trace (validate_refine_config d args) tr (Ok d') ->
  exists d1 process_date,
    validate_keys config_keys (with_args d args) = Ok d1
    /\ d' = dict_set "process_date" (VDate process_date) d1.
Proof.
  intros H. apply validate_refine_config_inv in H.
  destruct (validate_keys config_keys (with_args d args)) as [d1|e];
    [|destruct H; discriminate].
  exists d1. destruct (datetime_of args) as [s|].
  - destruct H as [_ H]. destruct (strptime s "%Y-%m-%d %H:%M:%S") as [pd|e];
      inversion H; subst. eauto.
  - destruct H as (now & _ & H). destruct (dict_get "time_delay" d1) as [v|];
      [|discriminate]. destruct (seconds_of v) as [z|e]; [|discriminate].
    destruct (sub_overflow now z); inversion H; subst. eauto.
Qed.

(** The value a key of the table has before and after a successful
    validation, through the turn of that key. *)
Lemma validated_turn d args tr d' key setting :
  is_trace (validate_refine_config d args) tr (Ok d') ->
  In (key, setting) config_keys ->
  exists d0 d1,
    validate_key key setting d0 = Ok d1
    /\ dict_get key d0 = dict_get key d
    /\ dict_get key d' = dict_get key d1.
Proof.
  intros H Hin. destruct (validate_refine_config_ok _ _ _ _ H) as (dk & pd & Hk & ->).
  destruct (validate_keys_turn _ _ _ Hk config_keys_NoDup _ _ Hin) as (d0 & d1 & Hv & H0 & H1).
  exists d0, d1. split; [exact Hv|].
  assert (Hnw : ~ In key written_keys).
  { simpl in Hin. simpl.
    repeat (destruct Hin as [E|Hin]; [inversion E; subst; intuition discriminate|]).
    contradiction. }
  split.
  - rewrite H0. apply with_args_other. exact Hnw.
  - rewrite <- H1. apply dict_get_set_ne. intros ->. apply Hnw. simpl. tauto.
Qed.

End Validate.

Section Validated.
Context {RT : PyRuntime} {HOST : PyHost}.

Lemma dict_mem_of_dict_get key (d d' : list (string * pyval)) :
  dict_get key d = dict_get key d' -> dict_mem key d = dict_mem key d'.
Proof. unfold dict_mem. intros ->. reflexivity. Qed.

Lemma validated_text d args tr d' key :
  is_trace (validate_refine_config d args) tr (Ok d') ->
  In key text_keys ->
  get key d' = refined_text (get key d).
Proof.
  intros H Hkey.
  assert (Hin : exists req, In (key, {| required := req; type_ := "str";
                                        permission := None |}) config_keys).
  { simpl in Hkey. destruct Hkey as [<-|[<-|[<-|[<-|[<-|[]]]]]];
      [exists false|exists true|exists true|exists true|exists true]; simpl; tauto. }
  destruct Hin as [req Hin].
  destruct (validated_turn _ _ _ _ _ _ H Hin) as (d0 & d1 & Hv & H0 & H1).
  rewrite (get_of_dict_get _ _ _ H1), <- (get_of_dict_get _ _ _ H0).
  apply (text_turn _ _ _ _ Hkey Hv).
Qed.

Lemma validated_number d args tr d' key default :
  is_trace (validate_refine_config d args) tr (Ok d') ->
  In (key, default) [("time_delay", 86400); ("n_keys", 500); ("n_loops", 10)] ->
  exists z, refined_number (get key d) default = Some z
            /\ z <> 0 /\ dict_get key d' = Some (VInt z).
Proof.
  intros H Hkey.
  assert (Hin : In (key, {| required := false; type_ := "int"; permission := None |})
                   config_keys).
  { simpl in Hkey. destruct Hkey as [E|[E|[E|[]]]]; inversion E; subst; simpl; tauto. }
  destruct (validated_turn _ _ _ _ _ _ H Hin) as (d0 & d1 & Hv & H0 & H1).
  destruct (number_turn _ _ _ _ Hkey Hv) as (z & Hr & Hz & Hd).
  exists z. rewrite <- (get_of_dict_get _ _ _ H0), H1. auto.
Qed.

Lemma validated_workers d args tr d' :
  is_trace (validate_refine_config d args) tr (Ok d') ->
  exists z,
    dict_get "n_workers" d' = Some (VInt z)
    /\ ((truthy (get "n_workers" d) = true
         /\ py_int (get "n_workers" d) = Some z /\ z <> 0)
        \/ (refined_number (get "n_workers" d) 0 = Some 0
            /\ exists n, os_cpu_count = Some n /\ z = n / 2)).
Proof.
  intros H.
  destruct (validated_turn _ _ _ _ "n_workers" _ H
              (or_intror (or_intror (or_intror (or_intror (or_intror (or_intror
                 (or_intror (or_intror (or_intror (or_introl eq_refl)))))))))))
    as (d0 & d1 & Hv & H0 & H1).
  destruct (workers_turn _ _ Hv) as (z & Hd & Hz).
  exists z. rewrite <- (get_of_dict_get _ _ _ H0), H1. auto.
Qed.


(** X14: of a required key, validation asks that it is there and
    nothing else: after a successful validation the five required keys
    were in the dictionary, and the turn of a required text key fails only
    for a key that is missing, with the [ValueError] of the missing key;
    an element that is there and empty passes. *)
Theorem required_keys_are_checked_for_presence_only :
  (forall d args tr d',
      is_trace (validate_refine_config d args) tr (Ok d') ->
      List.Forall (fun key => dict_mem key d = true) required_keys)
  /\ (forall key d0 e,
         In key ["datetime_format"; "s3_dir"; "s3_segregated_dir"; "s3_error_dir"] ->
         validate_key key {| required := true; type_ := "str"; permission := None |} d0
         = Raise e ->
         dict_mem key d0 = false
         /\ e = ValueError
                  (key_setting key {| required := true; type_ := "str";
                                      permission := None |}
                   +:+ "error: missing required key.")).
Proof.
  split.
  - intros d args tr d' H.
    assert (Htext : forall key,
               In (key, {| required := true; type_ := "str"; permission := None |})
                  config_keys ->
               In key text_keys -> dict_mem key d = true).
    { intros key Hin Hkey.
      destruct (validated_turn _ _ _ _ _ _ H Hin) as (d0 & d1 & Hv & H0 & _).
      rewrite <- (dict_mem_of_dict_get _ _ _ H0).
      apply (text_turn _ _ _ _ Hkey Hv). reflexivity. }
    repeat constructor; try (apply Htext; simpl; tauto).
    destruct (validated_turn _ _ _ _ "log_file" _ H (or_introl eq_refl))
      as (d0 & d1 & Hv & H0 & _).
    rewrite <- (dict_mem_of_dict_get _ _ _ H0). apply (log_file_turn _ _ Hv).
  - intros key d0 e Hkey H. apply missing_text_turn; [|exact H].
    simpl in *. tauto.
Qed.

(** X15: after a successful validation [time_delay], [n_keys] and
    [n_loops] are integers other than zero: the integer [int] reads from
    the value, negative ones included, or the default (86400, 500, 10) when
    the key is missing, its value is false, or the integer read is zero;
    so none of the three can be set to zero. *)
Theorem validated_numbers_are_integers_other_than_zero d args tr d' :
  is_trace (validate_refine_config d args) tr (Ok d') ->
  List.Forall
    (fun '(key, default) =>
       exists z, refined_number (get key d) default = Some z
                 /\ z <> 0 /\ dict_get key d' = Some (VInt z))
    [("time_delay", 86400); ("n_keys", 500); ("n_loops", 10)].
Proof.
  intros H. repeat constructor; apply (validated_number _ _ _ _ _ _ H); simpl; tauto.
Qed.

(** X16: after a successful validation [n_workers] is an integer: the
    one read from the value when that is not zero, and otherwise half the
    number of CPUs, rounded down, which is zero on a machine with one. *)
Theorem validated_workers_default_to_half_the_cpus d args tr d' :
  is_trace (validate_refine_config d args) tr (Ok d') ->
  exists z,
    dict_get "n_workers" d' = Some (VInt z)
    /\ ((truthy (get "n_workers" d) = true
         /\ py_int (get "n_workers" d) = Some z /\ z <> 0)
        \/ (refined_number (get "n_workers" d) 0 = Some 0
            /\ exists n, os_cpu_count = Some n /\ z = n / 2)).
Proof. apply validated_workers. Qed.

(** X17: on a machine with one CPU, a configuration that gives no
    [n_workers] (or gives zero) is validated with [n_workers = 0], and the
    run it starts does nothing: once the delay is subtracted from the
    clock, the pool refuses to be built, the error is logged, and no call
    is made to the service. *)
Theorem on_one_cpu_the_default_workers_run_nothing d args tr d' cfg :
  os_cpu_count = Some 1 ->
  refined_number (get "n_workers" d) 0 = Some 0 ->
  is_trace (validate_refine_config d args) tr (Ok d') ->
  config_of_dict d' = Some cfg ->
  n_workers cfg = 0
  /\ forall (W : Type) (cl : world W) s r s',
      sub_overflow (fst (w_now cl (m_world s))) (time_delay cfg) = None ->
      start_segregation cl cfg s = (r, s') ->
      r = Ok tt
      /\ m_trace s'
         = m_trace s
           ++ [Step MainThread (ENow (fst (w_now cl (m_world s))));
               Step MainThread (ELog ERROR "max_workers must be greater than 0")].
Proof.
  intros Hcpu Hzero H Hcfg.
  assert (Hw : n_workers cfg = 0).
  { destruct (validated_workers _ _ _ _ H) as (z & Hd & Hz).
    assert (Hz0 : z = 0).
    { destruct Hz as [(Ht & Hi & Hne)|(_ & n & Hn & ->)].
      - unfold refined_number in Hzero. rewrite Ht, Hi in Hzero.
        destruct (z =? 0) eqn:E; [apply Z.eqb_eq in E; contradiction|].
        inversion Hzero. contradiction.
      - rewrite Hcpu in Hn. inversion Hn; subst. reflexivity. }
    subst z.
    unfold config_of_dict in Hcfg. unfold get in Hcfg at 8. rewrite Hd in Hcfg.
    repeat match type of Hcfg with
           | match ?x with _ => _ end = _ => destruct x; try discriminate Hcfg
           end; inversion Hcfg; subst; reflexivity. }
  split; [exact Hw|]. intros W cl s r s' Hov Hrun.
  destruct (start_segregation_without_workers cl cfg s r s') as (Hr & Ht & _);
    [lia | exact Hov | exact Hrun | auto].
Qed.

(** X18: after a successful validation each of the five text keys
    holds its value stripped of white space at both ends, when that value
    was true; a value that is false, such as the [None] of an empty
    element, and a key that is missing stay as they were. *)
Theorem validated_texts_are_stripped d args tr d' :
  is_trace (validate_refine_config d args) tr (Ok d') ->
  List.Forall (fun key => get key d' = refined_text (get key d)) text_keys.
Proof.
  intros H. repeat constructor; apply (validated_text _ _ _ _ _ H); simpl; tauto.
Qed.

(** X19: a successful validation leaves alone every key that is neither
    in its table nor one of the four it writes; under those four it
    stores the command line and the date of the run, whatever the file
    had under the same names. *)
Theorem validation_writes_its_own_keys_only d args tr d' :
  is_trace (validate_refine_config d args) tr (Ok d') ->
  (forall key, ~ In key (map fst config_keys) -> ~ In key written_keys ->
               dict_get key d' = dict_get key d)
  /\ dict_get "args_verbose" d' = Some (VBool (arg_verbose args))
  /\ dict_get "args_datetime" d'
     = Some (match arg_datetime args with Some s => VStr s | None => VNone end)
  /\ dict_get "args_config" d' = Some (VStr (arg_config args))
  /\ exists process_date, dict_get "process_date" d' = Some (VDate process_date).
Proof.
  intros H. destruct (validate_refine_config_ok _ _ _ _ H) as (dk & pd & Hk & ->).
  assert (Hw : forall key, In key ["args_verbose"; "args_datetime"; "args_config"] ->
                           dict_get key (dict_set "process_date" (VDate pd) dk)
                           = dict_get key (with_args d args)).
  { intros key Hkey. rewrite dict_get_set_ne
      by (simpl in Hkey; intuition (subst; discriminate)).
    apply (validate_keys_other _ _ _ _ Hk).
    simpl in *. intuition (subst; discriminate). }
  split; [|split; [|split; [|split]]].
  - intros key Hn Hw'. rewrite dict_get_set_ne by (intros ->; apply Hw'; simpl; tauto).
    rewrite (validate_keys_other _ _ _ _ Hk Hn). apply with_args_other. exact Hw'.
  - rewrite Hw by (simpl; tauto). unfold with_args.
    rewrite !dict_get_set_ne by discriminate. apply dict_get_set_eq.
  - rewrite Hw by (simpl; tauto). unfold with_args.
    rewrite dict_get_set_ne by discriminate. apply dict_get_set_eq.
  - rewrite Hw by (simpl; tauto). unfold with_args. apply dict_get_set_eq.
  - exists pd. apply dict_get_set_eq.
Qed.

(** X20: a successful validation leaves [log_file] as it was, and a
    value that is true is a text whose directory, taken from the text as
    it stands in the file (before any date is put in), exists and may be
    written to. *)
Theorem a_validated_log_file_has_a_writable_directory d args tr d' :
  is_trace (validate_refine_config d args) tr (Ok d') ->
  get "log_file" d' = get "log_file" d
  /\ (truthy (get "log_file" d) = true ->
      exists s, get "log_file" d = VStr s
                /\ os_path_exists (os_path_dirname s) = true
                /\ os_access (os_path_dirname s) W_OK = true).
Proof.
  intros H.
  destruct (validated_turn _ _ _ _ "log_file" _ H (or_introl eq_refl))
    as (d0 & d1 & Hv & H0 & H1).
  destruct (log_file_turn _ _ Hv) as (_ & -> & Hdir).
  rewrite (get_of_dict_get _ _ _ H1), <- (get_of_dict_get _ _ _ H0).
  split; [reflexivity | exact Hdir].
Qed.

Lemma dirname_of_a_name (s : string) :
  contains_char "/" s = false -> os_path_dirname s = "".
Proof.
  intros H. unfold os_path_dirname.
  assert (Hh : head_of s = "").
  { destruct s as [|c s]; [reflexivity|].
    change (head_of (String c s))
      with (if contains_char "/" (String c s) then String c (head_of s) else "").
    rewrite H. reflexivity. }
  rewrite Hh. reflexivity.
Qed.

(** X21: a [log_file] that names no directory is refused, for its
    directory is the empty path, which does not exist: the validation
    raises the [ValueError] of the first key of the table before it reads
    the clock. *)
Theorem a_log_file_without_directory_is_refused d args s tr r :
  os_path_exists "" = false ->
  get "log_file" d = VStr s -> s <> "" -> contains_char "/" s = false ->
  is_trace (validate_refine_config d args) tr r ->
  tr = []
  /\ r = Raise (ValueError
                  (key_setting "log_file" {| required := true; type_ := "file";
                                             permission := Some "write" |}
                   +:+ "error: file/directory " +:+ "" +:+ " doesn't exist.")).
Proof.
  intros Hex Hv Hne Hs H. apply validate_refine_config_inv in H.
  assert (Hg : get "log_file" (with_args d args) = VStr s).
  { rewrite <- Hv. apply get_of_dict_get, with_args_other.
    simpl. intuition discriminate. }
  assert (Hm : dict_mem "log_file" (with_args d args) = true).
  { unfold dict_mem. unfold get in Hg.
    destruct (dict_get "log_file" (with_args d args)); [reflexivity|discriminate]. }
  assert (Hk : validate_keys config_keys (with_args d args)
               = Raise (ValueError
                          (key_setting "log_file" {| required := true; type_ := "file";
                                                     permission := Some "write" |}
                           +:+ "error: file/directory " +:+ "" +:+ " doesn't exist."))).
  { unfold config_keys. cbn [validate_keys]. result_simpl.
    unfold validate_key at 1. cbn [required]. rewrite Hm. cbn [negb andb].
    result_simpl. unfold check_directory. cbn [type_ permission].
    rewrite Hg. simpl.
    assert (Ht : negb (String.eqb s "") = true).
    { destruct (String.eqb s "") eqn:E; [apply String.eqb_eq in E; contradiction|reflexivity]. }
    rewrite Ht, (dirname_of_a_name _ Hs), Hex. reflexivity. }
  rewrite Hk in H. exact H.
Qed.

(** *** What a turn leaves under its key depends on that key alone *)

Lemma check_directory_same key setting (d d' : list (string * pyval)) :
  dict_get key d = dict_get key d' ->
  check_directory key setting d = check_directory key setting d'.
Proof.
  intros H. unfold check_directory. rewrite (get_of_dict_get _ _ _ H). reflexivity.
Qed.

Lemma dict_set_same key (v : pyval) (d d' : list (string * pyval)) :
  dict_get key (dict_set key v d) = dict_get key (dict_set key v d').
Proof. rewrite !dict_get_set_eq. reflexivity. Qed.

Lemma validate_key_same key setting (d d' a a' : list (string * pyval)) :
  dict_get key d = dict_get key d' ->
  validate_key key setting d = Ok a ->
  validate_key key setting d' = Ok a' ->
  dict_get key a = dict_get key a'.
Proof.
  intros H. unfold validate_key.
  rewrite <- (dict_mem_of_dict_get _ _ _ H).
  destruct (required setting && negb (dict_mem key d)); [discriminate|].
  result_simpl. rewrite <- (check_directory_same _ setting _ _ H).
  destruct (check_directory key setting d); [|discriminate].
  unfold check_int. rewrite <- (get_of_dict_get _ _ _ H).
  assert (Hstep : forall b b' : list (string * pyval),
             dict_get key b = dict_get key b' ->
             custom_checks key (check_str key setting b) = Ok a ->
             custom_checks key (check_str key setting b') = Ok a' ->
             dict_get key a = dict_get key a').
  { intros b b' Hb. unfold check_str. rewrite <- (get_of_dict_get _ _ _ Hb).
    assert (Hc : forall c c' : list (string * pyval),
               dict_get key c = dict_get key c' ->
               custom_checks key c = Ok a -> custom_checks key c' = Ok a' ->
               dict_get key a = dict_get key a').
    { intros c c' Hcc. unfold custom_checks.
      assert (Hd : forall name v (x x' : list (string * pyval)),
                 dict_get key x = dict_get key x' ->
                 dict_get key (default_to name v key x)
                 = dict_get key (default_to name v key x')).
      { intros name v x x' Hx. unfold default_to. rewrite <- (get_of_dict_get _ _ _ Hx).
        destruct (String.eqb key name && negb (truthy (get key x)));
          [apply dict_set_same | exact Hx]. }
      pose proof (Hd "n_loops" (VInt 10) _ _
                    (Hd "n_keys" (VInt 500) _ _
                        (Hd "time_delay" (VInt 86400) _ _ Hcc))) as H3.
      rewrite <- (get_of_dict_get _ _ _ H3).
      match goal with
      | |- (if ?c then _ else _) = _ -> _ => destruct c
      end.
      - destruct os_cpu_count; [|discriminate].
        intros E E'. inversion E; inversion E'; subst. apply dict_set_same.
      - intros E E'. inversion E; inversion E'; subst. exact H3. }
    destruct (String.eqb (type_ setting) "str" && truthy (get key b));
      [apply Hc, dict_set_same | apply Hc, Hb]. }
  destruct (String.eqb (type_ setting) "int" && truthy (get key d)).
  - destruct (py_int (get key d)); [|discriminate]. apply Hstep, dict_set_same.
  - apply Hstep, H.
Qed.

(** X22: the [--datetime] argument reaches the keys [args_datetime] and
    [process_date] and nothing else: two successful validations of one
    dictionary that differ in this argument alone agree on every other
    key, and so on everything [start_segregation] reads; the directory a
    file is moved to does not depend on the argument. *)
Theorem the_datetime_argument_changes_the_date_of_the_log_only
    d args1 args2 tr1 tr2 d1 d2 :
  arg_config args1 = arg_config args2 ->
  arg_verbose args1 = arg_verbose args2 ->
  is_trace (validate_refine_config d args1) tr1 (Ok d1) ->
  is_trace (validate_refine_config d args2) tr2 (Ok d2) ->
  (forall key, key <> "args_datetime" -> key <> "process_date" ->
               dict_get key d1 = dict_get key d2)
  /\ config_of_dict d1 = config_of_dict d2.
Proof.
  intros Hc Hv H1 H2.
  assert (Hall : forall key, key <> "args_datetime" -> key <> "process_date" ->
                             dict_get key d1 = dict_get key d2).
  { intros key Hk1 Hk2.
    destruct (List.in_dec string_dec key (map fst config_keys)) as [Hin|Hout].
    - apply List.in_map_iff in Hin as ([k setting] & <- & Hin). simpl.
      destruct (validated_turn _ _ _ _ _ _ H1 Hin) as (a0 & a1 & Ha & Ha0 & Ha1).
      destruct (validated_turn _ _ _ _ _ _ H2 Hin) as (b0 & b1 & Hb & Hb0 & Hb1).
      rewrite Ha1, Hb1. eapply validate_key_same; [|exact Ha|exact Hb]. congruence.
    - destruct (validate_refine_config_ok _ _ _ _ H1) as (k1 & p1 & Hk1' & ->).
      destruct (validate_refine_config_ok _ _ _ _ H2) as (k2 & p2 & Hk2' & ->).
      rewrite !dict_get_set_ne by exact Hk2.
      rewrite (validate_keys_other _ _ _ _ Hk1' Hout),
              (validate_keys_other _ _ _ _ Hk2' Hout).
      unfold with_args. rewrite Hc, Hv.
      destruct (string_dec key "args_config") as [->|N1];
        [rewrite !dict_get_set_eq; reflexivity|].
      rewrite !(dict_get_set_ne "args_config") by exact N1.
      rewrite !(dict_get_set_ne "args_datetime") by exact Hk1. reflexivity. }
  split; [exact Hall|].
  unfold config_of_dict.
  rewrite !(fun key N1 N2 => get_of_dict_get key d1 d2 (Hall key N1 N2)) by discriminate.
  reflexivity.
Qed.

Lemma validate_key_raises key setting (d : list (string * pyval)) e :
  validate_key key setting d = Raise e ->
  is_ValueError e = true \/ exists msg, e = TypeError msg.
Proof.
  unfold validate_key.
  destruct (required setting && negb (dict_mem key d));
    [intros H; inversion H; subst; auto|].
  result_simpl.
  destruct (check_directory key setting d) as [[]|e1] eqn:Hdir.
  - unfold check_int.
    destruct (String.eqb (type_ setting) "int" && truthy (get key d)).
    + destruct (py_int (get key d)).
      * unfold custom_checks.
        match goal with
        | |- (if ?c then _ else _) = _ -> _ => destruct c; [|discriminate]
        end.
        destruct os_cpu_count; [discriminate|].
        intros H. inversion H; subst. right. eauto.
      * intros H. inversion H; subst. auto.
    + unfold custom_checks.
      match goal with
      | |- (if ?c then _ else _) = _ -> _ => destruct c; [|discriminate]
      end.
      destruct os_cpu_count; [discriminate|].
      intros H. inversion H; subst. right. eauto.
  - intros H0. inversion H0; subst. clear H0. revert Hdir. unfold check_directory.
    match goal with
    | |- (if ?c then _ else _) = _ -> _ => destruct c; [|discriminate]
    end.
    result_simpl.
    match goal with
    | |- match (if ?c then _ else _) with _ => _ end = _ -> _ => destruct c
    end.
    + unfold dirname_of.
      destruct (get key d); try solve [intros E; inversion E; subst; right; eauto].
      simpl. destruct (negb (os_path_exists (os_path_dirname s)));
        [intros E; inversion E; subst; auto|].
      destruct (permission setting) as [[|c p]|]; try discriminate.
      destruct (negb (os_access (os_path_dirname s) _));
        [intros E; inversion E; subst; auto | discriminate].
    + destruct (get key d) as [| | | | |items] eqn:Hg; simpl;
        try (intros E; inversion E; subst; right; eauto; fail);
        match goal with
        | |- (if ?c then _ else _) = _ -> _ =>
            destruct c; [intros E; inversion E; subst; auto|]
        end;
        destruct (permission setting) as [[|c p]|]; try discriminate;
          simpl; try (intros E; inversion E; subst; right; eauto; fail);
          match goal with
          | |- (if ?c then _ else _) = _ -> _ =>
              destruct c; [intros E; inversion E; subst; auto | discriminate]
          end.
Qed.

Lemma validate_keys_raises keys : forall (d : list (string * pyval)) e,
  validate_keys keys d = Raise e ->
  is_ValueError e = true \/ exists msg, e = TypeError msg.
Proof.
  induction keys as [|[key setting] keys IH]; intros d e; simpl; [discriminate|].
  result_simpl. destruct (validate_key key setting d) as [d1|e1] eqn:Hk.
  - apply IH.
  - intros H. inversion H; subst. eapply validate_key_raises. exact Hk.
Qed.

(** X23: [validate_args] accepts exactly a configuration file that
    exists and may be read together with, when [--datetime] is given and
    not empty, a text that [strptime] reads as year-month-day
    hour:minute:second; it refuses with [FileNotFoundError] first,
    [PermissionError] second, and turns whatever [strptime] raises into a
    [ValueError]. *)
Theorem validate_args_accepts_a_readable_file_and_a_date args :
  (validate_args args = Ok tt
   <-> os_path_exists (arg_config args) = true
       /\ os_access (arg_config args) R_OK = true
       /\ forall s, datetime_of args = Some s ->
                    exists process_date, strptime s "%Y-%m-%d %H:%M:%S" = Ok process_date)
  /\ forall e,
      validate_args args = Raise e ->
      (os_path_exists (arg_config args) = false
       /\ e = Exception "FileNotFoundError"
                ("Config file: " +:+ arg_config args +:+ " does not exist"))
      \/ (os_path_exists (arg_config args) = true
          /\ os_access (arg_config args) R_OK = false
          /\ e = Exception "PermissionError"
                   ("Config file: " +:+ arg_config args +:+ " has no read permission"))
      \/ (exists s e', datetime_of args = Some s
                       /\ strptime s "%Y-%m-%d %H:%M:%S" = Raise e'
                       /\ e = ValueError ("Date argument: " +:+ s
                                          +:+ " not a valid date")).
Proof.
  unfold validate_args.
  destruct (os_path_exists (arg_config args)); simpl.
  - destruct (os_access (arg_config args) R_OK); simpl.
    + destruct (datetime_of args) as [s|].
      * destruct (strptime s "%Y-%m-%d %H:%M:%S") as [pd|e'] eqn:Hs; split.
        -- split; [intros _|reflexivity]. repeat split.
           intros s' E. inversion E; subst. eauto.
        -- discriminate.
        -- split; [discriminate|]. intros (_ & _ & H).
           destruct (H s eq_refl) as [pd Hpd]. congruence.
        -- intros e H. inversion H; subst. right; right. eauto.
      * split; [|discriminate]. split; [intros _|reflexivity].
        repeat split. discriminate.
    + split; [split; [discriminate | intros (_ & H & _); discriminate]|].
      intros e H. inversion H; subst. right; left. auto.
  - split; [split; [discriminate | intros (H & _); discriminate]|].
    intros e H. inversion H; subst. left. auto.
Qed.

(** X24: once [validate_args] has accepted the command line,
    [validate_refine_config] can fail in two places only: in the loop over
    the keys, before the clock is read, with a [ValueError] or, for a
    value of the wrong type or a machine whose number of CPUs is unknown,
    a [TypeError]; or, without [--datetime], after the clock is read, with
    the [OverflowError] of a [time_delay] that cannot be subtracted from
    it: the loop accepts every integer. *)
Theorem after_validate_args_two_places_can_fail d args tr e :
  validate_args args = Ok tt ->
  is_trace (validate_refine_config d args) tr (Raise e) ->
  (tr = []
   /\ validate_keys config_keys (with_args d args) = Raise e
   /\ (is_ValueError e = true \/ exists msg, e = TypeError msg))
  \/ (exists now d1 seconds msg,
         tr = [ENow now]
         /\ datetime_of args = None
         /\ validate_keys config_keys (with_args d args) = Ok d1
         /\ dict_get "time_delay" d1 = Some (VInt seconds)
         /\ sub_overflow now seconds = Some msg
         /\ e = Exception "OverflowError" msg).
Proof.
  intros Hargs H. apply validate_refine_config_inv in H.
  destruct (validate_keys config_keys (with_args d args)) as [d1|e1] eqn:Hk.
  - destruct (datetime_of args) as [s|] eqn:Hd.
    + exfalso. destruct H as [_ H].
      unfold validate_args in Hargs.
      destruct (negb (os_path_exists (arg_config args))); [discriminate|].
      destruct (negb (os_access (arg_config args) R_OK)); [discriminate|].
      rewrite Hd in Hargs.
      destruct (strptime s "%Y-%m-%d %H:%M:%S"); discriminate.
    + destruct H as (now & -> & H).
      destruct (validate_keys_turn _ _ _ Hk config_keys_NoDup "time_delay"
                  {| required := false; type_ := "int"; permission := None |})
        as (d0 & d1' & Hv & _ & H1); [simpl; tauto|].
      destruct (number_turn "time_delay" 86400 _ _ (or_introl eq_refl) Hv)
        as (z & _ & _ & Hz).
      rewrite H1, Hz in H. simpl in H.
      destruct (sub_overflow now z) as [msg|] eqn:Ho; [|discriminate].
      inversion H; subst. right. exists now, d1, z, msg.
      rewrite H1, Hz. auto 10.
  - destruct H as [-> E]. inversion E; subst. left.
    split; [reflexivity|]. split; [reflexivity|].
    eapply validate_keys_raises. exact Hk.
Qed.

(** X25: a validated configuration whose three directories and whose
    format are texts in the file is one [start_segregation] can read: the
    texts stripped, the three numbers other than zero, and a pattern that
    is missing, empty or made of white space counting as no pattern. *)
Theorem a_validated_configuration_is_what_the_run_reads d args tr d' :
  (forall key, In key ["datetime_format"; "s3_dir"; "s3_segregated_dir"; "s3_error_dir"] ->
               exists s, get key d = VStr s) ->
  from_xml (get "match_pattern" d) ->
  is_trace (validate_refine_config d args) tr (Ok d') ->
  exists cfg,
    config_of_dict d' = Some cfg
    /\ VStr (s3_dir cfg) = refined_text (get "s3_dir" d)
    /\ VStr (s3_segregated_dir cfg) = refined_text (get "s3_segregated_dir" d)
    /\ VStr (s3_error_dir cfg) = refined_text (get "s3_error_dir" d)
    /\ VStr (datetime_format cfg) = refined_text (get "datetime_format" d)
    /\ match match_pattern cfg with Some p => VStr p | None => VNone end
       = refined_text (get "match_pattern" d)
    /\ refined_number (get "time_delay" d) 86400 = Some (time_delay cfg)
    /\ refined_number (get "n_keys" d) 500 = Some (n_keys cfg)
    /\ refined_number (get "n_loops" d) 10 = Some (n_loops cfg)
    /\ time_delay cfg <> 0 /\ n_keys cfg <> 0 /\ n_loops cfg <> 0
    /\ dict_get "n_workers" d' = Some (VInt (n_workers cfg))
    /\ (get "match_pattern" d = VNone
        \/ strip (py_str (get "match_pattern" d)) = "" ->
        pattern_of cfg = None).
Proof.
  intros Htexts Hpat H.
  assert (Ht : forall key,
             In key ["datetime_format"; "s3_dir"; "s3_segregated_dir"; "s3_error_dir"] ->
             exists s, get key d' = VStr s /\ VStr s = refined_text (get key d)).
  { intros key Hkey. destruct (Htexts key Hkey) as [s Hs].
    rewrite (validated_text _ _ _ _ key H) by (simpl in *; tauto).
    rewrite Hs. unfold refined_text. destruct (truthy (VStr s)); eauto. }
  destruct (Ht "s3_dir") as (dir & Hdir & Hdir'); [simpl; tauto|].
  destruct (Ht "s3_segregated_dir") as (seg & Hseg & Hseg'); [simpl; tauto|].
  destruct (Ht "s3_error_dir") as (err & Herr & Herr'); [simpl; tauto|].
  destruct (Ht "datetime_format") as (fmt & Hfmt & Hfmt'); [simpl; tauto|].
  destruct (validated_number _ _ _ _ "time_delay" 86400 H) as (delay & Hd1 & Hd2 & Hd3);
    [simpl; tauto|].
  destruct (validated_number _ _ _ _ "n_keys" 500 H) as (keys & Hk1 & Hk2 & Hk3);
    [simpl; tauto|].
  destruct (validated_number _ _ _ _ "n_loops" 10 H) as (loops & Hl1 & Hl2 & Hl3);
    [simpl; tauto|].
  destruct (validated_workers _ _ _ _ H) as (workers & Hw & _).
  assert (Hp : exists o : option string,
             get "match_pattern" d' = match o with Some p => VStr p | None => VNone end
             /\ match o with Some p => VStr p | None => VNone end
                = refined_text (get "match_pattern" d)).
  { rewrite (validated_text _ _ _ _ "match_pattern" H) by (simpl; tauto).
    unfold refined_text.
    destruct (get "match_pattern" d) as [| | |s| |items]; simpl in Hpat;
      try contradiction.
    - exists None. auto.
    - destruct (truthy (VStr s)); eexists (Some _); eauto.
    - destruct Hpat as [Hne _]. destruct items; [contradiction|].
      eexists (Some _); eauto. }
  destruct Hp as (o & Ho & Ho').
  exists {| s3_dir := dir; s3_segregated_dir := seg; s3_error_dir := err;
            match_pattern := o; datetime_format := fmt; time_delay := delay;
            n_keys := keys; n_loops := loops; n_workers := workers |}.
  cbn [s3_dir s3_segregated_dir s3_error_dir match_pattern datetime_format
       time_delay n_keys n_loops n_workers].
  split.
  - unfold config_of_dict. rewrite Hdir, Hseg, Herr, Hfmt, Ho.
    unfold get. rewrite Hd3, Hk3, Hl3, Hw. destruct o; reflexivity.
  - repeat (split; [assumption|]).
    intros Hempty. unfold pattern_of. cbn [match_pattern].
    destruct o as [p|]; [|reflexivity].
    destruct Hempty as [E|E].
    + rewrite E in Ho'. unfold refined_text in Ho'. simpl in Ho'. discriminate.
    + unfold refined_text in Ho'.
      destruct (truthy (get "match_pattern" d)) eqn:Htr.
      * rewrite E in Ho'. inversion Ho'. reflexivity.
      * rewrite <- Ho' in Htr. simpl in Htr.
        destruct (String.eqb p "") eqn:Ep; [|discriminate].
        apply String.eqb_eq in Ep. subst. reflexivity.
Qed.

End Validated.

(** ** The further properties at concrete inputs *)

Lemma a_listed_path_parses_back_to_its_key_witness :
  "cdr" <> "" /\ contains_char "/" "cdr" = false
  /\ startswith "/" "in/report_wrong_format.txt" = false
  /\ occurs "s3://" ("cdr" +:+ "/" +:+ "in/report_wrong_format.txt") = false
  /\ parse_s3_uri (os_path_join "cdr" "in/report_wrong_format.txt")
     = Ok ("cdr", "in/report_wrong_format.txt").
Proof.
  assert (H1 : "cdr" <> "") by discriminate.
  assert (H2 : contains_char "/" "cdr" = false) by reflexivity.
  assert (H3 : startswith "/" "in/report_wrong_format.txt" = false) by reflexivity.
  assert (H4 : occurs "s3://" ("cdr" +:+ "/" +:+ "in/report_wrong_format.txt") = false)
    by reflexivity.
  split; [exact H1|]. split; [exact H2|]. split; [exact H3|]. split; [exact H4|].
  exact (proj1 (a_listed_path_parses_back_to_its_key
                  (RT := CPython) "cdr" "in/report_wrong_format.txt" "s3://cdr/error/"
                  H1 H2 H3 H4)).
Defined.

Lemma a_move_keeps_only_the_base_name_witness :
  let res := run S3.service
               (move_files_to_s3 "cdr/in/a/report.txt" "s3://cdr/error/") twin_service in
  is_trace (move_files_to_s3 (RT := CPython) "cdr/in/a/report.txt" "s3://cdr/error/")
           res.2 res.1.1
  /\ forall b k src x,
      In (ECopy b k src x) res.2 ->
      src = "cdr/in/a/report.txt"
      /\ exists sb sk dd,
          parse_s3_uri "cdr/in/a/report.txt" = Ok (sb, sk)
          /\ parse_s3_uri "s3://cdr/error/" = Ok (b, dd)
          /\ os_path_basename k = os_path_basename sk
          /\ (k = dd +:+ os_path_basename sk
              \/ k = dd +:+ "/" +:+ os_path_basename sk).
Proof.
  intros res.
  assert (H : is_trace (move_files_to_s3 (RT := CPython)
                          "cdr/in/a/report.txt" "s3://cdr/error/") res.2 res.1.1).
  { eapply run_is_trace. apply triple_eta. }
  split; [exact H|].
  exact (a_move_keeps_only_the_base_name
           (RT := CPython) "cdr/in/a/report.txt" "s3://cdr/error/" _ _ H).
Defined.

Lemma without_workers_the_run_does_nothing_witness :
  let s := initial (sample_service S3.never S3.never S3.never) [] in
  let res := start_segregation S3.service (sample_validated_config 0) s in
  n_workers (sample_validated_config 0) <= 0
  /\ res.1 = Ok tt
  /\ m_trace res.2
     = m_trace s ++ [Step MainThread (ENow (S3.now (m_world s)).1);
                     Step MainThread (ELog ERROR "max_workers must be greater than 0")].
Proof.
  intros s res.
  assert (H : n_workers (sample_validated_config 0) <= 0) by (simpl; lia).
  split; [exact H|].
  destruct (without_workers_the_run_does_nothing
              (RT := CPython) S3.service (sample_validated_config 0) s _ _ H
              eq_refl (pair_eta _))
    as (H1 & H2 & _).
  split; [exact H1 | exact H2].
Defined.

Lemma a_source_without_separator_ends_the_run_witness :
  let cfg := {| s3_dir := "s3://cdr"; s3_segregated_dir := "s3://cdr/out/%Y/%m/%d/";
                s3_error_dir := "s3://cdr/error/"; match_pattern := None;
                datetime_format := "%Y%m%d"; time_delay := 86400;
                n_keys := 500; n_loops := 10; n_workers := 4 |} in
  let s := initial (sample_service S3.never S3.never S3.never) [] in
  let res := start_segregation S3.service cfg s in
  m_pending s = [] /\ 0 < n_workers cfg
  /\ contains_char "/" (replace "s3://" "" (s3_dir cfg)) = false
  /\ res.1 = Ok tt
  /\ m_trace res.2
     = m_trace s
       ++ [Step MainThread (ENow (S3.now (m_world s)).1);
           Step MainThread
             (ELog ERROR "not enough values to unpack (expected 2, got 1)")].
Proof.
  intros cfg s res.
  assert (H1 : m_pending s = []) by reflexivity.
  assert (H2 : 0 < n_workers cfg) by (simpl; lia).
  assert (H3 : contains_char "/" (replace "s3://" "" (s3_dir cfg)) = false) by reflexivity.
  split; [exact H1|]. split; [exact H2|]. split; [exact H3|].
  destruct (a_source_without_separator_ends_the_run
              (RT := CPython) S3.service cfg s _ _ H1 eq_refl H2 H3 (pair_eta _))
    as (Hr & Ht & _).
  split; [exact Hr | exact Ht].
Defined.

Lemma without_loops_the_run_lists_nothing_witness :
  let cfg := {| s3_dir := "s3://cdr/in/"; s3_segregated_dir := "s3://cdr/out/%Y/%m/%d/";
                s3_error_dir := "s3://cdr/error/"; match_pattern := None;
                datetime_format := "%Y%m%d"; time_delay := 86400;
                n_keys := 500; n_loops := -1; n_workers := 4 |} in
  let s := initial (sample_service S3.never S3.never S3.never) [] in
  let res := start_segregation S3.service cfg s in
  m_pending s = [] /\ 0 < n_workers cfg /\ n_loops cfg <= 0
  /\ parse_s3_uri (s3_dir cfg) = Ok ("cdr", "in/")
  /\ res.1 = Ok tt
  /\ m_trace res.2 = m_trace s ++ [Step MainThread (ENow (S3.now (m_world s)).1)].
Proof.
  intros cfg s res.
  assert (H1 : m_pending s = []) by reflexivity.
  assert (H2 : 0 < n_workers cfg) by (simpl; lia).
  assert (H3 : n_loops cfg <= 0) by (simpl; lia).
  assert (H4 : parse_s3_uri (s3_dir cfg) = Ok ("cdr", "in/")) by reflexivity.
  split; [exact H1|]. split; [exact H2|]. split; [exact H3|]. split; [exact H4|].
  destruct (without_loops_the_run_lists_nothing
              (RT := CPython) S3.service cfg s _ _ "cdr" "in/" H1 eq_refl H2 H3 H4
              (pair_eta _))
    as (Hr & Ht & _).
  split; [exact Hr | exact Ht].
Defined.

Lemma a_prefix_without_files_ends_the_run_witness :
  let s := initial emptied_service [] in
  let listing := S3.list_objects_v2 "cdr" "in/" 500 (S3.now (m_world s)).2 in
  let res := start_segregation S3.service sample_config s in
  m_pending s = [] /\ 0 < n_workers sample_config /\ 0 < n_loops sample_config
  /\ parse_s3_uri (s3_dir sample_config) = Ok ("cdr", "in/")
  /\ listing = (Ok ["in/"], listing.2)
  /\ real_files "cdr" ["in/"] = []
  /\ res.1 = Ok tt
  /\ m_trace res.2
     = m_trace s
       ++ [Step MainThread (ENow (S3.now (m_world s)).1);
           Step MainThread (EList "cdr" "in/" 500 (Ok ["in/"]));
           Step MainThread (ELog WARNING "No files left")]
  /\ m_done res.2 = [].
Proof.
  intros s listing res.
  assert (H1 : m_pending s = []) by reflexivity.
  assert (H2 : 0 < n_workers sample_config) by (simpl; lia).
  assert (H3 : 0 < n_loops sample_config) by (simpl; lia).
  assert (H4 : parse_s3_uri (s3_dir sample_config) = Ok ("cdr", "in/")) by reflexivity.
  assert (H5 : listing = (Ok ["in/"], listing.2)).
  { rewrite (pair_eta listing) at 1. reflexivity. }
  assert (H6 : real_files "cdr" ["in/"] = []) by reflexivity.
  split; [exact H1|]. split; [exact H2|]. split; [exact H3|]. split; [exact H4|].
  split; [exact H5|]. split; [exact H6|].
  destruct (a_prefix_without_files_ends_the_run
              (RT := CPython) S3.service sample_config s _ _ "cdr" "in/" ["in/"]
              listing.2 H1 eq_refl H2 H3 H4 H5 H6 (pair_eta _))
    as (Hr & Ht & _ & Hd).
  split; [exact Hr|]. split; [exact Ht | exact Hd].
Defined.

Lemma a_classification_that_raises_abandons_the_page_witness :
  let cfg := {| s3_dir := "s3://cdr/in/"; s3_segregated_dir := "s3://cdr/out/%Y/%m/%d/";
                s3_error_dir := "s3://cdr/error/"; match_pattern := Some "(";
                datetime_format := "%Y%m%d"; time_delay := 86400;
                n_keys := 500; n_loops := 10; n_workers := 4 |} in
  let s := initial (sample_service S3.never S3.never S3.never) [] in
  let keys := ["in/"; "in/CHARGINGCDR_4008-BROCC3-20240901-234125-56908.ber";
               "in/report_wrong_format.txt"] in
  let listing := S3.list_objects_v2 "cdr" "in/" 500 (S3.now (m_world s)).2 in
  let res := start_segregation S3.service cfg s in
  listing = (Ok keys, listing.2)
  /\ re_search (PyRuntime := CPython) "(" cdr_file
     = Raise (Exception "re.error" "cannot compile (")
  /\ res.1 = Ok tt
  /\ m_trace res.2
     = m_trace s
       ++ [Step MainThread (ENow (S3.now (m_world s)).1);
           Step MainThread (EList "cdr" "in/" 500 (Ok keys));
           Step MainThread (ELog INFO (page_record 1 10 3 2));
           Step MainThread (ELog ERROR "cannot compile (")]
  /\ m_world res.2 = listing.2
  /\ m_done res.2 = [].
Proof.
  intros cfg s keys listing res.
  assert (H1 : m_pending s = []) by reflexivity.
  assert (H2 : 0 < n_workers cfg) by (simpl; lia).
  assert (H3 : 0 < n_loops cfg) by (simpl; lia).
  assert (H4 : parse_s3_uri (s3_dir cfg) = Ok ("cdr", "in/")) by reflexivity.
  assert (H5 : listing = (Ok keys, listing.2)).
  { rewrite (pair_eta listing) at 1. reflexivity. }
  assert (H6 : real_files "cdr" keys
               = ["cdr/in/CHARGINGCDR_4008-BROCC3-20240901-234125-56908.ber";
                  "cdr/in/report_wrong_format.txt"]) by reflexivity.
  assert (H7 : pattern_of cfg = Some "(") by reflexivity.
  assert (H8 : re_search (PyRuntime := CPython) "("
                 (os_path_basename "cdr/in/CHARGINGCDR_4008-BROCC3-20240901-234125-56908.ber")
               = Raise (Exception "re.error" "cannot compile ("))
    by (vm_compute; reflexivity).
  split; [exact H5|]. split; [exact H8|].
  exact (a_classification_that_raises_abandons_the_page
           (RT := CPython) S3.service cfg s _ _ "cdr" "in/" keys listing.2 _ _ "(" _
           H1 eq_refl H2 H3 H4 H5 H6 H7 H8 (pair_eta _)).
Defined.

Lemma moves_with_one_base_name_overwrite_each_other_witness :
  let st' := (pool_wait S3.service 0 []
                [move_files_to_s3 "cdr/in/a/report.txt" "s3://cdr/out/";
                 move_files_to_s3 "cdr/in/b/report.txt" "s3://cdr/out/"] twin_service).1.2 in
  S3.objects twin_service !! ("cdr", "in/a/report.txt") = Some "first"
  /\ S3.objects twin_service !! ("cdr", "in/b/report.txt") = Some "second"
  /\ S3.objects st' !! ("cdr", "out/report.txt") = Some "second"
  /\ S3.objects st' !! ("cdr", "in/a/report.txt") = None
  /\ S3.objects st' !! ("cdr", "in/b/report.txt") = None.
Proof.
  intros st'.
  assert (H1 : S3.objects twin_service !! ("cdr", "in/a/report.txt") = Some "first")
    by (vm_compute; reflexivity).
  assert (H2 : S3.objects twin_service !! ("cdr", "in/b/report.txt") = Some "second")
    by (vm_compute; reflexivity).
  split; [exact H1|]. split; [exact H2|].
  refine (proj2 (moves_with_one_base_name_overwrite_each_other
                   (RT := CPython) twin_service 0%nat
                   "cdr/in/a/report.txt" "cdr/in/b/report.txt" "s3://cdr/out/"
                   "cdr" "in/a/report.txt" "cdr" "in/b/report.txt" "cdr" "out/"
                   "first" "second"
                   eq_refl eq_refl eq_refl eq_refl eq_refl eq_refl eq_refl eq_refl
                   _ _ _ H1 H2)); discriminate.
Defined.

Lemma every_listing_of_a_run_is_the_same_request_witness :
  let s := initial (sample_service S3.never S3.always S3.never) [] in
  let res := start_segregation S3.service sample_config s in
  m_pending s = []
  /\ exists tr,
      m_trace res.2 = m_trace s ++ tr
      /\ Forall (same_request sample_config) tr
      /\ forall th b d m x,
          In (Step th (EList b d m x)) tr ->
          th = MainThread /\ m = 500 /\ parse_s3_uri "s3://cdr/in/" = Ok (b, d).
Proof.
  intros s res. split; [reflexivity|].
  exact (every_listing_of_a_run_is_the_same_request
           (RT := CPython) S3.service sample_config s _ _ eq_refl (pair_eta _)).
Defined.

Lemma sample_validation :
  is_trace (validate_refine_config (HOST := sample_host) (parse_config sample_root) sample_args)
           [ENow (date 2024 9 2 8 0 0)]
           (Ok (sample_validated 4 VNone (date 2024 9 1 8 0 0))).
Proof. apply (trace_now (RT := CPython)). apply trace_ret. Qed.

Lemma sample_validation_dated :
  is_trace (validate_refine_config (HOST := sample_host)
              (parse_config sample_root) sample_args_dated) []
           (Ok (sample_validated 4 (VStr "2024-09-01 00:00:00") (date 2024 9 1 0 0 0))).
Proof. apply trace_ret. Qed.

Lemma sample_validation_single_cpu :
  is_trace (validate_refine_config (HOST := single_cpu_host)
              (parse_config sample_root) sample_args)
           [ENow (date 2024 9 2 8 0 0)]
           (Ok (sample_validated 0 VNone (date 2024 9 1 8 0 0))).
Proof. apply (trace_now (RT := CPython)). apply trace_ret. Qed.

Lemma parse_config_stores_texts_and_dictionaries_witness :
  dict_get "comment" (parse_config (RT := CPython) sample_root)
  = Some (VDict [("author", VStr "ops")])
  /\ from_xml (RT := CPython) (VDict [("author", VStr "ops")]).
Proof.
  assert (H : dict_get "comment" (parse_config (RT := CPython) sample_root)
              = Some (VDict [("author", VStr "ops")])) by reflexivity.
  split; [exact H|].
  exact (proj1 (parse_config_stores_texts_and_dictionaries (RT := CPython) sample_root)
               "comment" _ H).
Defined.

Lemma required_keys_are_checked_for_presence_only_witness :
  List.Forall (fun key => dict_mem key (parse_config (RT := CPython) sample_root) = true)
              required_keys
  /\ exists e,
      validate_key (HOST := sample_host) "s3_dir"
        {| required := true; type_ := "str"; permission := None |} [] = Raise e
      /\ dict_mem "s3_dir" ([] : list (string * pyval (RT := CPython))) = false.
Proof.
  destruct (required_keys_are_checked_for_presence_only (HOST := sample_host))
    as [Hall Hmiss].
  split; [exact (Hall _ _ _ _ sample_validation)|].
  eexists. split; [reflexivity|].
  refine (proj1 (Hmiss "s3_dir" [] _ _ eq_refl)). simpl. tauto.
Defined.

Lemma validated_numbers_are_integers_other_than_zero_witness :
  get "time_delay" (parse_config (RT := CPython) sample_root) = VStr "0"
  /\ List.Forall
       (fun '(key, default) =>
          exists z, refined_number (HOST := sample_host)
                      (get key (parse_config sample_root)) default = Some z
                    /\ z <> 0
                    /\ dict_get key (sample_validated 4 VNone (date 2024 9 1 8 0 0))
                       = Some (VInt z))
       [("time_delay", 86400); ("n_keys", 500); ("n_loops", 10)].
Proof.
  split; [reflexivity|].
  exact (validated_numbers_are_integers_other_than_zero
           (HOST := sample_host) _ _ _ _ sample_validation).
Defined.

Lemma validated_workers_default_to_half_the_cpus_witness :
  exists z,
    dict_get "n_workers" (sample_validated 4 VNone (date 2024 9 1 8 0 0)) = Some (VInt z)
    /\ ((truthy (get "n_workers" (parse_config (RT := CPython) sample_root)) = true
         /\ py_int (HOST := sample_host) (get "n_workers" (parse_config sample_root))
            = Some z /\ z <> 0)
        \/ (refined_number (HOST := sample_host)
              (get "n_workers" (parse_config sample_root)) 0 = Some 0
            /\ exists n, os_cpu_count (PyHost := sample_host) = Some n /\ z = n / 2)).
Proof.
  exact (validated_workers_default_to_half_the_cpus
           (HOST := sample_host) _ _ _ _ sample_validation).
Defined.

Lemma on_one_cpu_the_default_workers_run_nothing_witness :
  os_cpu_count (PyHost := single_cpu_host) = Some 1
  /\ refined_number (HOST := single_cpu_host)
       (get "n_workers" (parse_config sample_root)) 0 = Some 0
  /\ config_of_dict (sample_validated 0 VNone (date 2024 9 1 8 0 0))
     = Some (sample_validated_config 0)
  /\ n_workers (sample_validated_config 0) = 0
  /\ forall (W : Type) (cl : world W) s r s',
      sub_overflow (PyRuntime := CPython) (fst (w_now cl (m_world s))) 86400 = None ->
      start_segregation cl (sample_validated_config 0) s = (r, s') ->
      r = Ok tt
      /\ m_trace s'
         = m_trace s
           ++ [Step MainThread (ENow (fst (w_now cl (m_world s))));
               Step MainThread (ELog ERROR "max_workers must be greater than 0")].
Proof.
  assert (H1 : os_cpu_count (PyHost := single_cpu_host) = Some 1) by reflexivity.
  assert (H2 : refined_number (HOST := single_cpu_host)
                 (get "n_workers" (parse_config sample_root)) 0 = Some 0) by reflexivity.
  assert (H3 : config_of_dict (sample_validated 0 VNone (date 2024 9 1 8 0 0))
               = Some (sample_validated_config 0)) by reflexivity.
  split; [exact H1|]. split; [exact H2|]. split; [exact H3|].
  exact (on_one_cpu_the_default_workers_run_nothing
           (HOST := single_cpu_host) _ _ _ _ _ H1 H2 sample_validation_single_cpu H3).
Defined.

Lemma validated_texts_are_stripped_witness :
  get "match_pattern" (parse_config (RT := CPython) sample_root)
  = VStr " CHARGINGCDR_.*-(\d{8})-.*.ber "
  /\ get "match_pattern" (sample_validated 4 VNone (date 2024 9 1 8 0 0))
     = VStr "CHARGINGCDR_.*-(\d{8})-.*.ber"
  /\ List.Forall
       (fun key => get key (sample_validated 4 VNone (date 2024 9 1 8 0 0))
                   = refined_text (HOST := sample_host)
                       (get key (parse_config sample_root)))
       text_keys.
Proof.
  split; [reflexivity|]. split; [reflexivity|].
  exact (validated_texts_are_stripped (HOST := sample_host) _ _ _ _ sample_validation).
Defined.

Lemma validation_writes_its_own_keys_only_witness :
  dict_get "comment" (sample_validated 4 VNone (date 2024 9 1 8 0 0))
  = dict_get "comment" (parse_config (RT := CPython) sample_root)
  /\ dict_get "args_config" (sample_validated 4 VNone (date 2024 9 1 8 0 0))
     = Some (VStr "/etc/segregation.xml").
Proof.
  destruct (validation_writes_its_own_keys_only
              (HOST := sample_host) _ _ _ _ sample_validation)
    as (Hother & _ & _ & Hconfig & _).
  split; [|exact Hconfig].
  apply Hother; simpl; intuition discriminate.
Defined.

Lemma a_validated_log_file_has_a_writable_directory_witness :
  get "log_file" (sample_validated 4 VNone (date 2024 9 1 8 0 0))
  = get "log_file" (parse_config (RT := CPython) sample_root)
  /\ (truthy (get "log_file" (parse_config (RT := CPython) sample_root)) = true ->
      exists s, get "log_file" (parse_config (RT := CPython) sample_root) = VStr s
                /\ os_path_exists (PyHost := sample_host) (os_path_dirname s) = true
                /\ os_access (PyHost := sample_host) (os_path_dirname s) W_OK = true).
Proof.
  exact (a_validated_log_file_has_a_writable_directory
           (HOST := sample_host) _ _ _ _ sample_validation).
Defined.

Lemma a_log_file_without_directory_is_refused_witness :
  os_path_exists (PyHost := sample_host) "" = false
  /\ contains_char "/" "segregation.log" = false
  /\ exists e,
      is_trace (validate_refine_config (HOST := sample_host)
                  [("log_file", VStr "segregation.log")] sample_args) [] (Raise e)
      /\ e = ValueError
               (key_setting "log_file" {| required := true; type_ := "file";
                                          permission := Some "write" |}
                +:+ "error: file/directory " +:+ "" +:+ " doesn't exist.").
Proof.
  assert (H1 : os_path_exists (PyHost := sample_host) "" = false) by reflexivity.
  assert (H2 : contains_char "/" "segregation.log" = false) by reflexivity.
  assert (H3 : "segregation.log" <> "") by discriminate.
  split; [exact H1|]. split; [exact H2|]. eexists.
  assert (H : is_trace (validate_refine_config (HOST := sample_host)
                          [("log_file", VStr "segregation.log")] sample_args) []
                       (Raise (ValueError
                                 (key_setting "log_file"
                                    {| required := true; type_ := "file";
                                       permission := Some "write" |}
                                  +:+ "error: file/directory " +:+ ""
                                  +:+ " doesn't exist."))))
    by apply trace_throw.
  split; [exact H|].
  destruct (a_log_file_without_directory_is_refused
              (HOST := sample_host) [("log_file", VStr "segregation.log")] sample_args
              "segregation.log" _ _ H1 eq_refl H3 H2 H) as [_ E].
  inversion E. reflexivity.
Defined.

Lemma the_datetime_argument_changes_the_date_of_the_log_only_witness :
  arg_config sample_args = arg_config sample_args_dated
  /\ arg_verbose sample_args = arg_verbose sample_args_dated
  /\ dict_get "process_date" (sample_validated 4 VNone (date 2024 9 1 8 0 0))
     <> dict_get "process_date"
          (sample_validated 4 (VStr "2024-09-01 00:00:00") (date 2024 9 1 0 0 0))
  /\ config_of_dict (sample_validated 4 VNone (date 2024 9 1 8 0 0))
     = config_of_dict
         (sample_validated 4 (VStr "2024-09-01 00:00:00") (date 2024 9 1 0 0 0)).
Proof.
  split; [reflexivity|]. split; [reflexivity|]. split; [discriminate|].
  exact (proj2 (the_datetime_argument_changes_the_date_of_the_log_only
                  (HOST := sample_host) _ sample_args sample_args_dated _ _ _ _
                  eq_refl eq_refl sample_validation sample_validation_dated)).
Defined.

Lemma validate_args_accepts_a_readable_file_and_a_date_witness :
  os_path_exists (PyHost := sample_host) (arg_config sample_args_dated) = true
  /\ os_access (PyHost := sample_host) (arg_config sample_args_dated) R_OK = true
  /\ strptime (PyRuntime := CPython) "2024-09-01 00:00:00" "%Y-%m-%d %H:%M:%S"
     = Ok (date 2024 9 1 0 0 0)
  /\ validate_args (HOST := sample_host) sample_args_dated = Ok tt.
Proof.
  assert (H1 : os_path_exists (PyHost := sample_host) (arg_config sample_args_dated) = true)
    by reflexivity.
  assert (H2 : os_access (PyHost := sample_host) (arg_config sample_args_dated) R_OK = true)
    by reflexivity.
  assert (H3 : strptime (PyRuntime := CPython) "2024-09-01 00:00:00" "%Y-%m-%d %H:%M:%S"
               = Ok (date 2024 9 1 0 0 0)) by (vm_compute; reflexivity).
  split; [exact H1|]. split; [exact H2|]. split; [exact H3|].
  apply (proj1 (validate_args_accepts_a_readable_file_and_a_date
                  (HOST := sample_host) sample_args_dated)).
  split; [exact H1|]. split; [exact H2|].
  intros s E. inversion E; subst. eexists. exact H3.
Defined.

Lemma after_validate_args_two_places_can_fail_witness :
  validate_args (HOST := sample_host) sample_args_dated = Ok tt
  /\ exists e,
      is_trace (validate_refine_config (HOST := sample_host) [] sample_args_dated)
               [] (Raise e)
      /\ validate_keys (HOST := sample_host) config_keys (with_args [] sample_args_dated)
         = Raise e
      /\ is_ValueError e = true.
Proof.
  assert (H1 : validate_args (HOST := sample_host) sample_args_dated = Ok tt)
    by (vm_compute; reflexivity).
  split; [exact H1|]. eexists.
  assert (H2 : is_trace (validate_refine_config (HOST := sample_host) [] sample_args_dated)
                        [] (Raise (ValueError
                                     (key_setting "log_file"
                                        {| required := true; type_ := "file";
                                           permission := Some "write" |}
                                      +:+ "error: missing required key."))))
    by apply trace_throw.
  split; [exact H2|].
  destruct (after_validate_args_two_places_can_fail
              (HOST := sample_host) _ _ _ _ H1 H2)
    as [(_ & Hk & _)|(now & d1 & seconds & msg & Ht & _)]; [|discriminate Ht].
  split; [exact Hk | reflexivity].
Defined.

Lemma a_validated_configuration_is_what_the_run_reads_witness :
  (forall key, In key ["datetime_format"; "s3_dir"; "s3_segregated_dir"; "s3_error_dir"] ->
               exists s, get key (parse_config (RT := CPython) sample_root) = VStr s)
  /\ from_xml (get "match_pattern" (parse_config (RT := CPython) sample_root))
  /\ exists cfg,
      config_of_dict (sample_validated 4 VNone (date 2024 9 1 8 0 0)) = Some cfg
      /\ time_delay cfg <> 0 /\ n_keys cfg <> 0 /\ n_loops cfg <> 0.
Proof.
  assert (H1 : forall key,
             In key ["datetime_format"; "s3_dir"; "s3_segregated_dir"; "s3_error_dir"] ->
             exists s, get key (parse_config (RT := CPython) sample_root) = VStr s).
  { intros key [<-|[<-|[<-|[<-|[]]]]]; eexists; reflexivity. }
  assert (H2 : from_xml (get "match_pattern" (parse_config (RT := CPython) sample_root)))
    by exact I.
  split; [exact H1|]. split; [exact H2|].
  destruct (a_validated_configuration_is_what_the_run_reads
              (HOST := sample_host) _ _ _ _ H1 H2 sample_validation)
    as (cfg & Hc & _ & _ & _ & _ & _ & _ & _ & _ & Ht & Hk & Hl & _).
  exists cfg. auto.
Defined.
